(** * bacpypes3.analysis: the pcap decoding pipeline

    A shallow embedding of [bacpypes3/analysis.py]: the frame peeling
    functions ([decode_ethernet], [decode_vlan], [decode_ip], [decode_udp]),
    the three layer decoders ([decode_lpdu], [decode_npdu], [decode_apdu]),
    the two pipeline entry points ([decode_packet], [decode_packet_full]),
    the per-record generators ([decode_file], [decode_file_full]) and the
    tracer loop ([trace]).

    Conventions.
    - [bytes] is [list Byte.byte]; [s[a:b]] is [slice a b s], [s[a:]] is
      [drop a s], [s[i]] is [index s i] (IndexError out of range).
    - A Python call that may raise returns [Exc A]: [Ok a] or [Raise e].
      Every fault of this module is a subclass of [Exception], so
      [try ... except Exception] catches every [Raise].
    - The per-type codecs ([LPDU.decode], [NPDU.decode], [APDU.decode],
      the BVLL and network-message registries) and [btox] live in other
      modules of the package; the codecs are the fields of [Codec], [btox]
      is a variable, and every theorem holds for every codec.
    - A decode call of a codec reads the record it is given by consuming
      octets of that record's [pduData], and [analysis.py] goes on using the
      record.  Each [X_decode] field of [Codec] is what the call returns or
      raises; the field [X_decode_rest] next to it is the [pduData] the call
      leaves in its argument.  The call changes nothing else of its
      argument.
    - Instances of the PDU classes and of [Address] define neither
      [__bool__] nor [__len__]: they are truthy, and [if not x] on an
      [Optional] value tests for [None].  [lpdu != pdu] is the default
      identity comparison. *)

From Stdlib Require Import ZArith Strings.String Strings.Byte DecimalString.
From Stdlib Require Import Sorting.Sorted.
From stdpp Require Import base list.

Local Open Scope Z_scope.

(** ** Faults and the error monad *)

Inductive Fault : Type :=
| IndexError
| StructError            (* struct.error *)
| OSError                (* socket.inet_ntoa on a wrong length *)
| UnboundLocalError
| TypeError
| AttributeError
| DecodingError
| OtherError (tag : Z).

Inductive Exc (A : Type) : Type :=
| Ok (a : A)
| Raise (e : Fault).
Arguments Ok {A} a.
Arguments Raise {A} e.

Definition bind {A B : Type} (m : Exc A) (k : A -> Exc B) : Exc B :=
  match m with
  | Ok a => k a
  | Raise e => Raise e
  end.

Notation "x <- m ;; k" := (bind m (fun x => k))
  (at level 100, m at next level, right associativity).

(** ** Bytes *)

Definition bytes : Type := list Byte.byte.

Definition byte_val (b : Byte.byte) : Z := Z.of_N (Byte.to_N b).

(** [s[a:b]] for non-negative [a], [b]. *)
Definition slice (a b : nat) (s : bytes) : bytes := take (b - a) (drop a s).

(** [s[i]] for non-negative [i]. *)
Definition index (s : bytes) (i : nat) : Exc Z :=
  match s !! i with
  | Some b => Ok (byte_val b)
  | None => Raise IndexError
  end.

(** [struct.unpack("!H", s)[0]]: exactly two bytes, big endian. *)
Definition unpack_H (s : bytes) : Exc Z :=
  match s with
  | [hi; lo] => Ok (256 * byte_val hi + byte_val lo)
  | _ => Raise StructError
  end.

(** [not data] on a bytes value. *)
Definition is_empty (s : bytes) : bool :=
  match s with [] => true | _ => false end.

Definition dec_string (n : Z) : string :=
  NilEmpty.string_of_uint (N.to_uint (Z.to_N n)).

(** [socket.inet_ntoa]: exactly four bytes, dotted decimal. *)
Definition inet_ntoa (s : bytes) : Exc string :=
  match s with
  | [a; b; c; d] =>
      Ok (dec_string (byte_val a) ++ "." ++ dec_string (byte_val b) ++ "."
          ++ dec_string (byte_val c) ++ "." ++ dec_string (byte_val d))%string
  | _ => Raise OSError
  end.

(** ** Frame headers *)

Record EthernetHeader : Type := {
  eth_destination_address : string;
  eth_source_address : string;
  eth_type : Z;
  eth_data : bytes
}.

Record VlanHeader : Type := {
  vlan_priority : Z;
  vlan_cfi : Z;
  vlan_vlan : Z;
  vlan_type : Z;
  vlan_data : bytes
}.

(** The values of [d["protocol"]]: the names of [_protocols], or the
    formatted number for any other protocol. *)
Inductive Protocol : Type :=
| proto_tcp
| proto_udp
| proto_icmp
| proto_other (n : Z).

Definition IPPROTO_ICMP : Z := 1.
Definition IPPROTO_TCP : Z := 6.
Definition IPPROTO_UDP : Z := 17.

Definition _protocols (n : Z) : Protocol :=
  if n =? IPPROTO_TCP then proto_tcp
  else if n =? IPPROTO_UDP then proto_udp
  else if n =? IPPROTO_ICMP then proto_icmp
  else proto_other n.

Definition is_udp (p : Protocol) : bool :=
  match p with proto_udp => true | _ => false end.

Record IpHeader : Type := {
  ip_version : Z;
  ip_header_len : Z;
  ip_tos : Z;
  ip_total_len : Z;
  ip_id : Z;
  ip_flags : Z;
  ip_fragment_offset : Z;
  ip_ttl : Z;
  ip_protocol : Protocol;
  ip_checksum : Z;
  ip_source_address : string;
  ip_destination_address : string;
  ip_options : option bytes;
  ip_data : bytes
}.

Record UdpHeader : Type := {
  udp_source_port : Z;
  udp_destination_port : Z;
  udp_length : Z;
  udp_checksum : Z;
  udp_data : bytes
}.

(** ** Frame peeling *)

Section Analysis.

(** [btox(data, sep)] of [bacpypes3.debugging]: the hexadecimal rendering
    of [data] with [sep] between the octets.  It never raises. *)
Variable btox : bytes -> string -> string.

Definition decode_ethernet (s : bytes) : Exc EthernetHeader :=
  let destination_address := btox (slice 0 6 s) ":" in
  let source_address := btox (slice 6 12 s) ":" in
  type <- unpack_H (slice 12 14 s) ;;
  Ok {| eth_destination_address := destination_address;
        eth_source_address := source_address;
        eth_type := type;
        eth_data := drop 14 s |}.

Definition decode_vlan (s : bytes) : Exc VlanHeader :=
  x <- unpack_H (slice 0 2 s) ;;
  type <- unpack_H (slice 2 4 s) ;;
  Ok {| vlan_priority := Z.land (Z.shiftr x 13) 0x07;
        vlan_cfi := Z.land (Z.shiftr x 12) 0x01;
        vlan_vlan := Z.land x 0x0FFF;
        vlan_type := type;
        vlan_data := drop 4 s |}.

Definition decode_ip (s : bytes) : Exc IpHeader :=
  s0 <- index s 0 ;;
  let version := Z.shiftr (Z.land s0 0xF0) 4 in
  let header_len := Z.land s0 0x0F in
  tos <- index s 1 ;;
  total_len <- unpack_H (slice 2 4 s) ;;
  id <- unpack_H (slice 4 6 s) ;;
  s6 <- index s 6 ;;
  let flags := Z.shiftr (Z.land s6 0xE0) 5 in
  fo <- unpack_H (slice 6 8 s) ;;
  let fragment_offset := Z.land fo 0x1F in
  ttl <- index s 8 ;;
  s9 <- index s 9 ;;
  let protocol := _protocols s9 in
  checksum <- unpack_H (slice 10 12 s) ;;
  source_address <- inet_ntoa (slice 12 16 s) ;;
  destination_address <- inet_ntoa (slice 16 20 s) ;;
  let options :=
    if 5 <? header_len
    then Some (slice 20 (Z.to_nat (4 * (header_len - 5))) s)
    else None in
  Ok {| ip_version := version;
        ip_header_len := header_len;
        ip_tos := tos;
        ip_total_len := total_len;
        ip_id := id;
        ip_flags := flags;
        ip_fragment_offset := fragment_offset;
        ip_ttl := ttl;
        ip_protocol := protocol;
        ip_checksum := checksum;
        ip_source_address := source_address;
        ip_destination_address := destination_address;
        ip_options := options;
        ip_data := drop (Z.to_nat (4 * header_len)) s |}.

Definition decode_udp (s : bytes) : Exc UdpHeader :=
  source_port <- unpack_H (slice 0 2 s) ;;
  destination_port <- unpack_H (slice 2 4 s) ;;
  length <- unpack_H (slice 4 6 s) ;;
  checksum <- unpack_H (slice 6 8 s) ;;
  Ok {| udp_source_port := source_port;
        udp_destination_port := destination_port;
        udp_length := length;
        udp_checksum := checksum;
        udp_data := slice 8 (Z.to_nat (8 + length - 8)) s |}.

(** ** Addresses and protocol data units *)

(** What an [Address] was built from. *)
Inductive AddressValue : Type :=
| AddressOfString (s : string)              (* Address("aa:bb:cc:dd:ee:ff") *)
| AddressOfTuple (host : string) (port : Z) (* Address((host, port)) *)
| AddressOfOctets (net : option Z) (octets : bytes). (* built by a codec *)

(** The value of a [pduSource] or [pduDestination] attribute: an
    [Address] object, or the bare [str] that [decode_ip] produced.  An
    [Address] carries the optional [addrRoute] annotation. *)
Inductive Endpoint : Type :=
| EndpointStr (s : string)
| EndpointAddress (a : Address)
with Address : Type :=
| mkAddress (addrValue : AddressValue) (addrRoute : option Endpoint).

Definition addrValue (a : Address) : AddressValue :=
  match a with mkAddress v _ => v end.
Definition addrRoute (a : Address) : option Endpoint :=
  match a with mkAddress _ r => r end.

(** [Address(arg)]: a new address, no route. *)
Definition Address_new (v : AddressValue) : Address := mkAddress v None.

(** [a.addrRoute = r]. *)
Definition set_addrRoute (a : Address) (r : option Endpoint) : Address :=
  mkAddress (addrValue a) r.

Record PDU : Type := mkPDU {
  pduData : bytes;
  pduSource : option Endpoint;
  pduDestination : option Endpoint
}.

(** The classes of the BVLL registry.  [decode_lpdu] names four of them. *)
Inductive AType : Type :=
| ForwardedNPDU
| DistributeBroadcastToNetwork
| OriginalUnicastNPDU
| OriginalBroadcastNPDU
| OtherBVLL (function : Z).

Definition AType_eqb (a b : AType) : bool :=
  match a, b with
  | ForwardedNPDU, ForwardedNPDU => true
  | DistributeBroadcastToNetwork, DistributeBroadcastToNetwork => true
  | OriginalUnicastNPDU, OriginalUnicastNPDU => true
  | OriginalBroadcastNPDU, OriginalBroadcastNPDU => true
  | OtherBVLL f, OtherBVLL g => f =? g
  | _, _ => false
  end.

(** An [LPDU], generic or of one of the registry's classes. *)
Record LPDU : Type := mkLPDU {
  lpdu_pdu : PDU;                  (* the inherited PDU attributes *)
  bvlciFunction : Z;
  bvlciAddress : option Address    (* ForwardedNPDU only *)
}.

(** The classes of the network-message registry. *)
Inductive NType : Type :=
| NetworkMessage (message_type : Z).

Record NPDU : Type := mkNPDU {
  npdu_pdu : PDU;
  npduNetMessage : option Z;
  npduSADR : option Address;
  npduDADR : option Address;
  npduClass : option NType         (* set by a specialised decode *)
}.

Inductive APDUClass : Type :=
| ConfirmedRequestPDU
| UnconfirmedRequestPDU
| ComplexAckPDU
| OtherAPDU (pdu_type : Z).

Record APDU : Type := mkAPDU {
  apdu_pdu : PDU;
  apduClass : APDUClass;
  apduService : option Z           (* set by APCISequence.decode *)
}.

(** [Union[PDU, LPDU]]: what [decode_lpdu] returns first and what
    [decode_npdu] receives.  [SamePDU pdu] is the object that was passed
    in; [DecodedLPDU lpdu] is an object made by the codec. *)
Inductive LinkRecord : Type :=
| SamePDU (pdu : PDU)
| DecodedLPDU (lpdu : LPDU).

Definition link_pdu (r : LinkRecord) : PDU :=
  match r with
  | SamePDU pdu => pdu
  | DecodedLPDU lpdu => lpdu_pdu lpdu
  end.

(** "Some kind of PDU": what [decode_packet] returns. *)
Inductive Packet : Type :=
| PacketPDU (pdu : PDU)
| PacketLPDU (lpdu : LPDU)
| PacketNPDU (npdu : NPDU)
| PacketAPDU (apdu : APDU).

Definition Packet_of_link (r : LinkRecord) : Packet :=
  match r with
  | SamePDU pdu => PacketPDU pdu
  | DecodedLPDU lpdu => PacketLPDU lpdu
  end.

(** Attribute assignments on the inherited part. *)
Definition set_pduData (p : PDU) (d : bytes) : PDU :=
  {| pduData := d; pduSource := pduSource p; pduDestination := pduDestination p |}.
Definition set_pduSource (p : PDU) (a : option Endpoint) : PDU :=
  {| pduData := pduData p; pduSource := a; pduDestination := pduDestination p |}.
Definition set_pduDestination (p : PDU) (a : option Endpoint) : PDU :=
  {| pduData := pduData p; pduSource := pduSource p; pduDestination := a |}.

Definition LPDU_set_pduData (l : LPDU) (d : bytes) : LPDU :=
  {| lpdu_pdu := set_pduData (lpdu_pdu l) d;
     bvlciFunction := bvlciFunction l;
     bvlciAddress := bvlciAddress l |}.
Definition LPDU_set_pduSource (l : LPDU) (a : option Endpoint) : LPDU :=
  {| lpdu_pdu := set_pduSource (lpdu_pdu l) a;
     bvlciFunction := bvlciFunction l;
     bvlciAddress := bvlciAddress l |}.
Definition LPDU_set_bvlciAddress (l : LPDU) (a : option Address) : LPDU :=
  {| lpdu_pdu := lpdu_pdu l;
     bvlciFunction := bvlciFunction l;
     bvlciAddress := a |}.
Definition NPDU_set_pduData (n : NPDU) (d : bytes) : NPDU :=
  {| npdu_pdu := set_pduData (npdu_pdu n) d;
     npduNetMessage := npduNetMessage n;
     npduSADR := npduSADR n;
     npduDADR := npduDADR n;
     npduClass := npduClass n |}.
Definition NPDU_set_npduSADR (n : NPDU) (a : option Address) : NPDU :=
  {| npdu_pdu := npdu_pdu n;
     npduNetMessage := npduNetMessage n;
     npduSADR := a;
     npduDADR := npduDADR n;
     npduClass := npduClass n |}.
Definition APDU_set_pduData (a : APDU) (d : bytes) : APDU :=
  {| apdu_pdu := set_pduData (apdu_pdu a) d;
     apduClass := apduClass a;
     apduService := apduService a |}.
Definition APDU_set_pduSource (a : APDU) (e : option Endpoint) : APDU :=
  {| apdu_pdu := set_pduSource (apdu_pdu a) e;
     apduClass := apduClass a;
     apduService := apduService a |}.
Definition APDU_set_pduDestination (a : APDU) (e : option Endpoint) : APDU :=
  {| apdu_pdu := set_pduDestination (apdu_pdu a) e;
     apduClass := apduClass a;
     apduService := apduService a |}.

(** ** The external codecs and the settings *)

(** [pdu.pduData = d] on either kind of link record: the same object with
    another payload. *)
Definition link_set_pduData (r : LinkRecord) (d : bytes) : LinkRecord :=
  match r with
  | SamePDU pdu => SamePDU (set_pduData pdu d)
  | DecodedLPDU lpdu => DecodedLPDU (LPDU_set_pduData lpdu d)
  end.

(** The calls into the codec modules.  A [decode] consumes octets of its
    argument: [X_decode] is its result, [X_decode_rest] the [pduData] left
    in the argument when the call returns or raises. *)
Record Codec : Type := {
  LPDU_decode : PDU -> Exc LPDU;                 (* LPDU.decode(pdu) *)
  LPDU_decode_rest : PDU -> bytes;
  bvll_pdu_types : Z -> option AType;            (* bvll_pdu_types.get(f) *)
  AType_call : AType -> Exc LPDU;                (* atype() *)
  AType_decode : AType -> LPDU -> Exc LPDU;      (* atype.decode(lpdu) *)
  AType_decode_rest : AType -> LPDU -> bytes;
  NPDU_decode : LinkRecord -> Exc NPDU;          (* NPDU.decode(pdu) *)
  NPDU_decode_rest : LinkRecord -> bytes;
  npdu_types : Z -> option NType;                (* npdu_types.get(m) *)
  NType_decode : NType -> NPDU -> Exc NPDU;      (* ntype.decode(npdu) *)
  NType_decode_rest : NType -> NPDU -> bytes;
  APDU_decode : NPDU -> Exc APDU;                (* APDU.decode(npdu) *)
  APDU_decode_rest : NPDU -> bytes;
  APCISequence_decode : APDU -> Exc APDU;        (* APCISequence.decode(apdu) *)
  APCISequence_decode_rest : APDU -> bytes
}.

Record Settings : Type := {
  route_aware : bool
}.

Variable codec : Codec.
Variable settings : Settings.

(** ** The layer decoders *)

(** [decode_lpdu(pdu)], lines 143-196.  The first component of the result
    is the argument [pdu] as the call leaves it, the second is the returned
    tuple; in [SamePDU pdu] the returned record is that same object.
    [xpdu] is the structural record, which [atype.decode] consumes.  [bpdu]
    is the instance made by [atype()]; its [bvlciAddress] is the object that
    becomes the source, so the route written through
    [lpdu.pduSource.addrRoute] shows in [bpdu] too. *)
Definition decode_lpdu (pdu : PDU) : Exc (PDU * (LinkRecord * option LPDU)) :=
  b0 <- index (pduData pdu) 0 ;;
  if negb (b0 =? 0x81) then Ok (pdu, (SamePDU pdu, None))
  else
    let decoded := LPDU_decode codec pdu in
    let pdu := set_pduData pdu (LPDU_decode_rest codec pdu) in
    match decoded with
    | Raise err => Ok (pdu, (SamePDU pdu, None))
    | Ok lpdu =>
        match bvll_pdu_types codec (bvlciFunction lpdu) with
        | None => Ok (pdu, (DecodedLPDU lpdu, None))
        | Some atype =>
            let xpdu := lpdu in
            match AType_call codec atype with
            | Raise err => Ok (pdu, (DecodedLPDU xpdu, None))
            | Ok bpdu =>
                let decoded := AType_decode codec atype lpdu in
                let xpdu :=
                  LPDU_set_pduData xpdu (AType_decode_rest codec atype lpdu) in
                match decoded with
                | Raise err => Ok (pdu, (DecodedLPDU xpdu, None))
                | Ok lpdu =>
                    if AType_eqb atype ForwardedNPDU then
                      let old_pdu_source := pduSource (lpdu_pdu lpdu) in
                      match route_aware settings, bvlciAddress bpdu with
                      | true, Some address =>
                          let address := set_addrRoute address old_pdu_source in
                          Ok (pdu,
                              (DecodedLPDU
                                 (LPDU_set_pduSource lpdu
                                    (Some (EndpointAddress address))),
                               Some (LPDU_set_bvlciAddress bpdu (Some address))))
                      | _, _ => Ok (pdu, (DecodedLPDU lpdu, Some bpdu))
                      end
                    else if negb (AType_eqb atype DistributeBroadcastToNetwork
                                  || AType_eqb atype OriginalUnicastNPDU
                                  || AType_eqb atype OriginalBroadcastNPDU)
                    then Ok (pdu, (DecodedLPDU lpdu, Some bpdu))
                    else Ok (pdu, (DecodedLPDU lpdu, Some bpdu))
                end
            end
        end
    end.

(** [decode_npdu(pdu)], lines 200-244.  The first component of the result
    is the argument as the call leaves it, the second is the returned
    value.  A specialised decode that raises has consumed the structural
    NPDU, which is then returned. *)
Definition decode_npdu (pdu : LinkRecord) : Exc (LinkRecord * option NPDU) :=
  b0 <- index (pduData (link_pdu pdu)) 0 ;;
  if negb (b0 =? 0x01) then Ok (pdu, None)
  else
    let decoded := NPDU_decode codec pdu in
    let pdu := link_set_pduData pdu (NPDU_decode_rest codec pdu) in
    match decoded with
    | Raise err => Ok (pdu, None)
    | Ok npdu =>
        match npduNetMessage npdu with
        | Some message =>
            match npdu_types codec message with
            | None => Ok (pdu, Some npdu)
            | Some ntype =>
                match NType_decode codec ntype npdu with
                | Ok npdu' => Ok (pdu, Some npdu')
                | Raise err =>
                    Ok (pdu,
                        Some (NPDU_set_pduData npdu
                                (NType_decode_rest codec ntype npdu)))
                end
            end
        | None => Ok (pdu, Some npdu)
        end
    end.

Definition is_sequence_class (c : APDUClass) : bool :=
  match c with
  | ConfirmedRequestPDU | ComplexAckPDU | UnconfirmedRequestPDU => true
  | OtherAPDU _ => false
  end.

(** [decode_apdu(npdu)], lines 248-293.  The first component of the result
    is [npdu] as it stands when the function returns, the second is the
    returned value: [APDU.decode] consumes [npdu], and the source address of
    the result is the object [npdu.npduSADR], so the route written through
    [apdu.pduSource.addrRoute] shows in [npdu] too.  A sequence decode that
    raises AttributeError has consumed the APDU, which is then returned. *)
Definition decode_apdu (npdu : NPDU) : Exc (NPDU * option APDU) :=
  match npduNetMessage npdu with
  | Some _ => Ok (npdu, None)
  | None =>
      let decoded := APDU_decode codec npdu in
      let npdu := NPDU_set_pduData npdu (APDU_decode_rest codec npdu) in
      match decoded with
      | Raise err => Ok (npdu, None)
      | Ok apdu =>
          let '(npdu, apdu) :=
            match npduSADR npdu with
            | Some sadr =>
                if route_aware settings then
                  let sadr := set_addrRoute sadr (pduSource (npdu_pdu npdu)) in
                  (NPDU_set_npduSADR npdu (Some sadr),
                   APDU_set_pduSource apdu (Some (EndpointAddress sadr)))
                else (npdu, APDU_set_pduSource apdu (Some (EndpointAddress sadr)))
            | None => (npdu, APDU_set_pduSource apdu (pduSource (npdu_pdu npdu)))
            end in
          let apdu :=
            match npduDADR npdu with
            | Some dadr => APDU_set_pduDestination apdu (Some (EndpointAddress dadr))
            | None => APDU_set_pduDestination apdu (pduDestination (npdu_pdu npdu))
            end in
          if is_sequence_class (apduClass apdu) then
            match APCISequence_decode codec apdu with
            | Ok apdu' => Ok (npdu, Some apdu')
            | Raise AttributeError =>
                Ok (npdu,
                    Some (APDU_set_pduData apdu
                            (APCISequence_decode_rest codec apdu)))
            | Raise err => Raise err
            end
          else Ok (npdu, Some apdu)
      end
  end.

(** The address assignments of [decode_apdu], lines 270-280, on their own:
    the NPDU and the APDU as they stand after them. *)
Definition lift_addresses (npdu : NPDU) (apdu : APDU) : NPDU * APDU :=
  let '(npdu, apdu) :=
    match npduSADR npdu with
    | Some sadr =>
        if route_aware settings then
          let sadr := set_addrRoute sadr (pduSource (npdu_pdu npdu)) in
          (NPDU_set_npduSADR npdu (Some sadr),
           APDU_set_pduSource apdu (Some (EndpointAddress sadr)))
        else (npdu, APDU_set_pduSource apdu (Some (EndpointAddress sadr)))
    | None => (npdu, APDU_set_pduSource apdu (pduSource (npdu_pdu npdu)))
    end in
  let apdu :=
    match npduDADR npdu with
    | Some dadr => APDU_set_pduDestination apdu (Some (EndpointAddress dadr))
    | None => APDU_set_pduDestination apdu (pduDestination (npdu_pdu npdu))
    end in
  (npdu, apdu).

(** ** The pipeline *)

(** The local variables of an entry point at its "check for empty" line.
    [None] is a name that has not been bound. *)
Record Locals : Type := {
  loc_data : bytes;
  loc_pduSource : option Endpoint;
  loc_pduDestination : option Endpoint
}.

(** Reading a local variable. *)
Definition read_local {A : Type} (v : option A) : Exc A :=
  match v with
  | Some a => Ok a
  | None => Raise UnboundLocalError
  end.

(** [PDU(data, source=pduSource, destination=pduDestination)]: the two
    names are read, then the record is made. *)
Definition build_PDU (l : Locals) : Exc PDU :=
  source <- read_local (loc_pduSource l) ;;
  destination <- read_local (loc_pduDestination l) ;;
  Ok (mkPDU (loc_data l) (Some source) (Some destination)).

(** The optional VLAN header, lines 312-318 and 393-399: the ethertype in
    force afterwards and the remaining data. *)
Definition vlan_step (d : EthernetHeader) : Exc (Z * bytes) :=
  let data := eth_data d in
  if eth_type d =? 0x8100 then
    d <- decode_vlan data ;;
    Ok (vlan_type d, vlan_data d)
  else Ok (eth_type d, data).

(** The IP and UDP headers, lines 320-346 and 401-427, from the values
    [pduSource] and [pduDestination] have on entry. *)
Definition ip_step (type : Z) (data : bytes)
    (pduSource pduDestination : option Endpoint) : Exc Locals :=
  if type =? 0x0800 then
    d <- decode_ip data ;;
    let pduSource := ip_source_address d in
    let pduDestination := ip_destination_address d in
    let data := ip_data d in
    if is_udp (ip_protocol d) then
      d <- decode_udp data ;;
      let data := udp_data d in
      Ok {| loc_data := data;
            loc_pduSource :=
              Some (EndpointAddress
                      (Address_new (AddressOfTuple pduSource (udp_source_port d))));
            loc_pduDestination :=
              Some (EndpointAddress
                      (Address_new (AddressOfTuple pduDestination
                                                   (udp_destination_port d)))) |}
    else
      Ok {| loc_data := data;
            loc_pduSource := Some (EndpointStr pduSource);
            loc_pduDestination := Some (EndpointStr pduDestination) |}
  else
    Ok {| loc_data := data;
          loc_pduSource := pduSource;
          loc_pduDestination := pduDestination |}.

(** Lines 306-346 of [decode_packet].  The Ethernet addresses go to
    [pdu_source] and [pdu_destination]; [pduSource] and [pduDestination]
    are bound in the IP branch only. *)
Definition decode_packet_frame (data : bytes) : Exc Locals :=
  d <- decode_ethernet data ;;
  let pdu_source := Address_new (AddressOfString (eth_source_address d)) in
  let pdu_destination := Address_new (AddressOfString (eth_destination_address d)) in
  td <- vlan_step d ;;
  ip_step (fst td) (snd td) None None.

(** Lines 357-372 of [decode_packet].  [lpdu] is returned as
    [decode_npdu] leaves it, [npdu] as [decode_apdu] leaves it. *)
Definition decode_packet_layers (pdu : PDU) : Exc (option Packet) :=
  lb <- decode_lpdu pdu ;;
  let lpdu := fst (snd lb) in
  nb <- decode_npdu lpdu ;;
  let lpdu := fst nb in
  match snd nb with
  | None => Ok (Some (Packet_of_link lpdu))
  | Some npdu =>
      na <- decode_apdu npdu ;;
      match snd na with
      | Some apdu => Ok (Some (PacketAPDU apdu))
      | None => Ok (Some (PacketNPDU (fst na)))
      end
  end.

(** [decode_packet(data)], lines 297-372. *)
Definition decode_packet (data : bytes) : Exc (option Packet) :=
  if is_empty data then Ok None
  else
    l <- decode_packet_frame data ;;
    if is_empty (loc_data l) then Ok None
    else
      pdu <- build_PDU l ;;
      decode_packet_layers pdu.

Variable Timestamp : Type.

Record DecodedPacket : Type := mkDecodedPacket {
  pdu : PDU;
  lpdu : option LPDU;
  npdu : option NPDU;
  apdu : option APDU;
  number : option Z;
  timestamp : option Timestamp
}.

(** Lines 387-427 of [decode_packet_full]. *)
Definition decode_packet_full_frame (data : bytes) : Exc Locals :=
  d <- decode_ethernet data ;;
  let pduSource := Address_new (AddressOfString (eth_source_address d)) in
  let pduDestination := Address_new (AddressOfString (eth_destination_address d)) in
  td <- vlan_step d ;;
  ip_step (fst td) (snd td)
          (Some (EndpointAddress pduSource)) (Some (EndpointAddress pduDestination)).

(** Lines 438-455 of [decode_packet_full].  The fields hold objects: the
    record shows each as it stands when the function returns.  [result.pdu]
    is the object [pdu], which [decode_lpdu] may have consumed, and which
    [decode_npdu] consumes further when [decode_lpdu] handed it back;
    [result.lpdu] is set when [decode_lpdu] returned another object, and
    shows it as [decode_npdu] leaves it ([decode_npdu] does not change the
    kind of its argument); [result.npdu] is as [decode_apdu] leaves it. *)
Definition decode_packet_full_layers (pdu0 : PDU) : Exc (option DecodedPacket) :=
  lb <- decode_lpdu pdu0 ;;
  let pdu0 := fst lb in
  nb <- decode_npdu (fst (snd lb)) ;;
  let result_pdu :=
    match fst nb with
    | SamePDU pdu => pdu
    | DecodedLPDU _ => pdu0
    end in
  let result_lpdu :=
    match fst nb with
    | DecodedLPDU l => Some l
    | SamePDU _ => None
    end in
  match snd nb with
  | Some n =>
      na <- decode_apdu n ;;
      Ok (Some {| pdu := result_pdu; lpdu := result_lpdu; npdu := Some (fst na);
                  apdu := snd na; number := None; timestamp := None |})
  | None =>
      Ok (Some {| pdu := result_pdu; lpdu := result_lpdu; npdu := None;
                  apdu := None; number := None; timestamp := None |})
  end.

(** [decode_packet_full(data)], lines 376-455. *)
Definition decode_packet_full (data : bytes) : Exc (option DecodedPacket) :=
  if is_empty data then Ok None
  else
    l <- decode_packet_full_frame data ;;
    if is_empty (loc_data l) then Ok None
    else
      pdu <- build_PDU l ;;
      decode_packet_full_layers pdu.

(** ** The per-record generators *)

(** One item of [pylibpcap.pcap.rpcap(fname)]: [(len, timestamp, data)]. *)
Record RawRecord : Type := mkRawRecord {
  raw_len : Z;
  raw_timestamp : Timestamp;
  raw_data : bytes
}.

(** A packet of [decode_file], with the two attributes the loop adds. *)
Record NumberedPacket : Type := mkNumberedPacket {
  pkt : Packet;
  _number : Z;
  _timestamp : Timestamp
}.

(** The loop of [decode_file], lines 470-484, from index [i]; the list is
    the sequence of yielded packets. *)
Fixpoint decode_file_loop (i : Z) (p : list RawRecord) : list NumberedPacket :=
  match p with
  | [] => []
  | r :: p' =>
      match decode_packet (raw_data r) with
      | Ok (Some pkt) =>
          {| pkt := pkt; _number := i + 1; _timestamp := raw_timestamp r |}
            :: decode_file_loop (i + 1) p'
      | Ok None => decode_file_loop (i + 1) p'
      | Raise err => decode_file_loop (i + 1) p'
      end
  end.

Definition decode_file (p : list RawRecord) : list NumberedPacket :=
  decode_file_loop 0 p.

(** [pkt.number = i + 1; pkt.timestamp = timestamp], lines 510-511. *)
Definition set_number_timestamp (pkt : DecodedPacket) (n : Z) (t : Timestamp)
    : DecodedPacket :=
  {| pdu := pdu pkt; lpdu := lpdu pkt; npdu := npdu pkt; apdu := apdu pkt;
     number := Some n; timestamp := Some t |}.

(** The loop of [decode_file_full], lines 499-513. *)
Fixpoint decode_file_full_loop (i : Z) (p : list RawRecord) : list DecodedPacket :=
  match p with
  | [] => []
  | r :: p' =>
      match decode_packet_full (raw_data r) with
      | Ok (Some pkt) =>
          set_number_timestamp pkt (i + 1) (raw_timestamp r)
            :: decode_file_full_loop (i + 1) p'
      | Ok None => decode_file_full_loop (i + 1) p'
      | Raise err => decode_file_full_loop (i + 1) p'
      end
  end.

Definition decode_file_full (p : list RawRecord) : list DecodedPacket :=
  decode_file_full_loop 0 p.

End Analysis.

Arguments DecodedPacket : clear implicits.
Arguments RawRecord : clear implicits.
Arguments NumberedPacket : clear implicits.
Arguments pdu {Timestamp} _.
Arguments lpdu {Timestamp} _.
Arguments npdu {Timestamp} _.
Arguments apdu {Timestamp} _.
Arguments number {Timestamp} _.
Arguments timestamp {Timestamp} _.
Arguments raw_len {Timestamp} _.
Arguments raw_timestamp {Timestamp} _.
Arguments raw_data {Timestamp} _.
Arguments pkt {Timestamp} _.
Arguments _number {Timestamp} _.
Arguments _timestamp {Timestamp} _.
Arguments set_number_timestamp {Timestamp} _ _ _.

(** The deepest populated layer of a [DecodedPacket]: [apdu], else [npdu],
    else [lpdu], else [pdu]. *)
Definition deepest {Timestamp : Type} (r : DecodedPacket Timestamp) : Packet :=
  match apdu r with
  | Some a => PacketAPDU a
  | None =>
      match npdu r with
      | Some n => PacketNPDU n
      | None =>
          match lpdu r with
          | Some l => PacketLPDU l
          | None => PacketPDU (pdu r)
          end
      end
  end.

(** [deepest] under the result of [decode_packet_full]: [None] stays
    [None], a fault stays that fault. *)
Definition deepest_result {Timestamp : Type}
    (r : Exc (option (DecodedPacket Timestamp))) : Exc (option Packet) :=
  match r with
  | Ok (Some d) => Ok (Some (deepest d))
  | Ok None => Ok None
  | Raise e => Raise e
  end.

(** The shape the two loops share: decode, skip on [None] or on a fault,
    otherwise attach the number and the timestamp. *)
Fixpoint record_loop {Timestamp A B : Type} (decode : bytes -> Exc (option A))
    (attach : A -> Z -> Timestamp -> B) (i : Z) (p : list (RawRecord Timestamp))
    : list B :=
  match p with
  | [] => []
  | r :: p' =>
      match decode (raw_data r) with
      | Ok (Some a) => attach a (i + 1) (raw_timestamp r) :: record_loop decode attach (i + 1) p'
      | _ => record_loop decode attach (i + 1) p'
      end
  end.

(** ** Tracers *)

Section Tracers.

(** [Handler] names the state functions of the tracer classes, [Attrs] is
    what an instance keeps besides [current_state]; the stream carries the
    packets of [decode_file]. *)
Context {Handler Attrs Timestamp : Type}.
Variable btox : bytes -> string -> string.
Variable codec : Codec.
Variable settings : Settings.

Definition Pkt : Type := NumberedPacket Timestamp.

(** A [Tracer] instance.  [current_state = None] is the terminal state. *)
Record Tracer : Type := mkTracer {
  current_state : option Handler;
  attrs : Attrs
}.

(** [fn(pkt)] for the bound method [fn] of [self]: the instance as the call
    leaves it (the method may assign attributes and call [self.next]), or
    the fault it raises. *)
Variable call : Handler -> Tracer -> Pkt -> Exc Tracer.

(** [Tracer.start], the initial state of the base class. *)
Variable start : Handler.

(** [self.next(fn)], lines 526-531. *)
Definition next (self : Tracer) (fn : option Handler) : Tracer :=
  {| current_state := fn; attrs := attrs self |}.

(** [Tracer.__init__(self, initial_state=None)], lines 519-524, on an
    instance with attributes [a]. *)
Definition Tracer_init (a : Attrs) (initial_state : option Handler) : Tracer :=
  next {| current_state := None; attrs := a |}
       (Some (default start initial_state)).

(** A tracer class, called with no argument. *)
Definition Factory : Type := unit -> Tracer.

(** [tracer.current_state(pkt)]: calling [None] is a TypeError. *)
Definition call_current_state (tracer : Tracer) (pkt : Pkt) : Exc Tracer :=
  match current_state tracer with
  | Some fn => call fn tracer pkt
  | None => Raise TypeError
  end.

(** The body of the inner loop, lines 549-554, for index [i]. *)
Definition trace_tracer (tracers : list Factory) (pkt : Pkt) (i : nat)
    (current_tracers : list Tracer) : Exc (list Tracer) :=
  match current_tracers !! i with
  | None => Ok current_tracers
  | Some tracer =>
      tracer' <- call_current_state tracer pkt ;;
      match current_state tracer' with
      | None =>
          match tracers !! i with
          | Some traceClass => Ok (<[i := traceClass ()]> current_tracers)
          | None => Raise IndexError
          end
      | Some _ => Ok (<[i := tracer']> current_tracers)
      end
  end.

(** What slot [j] holds once the tracer [t] has handled [pkt]. *)
Definition handled (tracers : list Factory) (pkt : Pkt) (j : nat) (t : Tracer)
    (slot : option Tracer) : Prop :=
  exists t', call_current_state t pkt = Ok t'
             /\ ((current_state t' = None
                  /\ exists f, tracers !! j = Some f /\ slot = Some (f ()))
                 \/ (current_state t' <> None /\ slot = Some t')).

(** No tracer of the list is in the terminal state, and there is one per
    class. *)
Definition all_live (tracers : list Factory) (cur : list Tracer) : Prop :=
  length cur = length tracers /\ Forall (fun t => current_state t <> None) cur.

(** The inner loop, line 548, over the indices [idx]. *)
Fixpoint trace_tracers (tracers : list Factory) (pkt : Pkt) (idx : list nat)
    (current_tracers : list Tracer) : Exc (list Tracer) :=
  match idx with
  | [] => Ok current_tracers
  | i :: idx' =>
      current_tracers' <- trace_tracer tracers pkt i current_tracers ;;
      trace_tracers tracers pkt idx' current_tracers'
  end.

(** One iteration of the outer loop: every tracer sees [pkt]. *)
Definition trace_packet (tracers : list Factory) (current_tracers : list Tracer)
    (pkt : Pkt) : Exc (list Tracer) :=
  trace_tracers tracers pkt (seq 0 (length current_tracers)) current_tracers.

(** The outer loop, line 547, over the packets of the stream. *)
Fixpoint trace_packets (tracers : list Factory) (current_tracers : list Tracer)
    (pkts : list Pkt) : Exc (list Tracer) :=
  match pkts with
  | [] => Ok current_tracers
  | pkt :: pkts' =>
      current_tracers' <- trace_packet tracers current_tracers pkt ;;
      trace_packets tracers current_tracers' pkts'
  end.

(** [trace(fname, tracers)], lines 539-554, on the records [p] of the
    capture; the result is the list of tracers when the stream ends. *)
Definition trace (p : list (RawRecord Timestamp)) (tracers : list Factory)
    : Exc (list Tracer) :=
  let current_tracers := map (fun traceClass : Factory => traceClass ()) tracers in
  trace_packets tracers current_tracers (decode_file btox codec settings Timestamp p).

End Tracers.

Arguments Tracer : clear implicits.
Arguments Factory : clear implicits.
Arguments Pkt : clear implicits.

(** ** A sample codec and sample frames

    One instance of the external interface, following the BACnet/IP header
    layouts (Annex J BVLL header, clause 6 NPCI, the APDU type nibble), and
    a few captured frames.  The concrete runs below use them. *)

Module Sample.

Definition byte_of_Z (z : Z) : Byte.byte :=
  match Byte.of_N (Z.to_N z) with
  | Some b => b
  | None => Byte.x00
  end.

Definition octets (l : list Z) : bytes := map byte_of_Z l.

Definition hex_digit (n : Z) : string :=
  substring (Z.to_nat n) 1 "0123456789abcdef".

Definition hex_byte (b : Byte.byte) : string :=
  (hex_digit (byte_val b / 16) ++ hex_digit (byte_val b mod 16))%string.

Fixpoint btox (data : bytes) (sep : string) : string :=
  match data with
  | [] => ""
  | b :: rest =>
      match rest with
      | [] => hex_byte b
      | _ => (hex_byte b ++ sep ++ btox rest sep)%string
      end
  end.

(** A decoder of the sample codec reads its argument's payload from the
    front: it is given the octets and returns the octets it leaves and its
    result.  What it has read is gone, also when it raises afterwards. *)
Definition Reader (A : Type) : Type := bytes -> bytes * Exc A.

Definition ret {A : Type} (a : A) : Reader A := fun s => (s, Ok a).

Definition raise {A : Type} (e : Fault) : Reader A := fun s => (s, Raise e).

Definition rbind {A B : Type} (m : Reader A) (k : A -> Reader B) : Reader B :=
  fun s =>
    match m s with
    | (s', Ok a) => k a s'
    | (s', Raise e) => (s', Raise e)
    end.

Notation "x <~ m ;; k" := (rbind m (fun x => k))
  (at level 100, m at next level, right associativity).

(** One octet. *)
Definition get : Reader Z :=
  fun s =>
    match s with
    | b :: rest => (rest, Ok (byte_val b))
    | [] => ([], Raise DecodingError)
    end.

(** Two octets, big endian; nothing is read when fewer are left. *)
Definition get_short : Reader Z :=
  fun s =>
    match s with
    | hi :: lo :: rest => (rest, Ok (256 * byte_val hi + byte_val lo))
    | _ => (s, Raise DecodingError)
    end.

(** [n] octets; nothing is read when fewer are left. *)
Definition get_data (n : nat) : Reader bytes :=
  fun s =>
    if (n <=? length s)%nat then (drop n s, Ok (take n s))
    else (s, Raise DecodingError).

(** The octets not read so far; they stay in the argument. *)
Definition remaining : Reader bytes := fun s => (s, Ok s).

(** BVLL header: type 0x81, function, two-byte length of the whole
    message; the rest is the body. *)
Definition read_LPDU (pdu : PDU) : Reader LPDU :=
  t <~ get ;;
  f <~ get ;;
  len <~ get_short ;;
  body <~ remaining ;;
  if (t =? 0x81) && (len =? 4 + Z.of_nat (length body))
  then ret {| lpdu_pdu := mkPDU body (pduSource pdu) (pduDestination pdu);
              bvlciFunction := f;
              bvlciAddress := None |}
  else raise DecodingError.

Definition decode_LPDU (pdu : PDU) : Exc LPDU :=
  snd (read_LPDU pdu (pduData pdu)).
Definition rest_LPDU (pdu : PDU) : bytes :=
  fst (read_LPDU pdu (pduData pdu)).

Definition bvll_registry (f : Z) : option AType :=
  if f =? 0x04 then Some ForwardedNPDU
  else if f =? 0x09 then Some DistributeBroadcastToNetwork
  else if f =? 0x0A then Some OriginalUnicastNPDU
  else if f =? 0x0B then Some OriginalBroadcastNPDU
  else if (0 <=? f) && (f <=? 0x08) then Some (OtherBVLL f)
  else None.

Definition AType_function (atype : AType) : Z :=
  match atype with
  | ForwardedNPDU => 0x04
  | DistributeBroadcastToNetwork => 0x09
  | OriginalUnicastNPDU => 0x0A
  | OriginalBroadcastNPDU => 0x0B
  | OtherBVLL f => f
  end.

(** [atype()]: an empty instance, without an address. *)
Definition new_AType (atype : AType) : Exc LPDU :=
  Ok {| lpdu_pdu := mkPDU [] None None;
        bvlciFunction := AType_function atype;
        bvlciAddress := None |}.

(** A forwarded NPDU starts with the six octets of the originator. *)
Definition read_AType (atype : AType) (lpdu : LPDU) : Reader LPDU :=
  match atype with
  | ForwardedNPDU =>
      address <~ get_data 6 ;;
      body <~ remaining ;;
      ret {| lpdu_pdu := mkPDU body (pduSource (lpdu_pdu lpdu))
                               (pduDestination (lpdu_pdu lpdu));
             bvlciFunction := bvlciFunction lpdu;
             bvlciAddress := Some (Address_new (AddressOfOctets None address)) |}
  | _ => ret lpdu
  end.

Definition decode_AType (atype : AType) (lpdu : LPDU) : Exc LPDU :=
  snd (read_AType atype lpdu (pduData (lpdu_pdu lpdu))).
Definition rest_AType (atype : AType) (lpdu : LPDU) : bytes :=
  fst (read_AType atype lpdu (pduData (lpdu_pdu lpdu))).

(** A network number, a length and that many address octets. *)
Definition get_address : Reader Address :=
  net <~ get_short ;;
  len <~ get ;;
  address <~ get_data (Z.to_nat len) ;;
  ret (Address_new (AddressOfOctets (Some net) address)).

Definition get_optional_address (present : bool) : Reader (option Address) :=
  if present then
    a <~ get_address ;;
    ret (Some a)
  else ret None.

(** NPCI: version, control, optional destination, optional source, hop
    count when there is a destination, message type when bit 7 is set. *)
Definition read_NPDU (r : LinkRecord) : Reader NPDU :=
  let p := link_pdu r in
  version <~ get ;;
  if negb (version =? 0x01) then raise DecodingError
  else
    control <~ get ;;
    dadr <~ get_optional_address (Z.testbit control 5) ;;
    sadr <~ get_optional_address (Z.testbit control 3) ;;
    hops <~ (if Z.testbit control 5 then get else ret 0) ;;
    message <~ (if Z.testbit control 7
                then (t <~ get ;; ret (Some t))
                else ret None) ;;
    body <~ remaining ;;
    ret {| npdu_pdu := mkPDU body (pduSource p) (pduDestination p);
           npduNetMessage := message;
           npduSADR := sadr;
           npduDADR := dadr;
           npduClass := None |}.

Definition decode_NPDU (r : LinkRecord) : Exc NPDU :=
  snd (read_NPDU r (pduData (link_pdu r))).
Definition rest_NPDU (r : LinkRecord) : bytes :=
  fst (read_NPDU r (pduData (link_pdu r))).

Definition npdu_registry (m : Z) : option NType :=
  if (0 <=? m) && (m <=? 0x13) then Some (NetworkMessage m) else None.

Definition decode_NType (ntype : NType) (npdu : NPDU) : Exc NPDU :=
  Ok {| npdu_pdu := npdu_pdu npdu;
        npduNetMessage := npduNetMessage npdu;
        npduSADR := npduSADR npdu;
        npduDADR := npduDADR npdu;
        npduClass := Some ntype |}.
Definition rest_NType (ntype : NType) (npdu : NPDU) : bytes :=
  pduData (npdu_pdu npdu).

(** The APDU type is the high nibble of the first octet. *)
Definition read_APDU (npdu : NPDU) : Reader APDU :=
  let p := npdu_pdu npdu in
  b <~ get ;;
  let t := Z.shiftr b 4 in
  if 7 <? t then raise DecodingError
  else
    body <~ remaining ;;
    ret {| apdu_pdu := mkPDU body (pduSource p) (pduDestination p);
           apduClass :=
             if t =? 0 then ConfirmedRequestPDU
             else if t =? 1 then UnconfirmedRequestPDU
             else if t =? 3 then ComplexAckPDU
             else OtherAPDU t;
           apduService := None |}.

Definition decode_APDU (npdu : NPDU) : Exc APDU :=
  snd (read_APDU npdu (pduData (npdu_pdu npdu))).
Definition rest_APDU (npdu : NPDU) : bytes :=
  fst (read_APDU npdu (pduData (npdu_pdu npdu))).

(** The service choice is the last octet of the fixed header. *)
Definition read_APCISequence (apdu : APDU) : Reader APDU :=
  let p := apdu_pdu apdu in
  let skip :=
    match apduClass apdu with
    | ConfirmedRequestPDU => 2%nat
    | ComplexAckPDU => 1%nat
    | _ => 0%nat
    end in
  fun s =>
    match drop skip s with
    | service :: body =>
        (body, Ok {| apdu_pdu := mkPDU body (pduSource p) (pduDestination p);
                     apduClass := apduClass apdu;
                     apduService := Some (byte_val service) |})
    | [] => ([], Raise AttributeError)
    end.

Definition decode_APCISequence (apdu : APDU) : Exc APDU :=
  snd (read_APCISequence apdu (pduData (apdu_pdu apdu))).
Definition rest_APCISequence (apdu : APDU) : bytes :=
  fst (read_APCISequence apdu (pduData (apdu_pdu apdu))).

Definition codec : Codec :=
  {| LPDU_decode := decode_LPDU;
     LPDU_decode_rest := rest_LPDU;
     bvll_pdu_types := bvll_registry;
     AType_call := new_AType;
     AType_decode := decode_AType;
     AType_decode_rest := rest_AType;
     NPDU_decode := decode_NPDU;
     NPDU_decode_rest := rest_NPDU;
     npdu_types := npdu_registry;
     NType_decode := decode_NType;
     NType_decode_rest := rest_NType;
     APDU_decode := decode_APDU;
     APDU_decode_rest := rest_APDU;
     APCISequence_decode := decode_APCISequence;
     APCISequence_decode_rest := rest_APCISequence |}.

Definition route_on : Settings := {| route_aware := true |}.
Definition route_off : Settings := {| route_aware := false |}.

(** Frames.  Ethernet: destination 00:11:22:33:44:55, source
    66:77:88:99:aa:bb. *)
Definition ethernet (type : list Z) : list Z :=
  [0x00; 0x11; 0x22; 0x33; 0x44; 0x55; 0x66; 0x77; 0x88; 0x99; 0xaa; 0xbb] ++ type.

(** IPv4 header without options, 192.168.1.10 to 192.168.1.20. *)
Definition ipv4 (total_len protocol : Z) : list Z :=
  [0x45; 0x00; 0x00; total_len; 0x00; 0x00; 0x40; 0x00; 0x40; protocol; 0x00; 0x00;
   0xc0; 0xa8; 0x01; 0x0a; 0xc0; 0xa8; 0x01; 0x14].

(** UDP header, port 47808 both ways. *)
Definition udp (len : Z) : list Z :=
  [0xba; 0xc0; 0xba; 0xc0; 0x00; len; 0x00; 0x00].

Definition bacnet_ip (payload : list Z) : bytes :=
  let n := Z.of_nat (length payload) in
  octets (ethernet [0x08; 0x00] ++ ipv4 (28 + n) 17 ++ udp (8 + n) ++ payload).

(** Original-Unicast-NPDU carrying a confirmed ReadProperty request. *)
Definition read_property : list Z :=
  [0x81; 0x0a; 0x00; 0x11; 0x01; 0x04;
   0x00; 0x05; 0x01; 0x0c; 0x0c; 0x00; 0x00; 0x00; 0x01; 0x19; 0x55].

(** Original-Broadcast-NPDU carrying an unconfirmed Who-Is. *)
Definition who_is : list Z :=
  [0x81; 0x0b; 0x00; 0x08; 0x01; 0x00; 0x10; 0x08].

(** Forwarded-NPDU from 10.0.0.7:47808 carrying the Who-Is. *)
Definition forwarded_who_is : list Z :=
  [0x81; 0x04; 0x00; 0x0e; 0x0a; 0x00; 0x00; 0x07; 0xba; 0xc0;
   0x01; 0x00; 0x10; 0x08].

(** Read-Broadcast-Distribution-Table: a BVLL header and no body. *)
Definition read_bdt : list Z := [0x81; 0x02; 0x00; 0x04].

(** Original-Unicast-NPDU whose NPCI stops after the version octet. *)
Definition truncated_npci : list Z := [0x81; 0x0a; 0x00; 0x05; 0x01].

(** An ARP frame: ethertype 0x0806, one octet of payload shown. *)
Definition arp_frame : bytes := octets (ethernet [0x08; 0x06] ++ [0x00]).

(** An IPv4 frame that ends with the Ethernet header. *)
Definition ip_frame_no_payload : bytes := octets (ethernet [0x08; 0x00]).

(** A frame cut short inside the Ethernet header. *)
Definition short_frame : bytes := octets [0x00; 0x11; 0x22; 0x33; 0x44; 0x55].

End Sample.

(** Records, PDUs and a tracer class for the concrete runs. *)

Module SampleRuns.

Import Sample.

Definition ts1 : Z := 1000.
Definition ts2 : Z := 2000.
Definition ts3 : Z := 3000.

Definition record1 : RawRecord Z := mkRawRecord Z 59 ts1 (bacnet_ip read_property).
Definition record2 : RawRecord Z := mkRawRecord Z 6 ts2 short_frame.
Definition record3 : RawRecord Z := mkRawRecord Z 50 ts3 (bacnet_ip who_is).

(** An IPv4 header of six words: twenty fixed octets, then the options
    NOP NOP NOP EOL, then a UDP header. *)
Definition ip_with_options : bytes :=
  octets [0x46; 0x00; 0x00; 0x20; 0x00; 0x00; 0x40; 0x00; 0x40; 0x11; 0x00; 0x00;
          0xc0; 0xa8; 0x01; 0x0a; 0xc0; 0xa8; 0x01; 0x14;
          0x01; 0x01; 0x01; 0x00;
          0xba; 0xc0; 0xba; 0xc0; 0x00; 0x08; 0x00; 0x00].

(** An ARP frame that ends with the Ethernet header. *)
Definition arp_header_only : bytes := octets (ethernet [0x08; 0x06]).

(** A UDP datagram whose length field is 8: no payload. *)
Definition udp_no_payload : bytes := bacnet_ip [].

Definition transport_source : option Endpoint :=
  Some (EndpointAddress (Address_new (AddressOfTuple "192.168.1.10" 47808))).
Definition transport_destination : option Endpoint :=
  Some (EndpointAddress (Address_new (AddressOfTuple "192.168.1.20" 47808))).

(** The transport PDU of the forwarded Who-Is. *)
Definition forwarded_pdu : PDU :=
  mkPDU (octets forwarded_who_is) transport_source transport_destination.

(** The originator named in the forwarded Who-Is: 10.0.0.7, port 47808. *)
Definition originator : Address :=
  Address_new (AddressOfOctets None (octets [0x0a; 0x00; 0x00; 0x07; 0xba; 0xc0])).

(** A tracer class with two states: [start] moves to [second], [second]
    moves to the terminal state; the instance keeps the numbers it saw. *)
Inductive PairHandler : Type :=
| pair_start
| pair_second.

Definition pair_call (fn : PairHandler) (self : Tracer PairHandler (list Z))
    (pkt : Pkt Z) : Exc (Tracer PairHandler (list Z)) :=
  let self := {| current_state := current_state self;
                 attrs := _number pkt :: attrs self |} in
  match fn with
  | pair_start => Ok (next self (Some pair_second))
  | pair_second => Ok (next self None)
  end.

Definition PairTracer : Factory PairHandler (list Z) :=
  fun _ => Tracer_init pair_start [] None.

(** The packets [decode_file] yields for [[record1; record3; record1]]. *)
Definition packets131 : list (Pkt Z) :=
  Eval vm_compute in decode_file Sample.btox codec route_on Z [record1; record3; record1].
Definition packet1 : Pkt Z := nth 0 packets131 (mkNumberedPacket Z (PacketPDU forwarded_pdu) 0 0).


(** What [decode_file_full] yields for the capture [[record3]]. *)
Definition yielded3 : list (DecodedPacket Z) :=
  Eval vm_compute in decode_file_full Sample.btox codec route_on Z [record3].

(** The bytes after the MAC addresses of the Who-Is frame: the type, the
    IPv4 and UDP headers and the BACnet payload. *)
Definition who_is_after_mac : bytes :=
  octets (ipv4 (28 + 8) 17 ++ udp (8 + 8) ++ who_is).

Definition mac_addresses : bytes := octets (ethernet []).

(** An ICMP echo request: IPv4, protocol 1. *)
Definition icmp_frame : bytes :=
  octets (ethernet [0x08; 0x00] ++ ipv4 28 1
          ++ [0x08; 0x00; 0xf7; 0xff; 0x00; 0x00; 0x00; 0x00]).

(** A VLAN tag (priority 1, VLAN 5) followed by the type 0x0800 and two
    octets. *)
Definition vlan_tag : bytes := octets [0x20; 0x05; 0x08; 0x00; 0x45; 0x00].

(** A UDP header that declares 12 octets, followed by 6. *)
Definition udp_declares_12 : bytes :=
  octets [0xba; 0xc0; 0xba; 0xc0; 0x00; 0x0c; 0x00; 0x00;
          0x01; 0x02; 0x03; 0x04; 0x05; 0x06].

(** The link record of the Who-Is frame. *)
Definition who_is_record : LinkRecord :=
  DecodedLPDU {| lpdu_pdu := mkPDU (octets [0x01; 0x00; 0x10; 0x08])
                                   transport_source transport_destination;
                 bvlciFunction := 0x0B;
                 bvlciAddress := None |}.

(** That record once [NPDU.decode] has read the two octets of the NPCI. *)
Definition who_is_record_read : LinkRecord :=
  DecodedLPDU {| lpdu_pdu := mkPDU (octets [0x10; 0x08])
                                   transport_source transport_destination;
                 bvlciFunction := 0x0B;
                 bvlciAddress := None |}.

(** The NPDU of the Who-Is frame. *)
Definition who_is_npdu : NPDU :=
  {| npdu_pdu := mkPDU (octets [0x10; 0x08]) transport_source transport_destination;
     npduNetMessage := None;
     npduSADR := None;
     npduDADR := None;
     npduClass := None |}.

(** A routed NPDU: a simple ack from address 0x0c on network 5. *)
Definition routed_npdu : NPDU :=
  {| npdu_pdu := mkPDU (octets [0x20; 0x01; 0x0c]) transport_source transport_destination;
     npduNetMessage := None;
     npduSADR := Some (Address_new (AddressOfOctets (Some 5) (octets [0x0c])));
     npduDADR := None;
     npduClass := None |}.

(** The sample codec with a sequence decoder that rejects every APDU. *)
Definition codec_rejecting_sequences : Codec :=
  {| LPDU_decode := decode_LPDU;
     LPDU_decode_rest := rest_LPDU;
     bvll_pdu_types := bvll_registry;
     AType_call := new_AType;
     AType_decode := decode_AType;
     AType_decode_rest := rest_AType;
     NPDU_decode := decode_NPDU;
     NPDU_decode_rest := rest_NPDU;
     npdu_types := npdu_registry;
     NType_decode := decode_NType;
     NType_decode_rest := rest_NType;
     APDU_decode := decode_APDU;
     APDU_decode_rest := rest_APDU;
     APCISequence_decode := fun _ => Raise DecodingError;
     APCISequence_decode_rest := fun apdu => pduData (apdu_pdu apdu) |}.

(** The link record of the frame [truncated_npci]. *)
Definition truncated_record : LinkRecord :=
  DecodedLPDU {| lpdu_pdu := mkPDU (octets [0x01]) transport_source transport_destination;
                 bvlciFunction := 0x0A;
                 bvlciAddress := None |}.

(** That record once [NPDU.decode] has read the version octet and found
    nothing after it. *)
Definition truncated_record_read : LinkRecord :=
  DecodedLPDU {| lpdu_pdu := mkPDU [] transport_source transport_destination;
                 bvlciFunction := 0x0A;
                 bvlciAddress := None |}.

(** The transport PDU of the Read-Broadcast-Distribution-Table frame. *)
Definition read_bdt_pdu : PDU :=
  mkPDU (octets read_bdt) transport_source transport_destination.

(** A transport PDU that stops inside the BVLL header. *)
Definition short_bvll_pdu : PDU :=
  mkPDU (octets [0x81; 0x0a]) transport_source transport_destination.

(** A transport PDU whose BVLL header declares 255 octets and is followed
    by the four octets of a Who-Is. *)
Definition wrong_length_pdu : PDU :=
  mkPDU (octets [0x81; 0x0a; 0x00; 0xff; 0x01; 0x00; 0x10; 0x08])
        transport_source transport_destination.

(** A UDP datagram that carries the two octets of an NPCI and nothing
    else. *)
Definition npci_only : bytes := bacnet_ip [0x01; 0x00].

End SampleRuns.

(** ** Properties of the frame peeling *)

Lemma bind_Ok {A B : Type} (m : Exc A) (k : A -> Exc B) (b : B) :
  bind m k = Ok b -> exists a, m = Ok a /\ k a = Ok b.
Proof. destruct m as [a|e]; simpl; intros H; [eauto | discriminate]. Qed.

Lemma is_empty_false (s : bytes) : is_empty s = false <-> s <> [].
Proof. destruct s; simpl; split; congruence. Qed.

Lemma slice_short (a b : nat) (s : bytes) : (b <= a)%nat -> slice a b s = [].
Proof.
  intros H. unfold slice. replace (b - a)%nat with 0%nat by lia. reflexivity.
Qed.

Ltac bind_inv H :=
  repeat match type of H with
         | bind ?m _ = Ok _ =>
             let a := fresh "a" in
             let E := fresh "E" in
             apply bind_Ok in H; destruct H as (a & E & H)
         end.

Section FrameProperties.

Variable btox : bytes -> string -> string.
Variable codec : Codec.
Variable settings : Settings.
Variable Timestamp : Type.

Lemma decode_ethernet_nonempty (data : bytes) (d : EthernetHeader) :
  decode_ethernet btox data = Ok d -> is_empty data = false.
Proof. destruct data; [discriminate | reflexivity]. Qed.

(** The two entry points once the Ethernet and VLAN headers are read. *)
Lemma decode_packet_after_vlan (data : bytes) (d : EthernetHeader) (td : Z * bytes) :
  decode_ethernet btox data = Ok d ->
  vlan_step d = Ok td ->
  decode_packet btox codec settings data =
    (l <- ip_step (fst td) (snd td) None None ;;
     if is_empty (loc_data l) then Ok None
     else pdu <- build_PDU l ;; decode_packet_layers codec settings pdu).
Proof.
  intros Hd Htd. unfold decode_packet.
  rewrite (decode_ethernet_nonempty _ _ Hd).
  unfold decode_packet_frame. rewrite Hd. simpl. rewrite Htd. reflexivity.
Qed.

Lemma decode_packet_full_after_vlan (data : bytes) (d : EthernetHeader)
    (td : Z * bytes) :
  decode_ethernet btox data = Ok d ->
  vlan_step d = Ok td ->
  decode_packet_full btox codec settings Timestamp data =
    (l <- ip_step (fst td) (snd td)
            (Some (EndpointAddress (Address_new (AddressOfString (eth_source_address d)))))
            (Some (EndpointAddress
                     (Address_new (AddressOfString (eth_destination_address d))))) ;;
     if is_empty (loc_data l) then Ok None
     else pdu <- build_PDU l ;; decode_packet_full_layers codec settings Timestamp pdu).
Proof.
  intros Hd Htd. unfold decode_packet_full.
  rewrite (decode_ethernet_nonempty _ _ Hd).
  unfold decode_packet_full_frame. rewrite Hd. simpl. rewrite Htd. reflexivity.
Qed.

Lemma vlan_step_plain (d : EthernetHeader) :
  eth_type d <> 0x8100 -> vlan_step d = Ok (eth_type d, eth_data d).
Proof.
  intros H. unfold vlan_step.
  destruct (eth_type d =? 0x8100) eqn:E; [apply Z.eqb_eq in E; contradiction | reflexivity].
Qed.

Lemma ip_step_other (type : Z) (data : bytes) (src dst : option Endpoint) :
  type <> 0x0800 ->
  ip_step type data src dst =
    Ok {| loc_data := data; loc_pduSource := src; loc_pduDestination := dst |}.
Proof.
  intros H. unfold ip_step.
  destruct (type =? 0x0800) eqn:E; [apply Z.eqb_eq in E; contradiction | reflexivity].
Qed.

(** In the IP branch both names are assigned: what they held before does
    not matter. *)
Lemma ip_step_ip (data : bytes) (src dst src' dst' : option Endpoint) :
  ip_step 0x0800 data src dst = ip_step 0x0800 data src' dst'.
Proof. reflexivity. Qed.

(** What [decode_lpdu] leaves of its argument: the addresses as they were,
    and the payload as it was or as [LPDU.decode] left it. *)
Lemma decode_lpdu_argument (p p' : PDU) (rv : LinkRecord * option LPDU) :
  decode_lpdu codec settings p = Ok (p', rv) ->
  p' = p
  \/ (index (pduData p) 0 = Ok 0x81
      /\ p' = set_pduData p (LPDU_decode_rest codec p)).
Proof.
  unfold decode_lpdu. intros H. bind_inv H.
  destruct (a =? 129) eqn:Em; simpl in H; [|left; congruence].
  apply Z.eqb_eq in Em. subst a. right. split; [exact E|].
  destruct (LPDU_decode codec p) as [l|e]; [|congruence].
  destruct (bvll_pdu_types codec (bvlciFunction l)) as [atype|]; [|congruence].
  destruct (AType_call codec atype) as [bp|e]; [|congruence].
  destruct (AType_decode codec atype l) as [l'|e]; [|congruence].
  destruct (AType_eqb atype ForwardedNPDU).
  - destruct (route_aware settings), (bvlciAddress bp); congruence.
  - destruct (negb _); congruence.
Qed.

(** When [decode_lpdu] hands back a PDU, it is its argument, as the call
    leaves it. *)
Lemma decode_lpdu_SamePDU (p p' p0 : PDU) (b : option LPDU) :
  decode_lpdu codec settings p = Ok (p', (SamePDU p0, b)) -> p0 = p' /\ b = None.
Proof.
  unfold decode_lpdu. intros H. bind_inv H.
  destruct (negb (a =? 129)); [split; congruence|].
  destruct (LPDU_decode codec p) as [l|e]; [|split; congruence].
  destruct (bvll_pdu_types codec (bvlciFunction l)) as [atype|]; [|discriminate].
  destruct (AType_call codec atype) as [bp|e]; [|discriminate].
  destruct (AType_decode codec atype l) as [l'|e]; [|discriminate].
  destruct (AType_eqb atype ForwardedNPDU).
  - destruct (route_aware settings), (bvlciAddress bp); discriminate.
  - destruct (negb _); discriminate.
Qed.

(** What [decode_npdu] leaves of its argument: the same kind of record,
    with the payload as it was or as [NPDU.decode] left it. *)
Lemma decode_npdu_argument (r r' : LinkRecord) (n : option NPDU) :
  decode_npdu codec r = Ok (r', n) ->
  r' = r
  \/ (index (pduData (link_pdu r)) 0 = Ok 0x01
      /\ r' = link_set_pduData r (NPDU_decode_rest codec r)).
Proof.
  unfold decode_npdu. intros H. bind_inv H.
  destruct (a =? 1) eqn:Ev; simpl in H; [|left; congruence].
  apply Z.eqb_eq in Ev. subst a. right. split; [exact E|].
  destruct (NPDU_decode codec r) as [g|e]; [|congruence].
  destruct (npduNetMessage g) as [m|]; [|congruence].
  destruct (npdu_types codec m) as [ntype|]; [|congruence].
  destruct (NType_decode codec ntype g); congruence.
Qed.

(** The layer part of the two entry points agrees on every PDU. *)
Lemma layers_lockstep (p : PDU) :
  deepest_result (decode_packet_full_layers codec settings Timestamp p)
  = decode_packet_layers codec settings p.
Proof.
  unfold decode_packet_full_layers, decode_packet_layers.
  destruct (decode_lpdu codec settings p) as [[p' [r b]]|e] eqn:Hl; simpl; [|reflexivity].
  destruct (decode_npdu codec r) as [[r' [n|]]|e] eqn:Hn; simpl; [| |reflexivity].
  - destruct (decode_apdu codec settings n) as [[n' [a|]]|e]; reflexivity.
  - destruct r' as [p0|l]; reflexivity.
Qed.

(** On a frame whose ethertype (after the VLAN tag, if any) is IPv4, the
    deepest populated field of [decode_packet_full] is the result of
    [decode_packet]. *)
Lemma lockstep_on_ip (data : bytes) (d : EthernetHeader) (td : Z * bytes) :
  decode_ethernet btox data = Ok d ->
  vlan_step d = Ok td ->
  fst td = 0x0800 ->
  deepest_result (decode_packet_full btox codec settings Timestamp data)
  = decode_packet btox codec settings data.
Proof.
  intros Hd Htd Hip.
  rewrite (decode_packet_after_vlan _ _ _ Hd Htd),
          (decode_packet_full_after_vlan _ _ _ Hd Htd), Hip.
  rewrite (ip_step_ip (snd td) _ _ None None).
  destruct (ip_step 0x0800 (snd td) None None) as [l|e]; simpl; [|reflexivity].
  destruct (is_empty (loc_data l)); [reflexivity|].
  destruct (build_PDU l) as [p|e]; simpl; [apply layers_lockstep | reflexivity].
Qed.

(** C7.  [decode_ip] on a header whose length field is above 5: the options
    are the slice from offset 20 to offset [4 * (header_len - 5)], not to
    offset [4 * header_len] where [data] starts; up to a header length of
    10 that slice is empty, so the options region is lost. *)
Theorem decode_ip_options_end_offset (s : bytes) (d : IpHeader) :
  decode_ip s = Ok d ->
  5 < ip_header_len d ->
  ip_options d = Some (slice 20 (Z.to_nat (4 * (ip_header_len d - 5))) s)
  /\ ip_data d = drop (Z.to_nat (4 * ip_header_len d)) s
  /\ (ip_header_len d <= 10 -> ip_options d = Some []).
Proof.
  intros H Hlen. unfold decode_ip in H. bind_inv H.
  injection H as <-. simpl in *.
  apply Z.ltb_lt in Hlen as Hb. rewrite Hb.
  split; [reflexivity|]. split; [reflexivity|].
  intros Hle. f_equal. apply slice_short. lia.
Qed.

(** The transport PDU of a [DecodedPacket] keeps the addresses it was
    built with; [number] and [timestamp] are not set. *)
Lemma decode_packet_full_layers_fields (p : PDU) (r : DecodedPacket Timestamp) :
  decode_packet_full_layers codec settings Timestamp p = Ok (Some r) ->
  pduSource (pdu r) = pduSource p /\ pduDestination (pdu r) = pduDestination p
  /\ number r = None /\ timestamp r = None.
Proof.
  unfold decode_packet_full_layers. intros H. bind_inv H.
  destruct a as [p' [lr v]]. destruct a0 as [lr' n]. simpl in *.
  assert (Hp' : pduSource p' = pduSource p /\ pduDestination p' = pduDestination p).
  { destruct (decode_lpdu_argument _ _ _ E) as [->|[_ ->]]; split; reflexivity. }
  assert (Hpdu : pduSource match lr' with SamePDU x => x | DecodedLPDU _ => p' end
                 = pduSource p
                 /\ pduDestination match lr' with SamePDU x => x | DecodedLPDU _ => p' end
                    = pduDestination p).
  { destruct lr as [p0|l0].
    - apply decode_lpdu_SamePDU in E as [-> _].
      destruct (decode_npdu_argument _ _ _ E0) as [->|[_ ->]]; simpl; exact Hp'.
    - destruct (decode_npdu_argument _ _ _ E0) as [->|[_ ->]]; simpl; exact Hp'. }
  destruct n as [n|].
  - bind_inv H. injection H as <-. simpl. tauto.
  - injection H as <-. simpl. tauto.
Qed.

(** A payload that starts with neither the BVLL marker nor the NPDU
    version reaches no codec: the [DecodedPacket] holds the PDU as it was
    built and nothing else. *)
Lemma decode_packet_full_layers_plain (p : PDU) (b0 : Z) :
  index (pduData p) 0 = Ok b0 ->
  b0 <> 0x81 ->
  b0 <> 0x01 ->
  decode_packet_full_layers codec settings Timestamp p
  = Ok (Some {| pdu := p; lpdu := None; npdu := None; apdu := None;
                number := None; timestamp := None |}).
Proof.
  intros Hi Hm Hv. apply Z.eqb_neq in Hm, Hv.
  unfold decode_packet_full_layers, decode_lpdu. rewrite Hi. simpl.
  rewrite Hm. simpl. unfold decode_npdu. simpl. rewrite Hi. simpl.
  rewrite Hv. reflexivity.
Qed.

Lemma decode_ethernet_fields (data : bytes) (d : EthernetHeader) :
  decode_ethernet btox data = Ok d ->
  eth_source_address d = btox (slice 6 12 data) ":"
  /\ eth_destination_address d = btox (slice 0 6 data) ":"
  /\ eth_data d = drop 14 data.
Proof.
  unfold decode_ethernet. intros H. bind_inv H. injection H as <-. auto.
Qed.

(** C4.  A frame whose ethertype is neither 0x8100 nor 0x0800 and whose
    Ethernet payload is not empty: [decode_packet_full] builds the transport
    PDU from the Ethernet payload and the two MAC strings and hands it to the
    layer decoders; the PDU of the [DecodedPacket] it returns has those two
    addresses, and when the payload starts with neither 0x81 nor 0x01 it is
    that PDU, the other layers being empty.  [decode_packet] raises
    UnboundLocalError, because it reads [pduSource], which only the IP
    branch binds. *)
Theorem non_ip_frame_passthrough (data : bytes) (d : EthernetHeader) :
  decode_ethernet btox data = Ok d ->
  eth_type d <> 0x8100 ->
  eth_type d <> 0x0800 ->
  eth_data d <> [] ->
  let source :=
    Some (EndpointAddress (Address_new (AddressOfString (btox (slice 6 12 data) ":")))) in
  let destination :=
    Some (EndpointAddress (Address_new (AddressOfString (btox (slice 0 6 data) ":")))) in
  let transport := mkPDU (drop 14 data) source destination in
  decode_packet_full btox codec settings Timestamp data
  = decode_packet_full_layers codec settings Timestamp transport
  /\ (forall r, decode_packet_full btox codec settings Timestamp data = Ok (Some r) ->
                pduSource (pdu r) = source /\ pduDestination (pdu r) = destination)
  /\ (forall b0, index (drop 14 data) 0 = Ok b0 -> b0 <> 0x81 -> b0 <> 0x01 ->
                 decode_packet_full btox codec settings Timestamp data
                 = Ok (Some {| pdu := transport; lpdu := None; npdu := None;
                               apdu := None; number := None; timestamp := None |}))
  /\ decode_packet btox codec settings data = Raise UnboundLocalError.
Proof.
  intros Hd Hvlan Hip Hdata source destination transport.
  destruct (decode_ethernet_fields _ _ Hd) as (Hs & Hdst & Hpay).
  pose proof (vlan_step_plain d Hvlan) as Htd.
  apply is_empty_false in Hdata.
  assert (Hfull : decode_packet_full btox codec settings Timestamp data
                  = decode_packet_full_layers codec settings Timestamp transport).
  { rewrite (decode_packet_full_after_vlan _ _ _ Hd Htd). simpl.
    rewrite ip_step_other by exact Hip. simpl. rewrite Hdata. simpl.
    unfold transport, source, destination. rewrite Hs, Hdst, Hpay. reflexivity. }
  split; [exact Hfull|]. split; [|split].
  - intros r Hr. rewrite Hfull in Hr.
    apply decode_packet_full_layers_fields in Hr. simpl in Hr. tauto.
  - intros b0 Hb0 Hm Hv. rewrite Hfull.
    apply (decode_packet_full_layers_plain transport b0); assumption.
  - rewrite (decode_packet_after_vlan _ _ _ Hd Htd). simpl.
    rewrite ip_step_other by exact Hip. simpl. rewrite Hdata. reflexivity.
Qed.

(** C6.  A zero-length payload left by the last peeling stage that applies
    to the frame makes both entry points return [None], whatever the codec:
    after the Ethernet header when the ethertype is neither VLAN nor IPv4,
    after the VLAN tag when the inner type is not IPv4, after the IPv4
    header when the protocol is not UDP, after the UDP header.  When another
    header is due and nothing is left, its decoder raises instead. *)
Theorem empty_final_payload_is_None (data : bytes) (d : EthernetHeader) :
  decode_ethernet btox data = Ok d ->
  let both (r : Exc (option Packet)) :=
    decode_packet btox codec settings data = r
    /\ deepest_result (decode_packet_full btox codec settings Timestamp data) = r in
  (eth_type d <> 0x8100 -> eth_type d <> 0x0800 -> eth_data d = [] -> both (Ok None))
  /\ (forall v, eth_type d = 0x8100 -> decode_vlan (eth_data d) = Ok v ->
                vlan_type v <> 0x0800 -> vlan_data v = [] -> both (Ok None))
  /\ (forall td h, vlan_step d = Ok td -> fst td = 0x0800 ->
                   decode_ip (snd td) = Ok h -> is_udp (ip_protocol h) = false ->
                   ip_data h = [] -> both (Ok None))
  /\ (forall td h u, vlan_step d = Ok td -> fst td = 0x0800 ->
                     decode_ip (snd td) = Ok h -> is_udp (ip_protocol h) = true ->
                     decode_udp (ip_data h) = Ok u -> udp_data u = [] ->
                     both (Ok None))
  /\ (eth_type d = 0x8100 -> eth_data d = [] -> both (Raise StructError))
  /\ (forall td, vlan_step d = Ok td -> fst td = 0x0800 -> snd td = [] ->
                 both (Raise IndexError))
  /\ (forall td h, vlan_step d = Ok td -> fst td = 0x0800 ->
                   decode_ip (snd td) = Ok h -> is_udp (ip_protocol h) = true ->
                   ip_data h = [] -> both (Raise StructError)).
Proof.
  intros Hd both. unfold both. repeat split.
  - pose proof (vlan_step_plain d H) as Htd.
    rewrite (decode_packet_after_vlan _ _ _ Hd Htd). simpl.
    rewrite ip_step_other by assumption. simpl. rewrite H1. reflexivity.
  - pose proof (vlan_step_plain d H) as Htd.
    rewrite (decode_packet_full_after_vlan _ _ _ Hd Htd). simpl.
    rewrite ip_step_other by assumption. simpl. rewrite H1. reflexivity.
  - assert (Htd : vlan_step d = Ok (vlan_type v, vlan_data v)).
    { unfold vlan_step. rewrite H, H0. reflexivity. }
    rewrite (decode_packet_after_vlan _ _ _ Hd Htd). simpl.
    rewrite ip_step_other by assumption. simpl. rewrite H2. reflexivity.
  - assert (Htd : vlan_step d = Ok (vlan_type v, vlan_data v)).
    { unfold vlan_step. rewrite H, H0. reflexivity. }
    rewrite (decode_packet_full_after_vlan _ _ _ Hd Htd). simpl.
    rewrite ip_step_other by assumption. simpl. rewrite H2. reflexivity.
  - rewrite (decode_packet_after_vlan _ _ _ Hd H), H0.
    unfold ip_step. simpl. rewrite H1. simpl. rewrite H2. simpl.
    rewrite H3. reflexivity.
  - rewrite (decode_packet_full_after_vlan _ _ _ Hd H), H0.
    unfold ip_step. simpl. rewrite H1. simpl. rewrite H2. simpl.
    rewrite H3. reflexivity.
  - rewrite (decode_packet_after_vlan _ _ _ Hd H), H0.
    unfold ip_step. simpl. rewrite H1. simpl. rewrite H2. simpl.
    rewrite H3. simpl. rewrite H4. reflexivity.
  - rewrite (decode_packet_full_after_vlan _ _ _ Hd H), H0.
    unfold ip_step. simpl. rewrite H1. simpl. rewrite H2. simpl.
    rewrite H3. simpl. rewrite H4. reflexivity.
  - unfold decode_packet. rewrite (decode_ethernet_nonempty _ _ Hd).
    unfold decode_packet_frame, vlan_step. rewrite Hd. simpl.
    rewrite H, H0. reflexivity.
  - unfold decode_packet_full. rewrite (decode_ethernet_nonempty _ _ Hd).
    unfold decode_packet_full_frame, vlan_step. rewrite Hd. simpl.
    rewrite H, H0. reflexivity.
  - rewrite (decode_packet_after_vlan _ _ _ Hd H), H0, H1. reflexivity.
  - rewrite (decode_packet_full_after_vlan _ _ _ Hd H), H0, H1. reflexivity.
  - rewrite (decode_packet_after_vlan _ _ _ Hd H), H0.
    unfold ip_step. simpl. rewrite H1. simpl. rewrite H2, H3. reflexivity.
  - rewrite (decode_packet_full_after_vlan _ _ _ Hd H), H0.
    unfold ip_step. simpl. rewrite H1. simpl. rewrite H2, H3. reflexivity.
Qed.

End FrameProperties.

(** ** Properties of the layer decoders *)

Section LayerProperties.

Variable btox : bytes -> string -> string.
Variable codec : Codec.
Variable settings : Settings.
Variable Timestamp : Type.

Lemma index_0_Ok (s : bytes) : s <> [] -> exists z, index s 0 = Ok z.
Proof. destruct s as [|b s]; [congruence | intros _; exists (byte_val b); reflexivity]. Qed.

(** [decode_packet] once the frame is peeled and the PDU is built. *)
Lemma decode_packet_of_frame (data : bytes) (l : Locals) (p : PDU) :
  data <> [] ->
  decode_packet_frame btox data = Ok l ->
  loc_data l <> [] ->
  build_PDU l = Ok p ->
  decode_packet btox codec settings data = decode_packet_layers codec settings p.
Proof.
  intros Hdata Hl Hpay Hp. unfold decode_packet.
  apply is_empty_false in Hdata, Hpay.
  rewrite Hdata, Hl. simpl. rewrite Hpay, Hp. reflexivity.
Qed.

Lemma build_PDU_data (l : Locals) (p : PDU) :
  build_PDU l = Ok p -> pduData p = loc_data l.
Proof.
  unfold build_PDU. intros H. bind_inv H. injection H as <-. reflexivity.
Qed.

(** [decode_lpdu] raises only on an empty payload. *)
Lemma decode_lpdu_total (p : PDU) :
  pduData p <> [] -> exists r, decode_lpdu codec settings p = Ok r.
Proof.
  intros H. destruct (index_0_Ok _ H) as [z Hz].
  unfold decode_lpdu. rewrite Hz. simpl.
  destruct (negb (z =? 129)); [eauto|].
  destruct (LPDU_decode codec p) as [l|e]; [|eauto].
  destruct (bvll_pdu_types codec (bvlciFunction l)) as [atype|]; [|eauto].
  destruct (AType_call codec atype) as [bp|e]; [|eauto].
  destruct (AType_decode codec atype l) as [l'|e]; [|eauto].
  destruct (AType_eqb atype ForwardedNPDU).
  - destruct (route_aware settings), (bvlciAddress bp); eauto.
  - destruct (negb _); eauto.
Qed.

(** [decode_npdu] raises only on an empty payload. *)
Lemma decode_npdu_total (r : LinkRecord) :
  pduData (link_pdu r) <> [] -> exists n, decode_npdu codec r = Ok n.
Proof.
  intros H. destruct (index_0_Ok _ H) as [z Hz].
  unfold decode_npdu. rewrite Hz. simpl.
  destruct (negb (z =? 1)); [eauto|].
  destruct (NPDU_decode codec r) as [n|e]; [|eauto].
  destruct (npduNetMessage n) as [m|]; [|eauto].
  destruct (npdu_types codec m) as [ntype|]; [|eauto].
  destruct (NType_decode codec ntype n); eauto.
Qed.

Lemma decode_npdu_empty (r : LinkRecord) :
  pduData (link_pdu r) = [] -> decode_npdu codec r = Raise IndexError.
Proof. intros H. unfold decode_npdu. rewrite H. reflexivity. Qed.

(** Both entry points call [decode_npdu] on what [decode_lpdu] returns,
    whatever it is: an empty payload there ends them with IndexError. *)
Lemma layers_raise_on_empty_record (p p' : PDU) (r : LinkRecord) (v : option LPDU) :
  decode_lpdu codec settings p = Ok (p', (r, v)) ->
  pduData (link_pdu r) = [] ->
  decode_packet_layers codec settings p = Raise IndexError
  /\ decode_packet_full_layers codec settings Timestamp p = Raise IndexError.
Proof.
  intros Hl He. unfold decode_packet_layers, decode_packet_full_layers.
  rewrite Hl. simpl. rewrite (decode_npdu_empty _ He). split; reflexivity.
Qed.

(** C2.  A link-layer record whose first payload octet is the version 0x01
    and whose structural NPDU decode raises: [decode_npdu] catches the fault
    and returns [None]; [decode_packet] then returns the link-layer record,
    as [NPDU.decode] left it, and [decode_file] yields it under the record's
    number. *)
Theorem decode_npdu_catches_decode_fault (r : LinkRecord) (e : Fault) :
  index (pduData (link_pdu r)) 0 = Ok 0x01 ->
  NPDU_decode codec r = Raise e ->
  let r' := link_set_pduData r (NPDU_decode_rest codec r) in
  decode_npdu codec r = Ok (r', None)
  /\ (forall p p' b, decode_lpdu codec settings p = Ok (p', (r, b)) ->
                     decode_packet_layers codec settings p
                     = Ok (Some (Packet_of_link r')))
  /\ (forall data l p p' b len (ts : Timestamp),
        data <> [] ->
        decode_packet_frame btox data = Ok l ->
        loc_data l <> [] ->
        build_PDU l = Ok p ->
        decode_lpdu codec settings p = Ok (p', (r, b)) ->
        decode_file btox codec settings Timestamp [mkRawRecord Timestamp len ts data]
        = [mkNumberedPacket Timestamp (Packet_of_link r') 1 ts]).
Proof.
  intros Hv He r'.
  assert (Hn : decode_npdu codec r = Ok (r', None)).
  { unfold decode_npdu. rewrite Hv. simpl. rewrite He. reflexivity. }
  assert (Hlayers : forall p p' b, decode_lpdu codec settings p = Ok (p', (r, b)) ->
            decode_packet_layers codec settings p = Ok (Some (Packet_of_link r'))).
  { intros p p' b Hl. unfold decode_packet_layers. rewrite Hl. simpl.
    rewrite Hn. reflexivity. }
  split; [exact Hn|]. split; [exact Hlayers|].
  intros data l p p' b len ts Hdata Hl Hpay Hp Hlp.
  unfold decode_file. simpl.
  rewrite (decode_packet_of_frame _ _ _ Hdata Hl Hpay Hp), (Hlayers _ _ _ Hlp).
  reflexivity.
Qed.

(** C3.  A frame of the forwarded function whose structural and class
    decodes succeed.  The address that line 180 tests and line 181 assigns
    is that of [bpdu], the instance that [atype()] made without the frame,
    not the address that [atype.decode] read from the frame into [lpdu].  A
    new instance has no address: then, with route-aware mode on as with the
    mode off, the record is returned as decoded, and its source is the one
    the class decode gave it, whatever address the frame embeds. *)
Theorem forwarded_address_not_lifted (pdu0 : PDU) (lpdu0 bpdu lpdu1 : LPDU) :
  index (pduData pdu0) 0 = Ok 0x81 ->
  LPDU_decode codec pdu0 = Ok lpdu0 ->
  bvll_pdu_types codec (bvlciFunction lpdu0) = Some ForwardedNPDU ->
  AType_call codec ForwardedNPDU = Ok bpdu ->
  bvlciAddress bpdu = None ->
  AType_decode codec ForwardedNPDU lpdu0 = Ok lpdu1 ->
  decode_lpdu codec settings pdu0
  = Ok (set_pduData pdu0 (LPDU_decode_rest codec pdu0), (DecodedLPDU lpdu1, Some bpdu))
  /\ forall p' l b embedded,
       decode_lpdu codec settings pdu0 = Ok (p', (DecodedLPDU l, b)) ->
       bvlciAddress lpdu1 = Some embedded ->
       bvlciAddress l = Some embedded
       /\ pduSource (lpdu_pdu l) = pduSource (lpdu_pdu lpdu1).
Proof.
  intros Hm Hl Ht Hb Hnone Hd.
  assert (Heq : decode_lpdu codec settings pdu0
                = Ok (set_pduData pdu0 (LPDU_decode_rest codec pdu0),
                      (DecodedLPDU lpdu1, Some bpdu))).
  { unfold decode_lpdu. rewrite Hm. simpl. rewrite Hl, Ht, Hb, Hd. simpl.
    rewrite Hnone. destruct (route_aware settings); reflexivity. }
  split; [exact Heq|].
  intros p' l b embedded H He. rewrite Heq in H. injection H as _ <- _.
  split; [exact He | reflexivity].
Qed.

(** C10.  On an empty payload the marker check of [decode_lpdu] and the
    version check of [decode_npdu] raise IndexError.  On the PDU the pipeline
    builds, whose payload is not empty, [decode_lpdu] does not raise.  Both
    entry points then call [decode_npdu] on the record [decode_lpdu] hands
    back, whatever the branch it returned from: when that record's payload
    is empty, the version check raises IndexError inside the pipeline.  That
    is so for a PDU that [LPDU.decode] consumed to the end before it raised,
    and for a decoded record without a body, also when its class is one that
    lines 183-189 exclude from deeper decoding. *)
Theorem marker_check_bounds :
  (forall p, pduData p = [] -> decode_lpdu codec settings p = Raise IndexError)
  /\ (forall r, pduData (link_pdu r) = [] -> decode_npdu codec r = Raise IndexError)
  /\ (forall l p,
        is_empty (loc_data l) = false ->
        build_PDU l = Ok p ->
        pduData p <> []
        /\ exists p' r b,
             decode_lpdu codec settings p = Ok (p', (r, b))
             /\ (pduData (link_pdu r) <> [] -> exists n, decode_npdu codec r = Ok n)
             /\ (pduData (link_pdu r) = [] ->
                 decode_packet_layers codec settings p = Raise IndexError
                 /\ decode_packet_full_layers codec settings Timestamp p
                    = Raise IndexError))
  /\ (forall p e,
        index (pduData p) 0 = Ok 0x81 ->
        LPDU_decode codec p = Raise e ->
        LPDU_decode_rest codec p = [] ->
        decode_packet_layers codec settings p = Raise IndexError
        /\ decode_packet_full_layers codec settings Timestamp p = Raise IndexError)
  /\ (forall p l atype b l1,
        index (pduData p) 0 = Ok 0x81 ->
        LPDU_decode codec p = Ok l ->
        bvll_pdu_types codec (bvlciFunction l) = Some atype ->
        AType_call codec atype = Ok b ->
        AType_decode codec atype l = Ok l1 ->
        atype <> ForwardedNPDU ->
        atype <> DistributeBroadcastToNetwork ->
        atype <> OriginalUnicastNPDU ->
        atype <> OriginalBroadcastNPDU ->
        decode_lpdu codec settings p
        = Ok (set_pduData p (LPDU_decode_rest codec p), (DecodedLPDU l1, Some b))
        /\ (pduData (lpdu_pdu l1) = [] ->
            decode_packet_layers codec settings p = Raise IndexError
            /\ decode_packet_full_layers codec settings Timestamp p
               = Raise IndexError)).
Proof.
  split; [|split; [exact decode_npdu_empty|split; [|split]]].
  - intros p H. unfold decode_lpdu. rewrite H. reflexivity.
  - intros l p Hne Hp.
    assert (Hdata : pduData p <> []).
    { rewrite (build_PDU_data _ _ Hp). apply is_empty_false. exact Hne. }
    split; [exact Hdata|].
    destruct (decode_lpdu_total p Hdata) as [[p' [r b]] Hr].
    exists p', r, b. split; [exact Hr|]. split.
    + apply decode_npdu_total.
    + intros He. exact (layers_raise_on_empty_record _ _ _ _ Hr He).
  - intros p e Hm Hl Hrest.
    apply (layers_raise_on_empty_record p (set_pduData p (LPDU_decode_rest codec p))
             (SamePDU (set_pduData p (LPDU_decode_rest codec p))) None).
    + unfold decode_lpdu. rewrite Hm. simpl. rewrite Hl. reflexivity.
    + simpl. exact Hrest.
  - intros p l atype b l1 Hm Hl Ht Hb Hd Hf H1 H2 H3.
    assert (Heq : decode_lpdu codec settings p
                  = Ok (set_pduData p (LPDU_decode_rest codec p),
                        (DecodedLPDU l1, Some b))).
    { unfold decode_lpdu. rewrite Hm. simpl. rewrite Hl, Ht, Hb, Hd.
      destruct atype; try contradiction; reflexivity. }
    split; [exact Heq|].
    intros He. exact (layers_raise_on_empty_record _ _ _ _ Heq He).
Qed.

End LayerProperties.

(** ** Properties of the per-record generators *)

Section GeneratorProperties.

Variable btox : bytes -> string -> string.
Variable codec : Codec.
Variable settings : Settings.
Variable Timestamp : Type.

Lemma decode_file_loop_shape (i : Z) (p : list (RawRecord Timestamp)) :
  decode_file_loop btox codec settings Timestamp i p
  = record_loop (decode_packet btox codec settings) (mkNumberedPacket Timestamp) i p.
Proof.
  revert i. induction p as [|r p IH]; intros i; simpl; [reflexivity|].
  destruct (decode_packet btox codec settings (raw_data r)) as [[a|]|e];
    rewrite IH; reflexivity.
Qed.

Lemma decode_file_full_loop_shape (i : Z) (p : list (RawRecord Timestamp)) :
  decode_file_full_loop btox codec settings Timestamp i p
  = record_loop (decode_packet_full btox codec settings Timestamp)
                set_number_timestamp i p.
Proof.
  revert i. induction p as [|r p IH]; intros i; simpl; [reflexivity|].
  destruct (decode_packet_full btox codec settings Timestamp (raw_data r)) as [[a|]|e];
    rewrite IH; reflexivity.
Qed.

Section Loop.

Context {A B : Type}.
Variable decode : bytes -> Exc (option A).
Variable attach : A -> Z -> Timestamp -> B.

(** What is yielded: exactly the records that decode to a packet, each
    with its own position and timestamp. *)
Lemma record_loop_elem (i : Z) (p : list (RawRecord Timestamp)) (y : B) :
  y ∈ record_loop decode attach i p <->
  exists k r a, p !! k = Some r /\ decode (raw_data r) = Ok (Some a)
                /\ y = attach a (i + Z.of_nat k + 1) (raw_timestamp r).
Proof.
  revert i. induction p as [|r p IH]; intros i; simpl.
  - split; [intros H; inversion H | intros (k & r & a & H & _); discriminate].
  - assert (Hskip : y ∈ record_loop decode attach (i + 1) p <->
              exists k r0 a, p !! k = Some r0 /\ decode (raw_data r0) = Ok (Some a)
                /\ y = attach a (i + Z.of_nat (S k) + 1) (raw_timestamp r0)).
    { rewrite IH. split; intros (k & r0 & a & H1 & H2 & H3); exists k, r0, a;
        (split; [exact H1|]; split; [exact H2|]); rewrite H3; f_equal; lia. }
    destruct (decode (raw_data r)) as [[a|]|e] eqn:E.
    + rewrite elem_of_cons, Hskip. split.
      * intros [->|(k & r0 & a0 & H1 & H2 & H3)].
        -- exists 0%nat, r, a. simpl. split; [reflexivity|]. split; [exact E|].
           f_equal. lia.
        -- exists (S k), r0, a0. auto.
      * intros ([|k] & r0 & a0 & H1 & H2 & H3); simpl in H1.
        -- left. injection H1 as <-. rewrite E in H2. injection H2 as <-.
           rewrite H3. f_equal. lia.
        -- right. exists k, r0, a0. auto.
    + rewrite Hskip. split.
      * intros (k & r0 & a0 & H1 & H2 & H3). exists (S k), r0, a0. auto.
      * intros ([|k] & r0 & a0 & H1 & H2 & H3); simpl in H1.
        -- injection H1 as <-. rewrite E in H2. discriminate.
        -- exists k, r0, a0. auto.
    + rewrite Hskip. split.
      * intros (k & r0 & a0 & H1 & H2 & H3). exists (S k), r0, a0. auto.
      * intros ([|k] & r0 & a0 & H1 & H2 & H3); simpl in H1.
        -- injection H1 as <-. rewrite E in H2. discriminate.
        -- exists k, r0, a0. auto.
Qed.

(** The positions of the yielded items increase strictly. *)
Lemma record_loop_increasing (pos : B -> Z) (i : Z) (p : list (RawRecord Timestamp)) :
  (forall a n t, pos (attach a n t) = n) ->
  StronglySorted Z.lt (map pos (record_loop decode attach i p))
  /\ Forall (fun n => i < n) (map pos (record_loop decode attach i p)).
Proof.
  intros Hpos. revert i. induction p as [|r p IH]; intros i; simpl.
  - split; constructor.
  - destruct (IH (i + 1)) as [Hs Hf].
    assert (Hf' : Forall (fun n => i < n) (map pos (record_loop decode attach (i + 1) p))).
    { eapply Forall_impl; [exact Hf|]. simpl. intros; lia. }
    destruct (decode (raw_data r)) as [[a|]|e]; simpl; try (split; assumption).
    rewrite Hpos. split.
    + constructor; assumption.
    + constructor; [lia | assumption].
Qed.

(** What holds of every attached item holds of every yielded item. *)
Lemma record_loop_Forall (P : B -> Prop) (i : Z) (p : list (RawRecord Timestamp)) :
  (forall a n t, P (attach a n t)) ->
  Forall P (record_loop decode attach i p).
Proof.
  intros HP. revert i. induction p as [|r p IH]; intros i; simpl; [constructor|].
  destruct (decode (raw_data r)) as [[a|]|e]; auto.
Qed.

(** Three records of which the second yields nothing. *)
Lemma record_loop_middle_skipped (r1 r2 r3 : RawRecord Timestamp) (a1 a3 : A) :
  decode (raw_data r1) = Ok (Some a1) ->
  (decode (raw_data r2) = Ok None \/ exists e, decode (raw_data r2) = Raise e) ->
  decode (raw_data r3) = Ok (Some a3) ->
  record_loop decode attach 0 [r1; r2; r3]
  = [attach a1 1 (raw_timestamp r1); attach a3 3 (raw_timestamp r3)].
Proof.
  intros H1 H2 H3. simpl. rewrite H1, H3.
  destruct H2 as [H2|[e H2]]; rewrite H2; reflexivity.
Qed.

End Loop.

(** C8.  [decode_file] and [decode_file_full] yield exactly the records
    whose decoding returns a packet; each yielded item holds what the
    decoding returned, and its number is the record's 1-based index and its
    timestamp the record's timestamp; the numbers increase strictly along
    the yielded sequence.  A record that yields [None] or raises is skipped
    and the loop goes on: of three records whose second one yields nothing,
    the first and the third are yielded, numbered 1 and 3. *)
Theorem decode_file_skips_and_numbers (p : list (RawRecord Timestamp)) :
  (forall y,
     y ∈ decode_file btox codec settings Timestamp p <->
     exists k r a, p !! k = Some r
                   /\ decode_packet btox codec settings (raw_data r) = Ok (Some a)
                   /\ pkt y = a
                   /\ _number y = Z.of_nat k + 1
                   /\ _timestamp y = raw_timestamp r)
  /\ (forall y,
        y ∈ decode_file_full btox codec settings Timestamp p <->
        exists k r d, p !! k = Some r
                      /\ decode_packet_full btox codec settings Timestamp (raw_data r)
                         = Ok (Some d)
                      /\ pdu y = pdu d /\ lpdu y = lpdu d
                      /\ npdu y = npdu d /\ apdu y = apdu d
                      /\ number y = Some (Z.of_nat k + 1)
                      /\ timestamp y = Some (raw_timestamp r))
  /\ StronglySorted Z.lt (map _number (decode_file btox codec settings Timestamp p))
  /\ (exists ns,
        map number (decode_file_full btox codec settings Timestamp p) = map Some ns
        /\ StronglySorted Z.lt ns)
  /\ (forall r1 r2 r3 a1 a3,
        p = [r1; r2; r3] ->
        decode_packet btox codec settings (raw_data r1) = Ok (Some a1) ->
        (decode_packet btox codec settings (raw_data r2) = Ok None
         \/ exists e, decode_packet btox codec settings (raw_data r2) = Raise e) ->
        decode_packet btox codec settings (raw_data r3) = Ok (Some a3) ->
        decode_file btox codec settings Timestamp p
        = [mkNumberedPacket Timestamp a1 1 (raw_timestamp r1);
           mkNumberedPacket Timestamp a3 3 (raw_timestamp r3)])
  /\ (forall r1 r2 r3 d1 d3,
        p = [r1; r2; r3] ->
        decode_packet_full btox codec settings Timestamp (raw_data r1) = Ok (Some d1) ->
        (decode_packet_full btox codec settings Timestamp (raw_data r2) = Ok None
         \/ exists e,
              decode_packet_full btox codec settings Timestamp (raw_data r2) = Raise e) ->
        decode_packet_full btox codec settings Timestamp (raw_data r3) = Ok (Some d3) ->
        decode_file_full btox codec settings Timestamp p
        = [mkDecodedPacket Timestamp (pdu d1) (lpdu d1) (npdu d1) (apdu d1)
             (Some 1) (Some (raw_timestamp r1));
           mkDecodedPacket Timestamp (pdu d3) (lpdu d3) (npdu d3) (apdu d3)
             (Some 3) (Some (raw_timestamp r3))]).
Proof.
  unfold decode_file, decode_file_full.
  rewrite decode_file_loop_shape, decode_file_full_loop_shape.
  split; [|split; [|split; [|split; [|split]]]].
  - intros y. rewrite record_loop_elem. split.
    + intros (k & r & a & Hk & Ha & ->). exists k, r, a. simpl. auto.
    + intros (k & r & a & Hk & Ha & H1 & H2 & H3). exists k, r, a.
      split; [exact Hk|]. split; [exact Ha|].
      destruct y. simpl in *. subst. f_equal.
  - intros y. rewrite record_loop_elem. split.
    + intros (k & r & d & Hk & Hd & ->). exists k, r, d. simpl.
      repeat split; auto.
    + intros (k & r & d & Hk & Hd & H1 & H2 & H3 & H4 & H5 & H6). exists k, r, d.
      split; [exact Hk|]. split; [exact Hd|].
      destruct y. unfold set_number_timestamp. simpl in *. subst. f_equal.
  - apply (record_loop_increasing _ _ _number). reflexivity.
  - exists (map (fun y => default 0 (number y))
                (record_loop (decode_packet_full btox codec settings Timestamp)
                             set_number_timestamp 0 p)).
    split.
    + rewrite map_map. apply map_ext_Forall.
      apply record_loop_Forall. reflexivity.
    + apply (record_loop_increasing _ _ (fun y => default 0 (number y))). reflexivity.
  - intros r1 r2 r3 a1 a3 -> H1 H2 H3.
    apply record_loop_middle_skipped; assumption.
  - intros r1 r2 r3 d1 d3 -> H1 H2 H3.
    apply (record_loop_middle_skipped _ set_number_timestamp); assumption.
Qed.

Lemma decode_packet_full_unstamped (data : bytes) (d : DecodedPacket Timestamp) :
  decode_packet_full btox codec settings Timestamp data = Ok (Some d) ->
  number d = None /\ timestamp d = None.
Proof.
  unfold decode_packet_full. intros H.
  destruct (is_empty data); [discriminate|]. bind_inv H.
  destruct (is_empty (loc_data a)); [discriminate|]. bind_inv H.
  apply decode_packet_full_layers_fields in H. tauto.
Qed.

(** C5.  Every item [decode_file_full] yields is the [DecodedPacket] that
    [decode_packet_full] returned for one record, with [number] and
    [timestamp], both [None] when it was returned, assigned afterwards to
    the record's 1-based index and timestamp; the four layer fields are as
    returned. *)
Theorem decode_file_full_assigns_after_return (p : list (RawRecord Timestamp))
    (j : nat) (y : DecodedPacket Timestamp) :
  decode_file_full btox codec settings Timestamp p !! j = Some y ->
  exists k r d,
    p !! k = Some r
    /\ decode_packet_full btox codec settings Timestamp (raw_data r) = Ok (Some d)
    /\ number d = None /\ timestamp d = None
    /\ number y = Some (Z.of_nat k + 1) /\ timestamp y = Some (raw_timestamp r)
    /\ pdu y = pdu d /\ lpdu y = lpdu d /\ npdu y = npdu d /\ apdu y = apdu d.
Proof.
  intros Hy. apply list_elem_of_lookup_2 in Hy.
  unfold decode_file_full in Hy. rewrite decode_file_full_loop_shape in Hy.
  apply record_loop_elem in Hy. destruct Hy as (k & r & d & Hk & Hd & ->).
  destruct (decode_packet_full_unstamped _ _ Hd) as [Hn Ht].
  exists k, r, d. simpl. repeat split; auto.
Qed.

End GeneratorProperties.

(** ** Properties of the tracer loop *)

Section TracerProperties.

Context {Handler Attrs Timestamp : Type}.
Variable call : Handler -> Tracer Handler Attrs -> Pkt Timestamp
                -> Exc (Tracer Handler Attrs).
Variable tracers : list (Factory Handler Attrs).

Lemma trace_tracer_slot (pkt : Pkt Timestamp) (i : nat)
    (cur cur' : list (Tracer Handler Attrs)) :
  trace_tracer call tracers pkt i cur = Ok cur' ->
  length cur' = length cur
  /\ (forall j, j <> i -> cur' !! j = cur !! j)
  /\ (forall t, cur !! i = Some t -> handled call tracers pkt i t (cur' !! i)).
Proof.
  unfold trace_tracer. intros H.
  destruct (cur !! i) as [t|] eqn:Ei.
  - bind_inv H. rename a into t'.
    assert (Hi : (i < length cur)%nat) by (eapply lookup_lt_Some; exact Ei).
    destruct (current_state t') as [fn|] eqn:Es.
    + injection H as <-. rewrite length_insert. split; [reflexivity|]. split.
      * intros j Hj. apply list_lookup_insert_ne. congruence.
      * intros t0 Ht0. injection Ht0 as <-. exists t'. split; [exact E|].
        right. split; [congruence|]. apply list_lookup_insert_eq. exact Hi.
    + destruct (tracers !! i) as [f|] eqn:Ef; [|discriminate].
      injection H as <-. rewrite length_insert. split; [reflexivity|]. split.
      * intros j Hj. apply list_lookup_insert_ne. congruence.
      * intros t0 Ht0. injection Ht0 as <-. exists t'. split; [exact E|].
        left. split; [exact Es|]. exists f. split; [exact Ef|].
        apply list_lookup_insert_eq. exact Hi.
  - injection H as <-. split; [reflexivity|]. split; [reflexivity|].
    intros t Ht. discriminate.
Qed.

Lemma trace_tracers_slots (pkt : Pkt Timestamp) (idx : list nat)
    (cur cur' : list (Tracer Handler Attrs)) :
  NoDup idx ->
  trace_tracers call tracers pkt idx cur = Ok cur' ->
  length cur' = length cur
  /\ (forall j, j ∉ idx -> cur' !! j = cur !! j)
  /\ (forall j t, j ∈ idx -> cur !! j = Some t -> handled call tracers pkt j t (cur' !! j)).
Proof.
  revert cur. induction idx as [|i idx IH]; intros cur Hnd H; simpl in H.
  - injection H as <-. split; [reflexivity|]. split; [reflexivity|].
    intros j t Hj. inversion Hj.
  - bind_inv H. rename a into mid.
    apply NoDup_cons in Hnd as [Hi Hnd].
    destruct (trace_tracer_slot _ _ _ _ E) as (Hlen1 & Hne1 & Heq1).
    destruct (IH mid Hnd H) as (Hlen2 & Hout2 & Hin2).
    split; [congruence|]. split.
    + intros j Hj. apply not_elem_of_cons in Hj as [Hji Hj].
      rewrite (Hout2 j Hj). apply Hne1. exact Hji.
    + intros j t Hj Ht. apply elem_of_cons in Hj as [->|Hj].
      * rewrite (Hout2 i Hi). apply Heq1. exact Ht.
      * apply Hin2; [exact Hj|]. rewrite Hne1; [exact Ht|].
        intros ->. contradiction.
Qed.



Lemma trace_packets_app (cur : list (Tracer Handler Attrs)) (l1 l2 : list (Pkt Timestamp)) :
  trace_packets call tracers cur (l1 ++ l2)
  = (mid <- trace_packets call tracers cur l1 ;; trace_packets call tracers mid l2).
Proof.
  revert cur. induction l1 as [|pkt l1 IH]; intros cur; simpl; [reflexivity|].
  destruct (trace_packet call tracers cur pkt) as [cur'|e]; simpl; [apply IH | reflexivity].
Qed.

End TracerProperties.

(** ** Concrete runs *)

Section SampleRunsAnyCodec.

Variable btox : bytes -> string -> string.
Variable codec : Codec.
Variable settings : Settings.
Variable Timestamp : Type.

(** C1.  On the ARP frame [Sample.arp_frame], whatever the codec and the
    settings, [decode_packet] raises UnboundLocalError while the deepest
    populated field of [decode_packet_full] is the transport PDU: the two
    entry points are not in lock-step on frames that are not IPv4. *)
Theorem deepest_full_vs_packet_on_arp_frame :
  decode_packet btox codec settings Sample.arp_frame = Raise UnboundLocalError
  /\ deepest_result (decode_packet_full btox codec settings Timestamp Sample.arp_frame)
     = Ok (Some (PacketPDU
                   (mkPDU (Sample.octets [0x00])
                      (Some (EndpointAddress
                               (Address_new
                                  (AddressOfString
                                     (btox (Sample.octets
                                              [0x66; 0x77; 0x88; 0x99; 0xaa; 0xbb]) ":")))))
                      (Some (EndpointAddress
                               (Address_new
                                  (AddressOfString
                                     (btox (Sample.octets
                                              [0x00; 0x11; 0x22; 0x33; 0x44; 0x55]) ":")))))))).
Proof. split; reflexivity. Qed.

End SampleRunsAnyCodec.

Module Runs.

Import Sample SampleRuns.

(** Close an equation between closed terms, filling in what is left open. *)
Ltac run := vm_compute; reflexivity.

(** C7 at a six-word header: the options come out empty although octets
    20 to 23 hold them. *)
Lemma decode_ip_options_end_offset_witness :
  exists d, decode_ip ip_with_options = Ok d
            /\ ip_header_len d = 6
            /\ slice 20 24 ip_with_options = octets [0x01; 0x01; 0x01; 0x00]
            /\ ip_options d = Some (slice 20 4 ip_with_options)
            /\ ip_data d = drop 24 ip_with_options
            /\ (6 <= 10 -> ip_options d = Some []).
Proof.
  eexists. split; [run|]. split; [run|]. split; [run|].
  apply (decode_ip_options_end_offset ip_with_options); [run | run].
Defined.

(** C4 at the ARP frame. *)
Lemma non_ip_frame_passthrough_witness :
  decode_packet Sample.btox codec route_on arp_frame = Raise UnboundLocalError
  /\ decode_packet_full Sample.btox codec route_on Z arp_frame
     = Ok (Some {| pdu := mkPDU (octets [0x00])
                            (Some (EndpointAddress
                                     (Address_new (AddressOfString "66:77:88:99:aa:bb"))))
                            (Some (EndpointAddress
                                     (Address_new (AddressOfString "00:11:22:33:44:55"))));
                   lpdu := None; npdu := None; apdu := None;
                   number := None; timestamp := None |}).
Proof.
  destruct (non_ip_frame_passthrough Sample.btox codec route_on Z arp_frame
              {| eth_destination_address := "00:11:22:33:44:55";
                 eth_source_address := "66:77:88:99:aa:bb";
                 eth_type := 0x0806;
                 eth_data := octets [0x00] |})
    as (_ & _ & Hplain & Hraise).
  - run.
  - vm_compute. discriminate.
  - vm_compute. discriminate.
  - vm_compute. discriminate.
  - split; [exact Hraise|].
    rewrite (Hplain 0); [run | run | lia | lia].
Defined.

(** C6 at an ARP frame without payload and at a UDP datagram without
    payload. *)
Lemma empty_final_payload_is_None_witness :
  (decode_packet Sample.btox codec route_on arp_header_only = Ok None
   /\ deepest_result (decode_packet_full Sample.btox codec route_on Z arp_header_only)
      = Ok None)
  /\ (decode_packet Sample.btox codec route_on udp_no_payload = Ok None
      /\ deepest_result (decode_packet_full Sample.btox codec route_on Z udp_no_payload)
         = Ok None).
Proof.
  split.
  - destruct (empty_final_payload_is_None Sample.btox codec route_on Z arp_header_only
                {| eth_destination_address := "00:11:22:33:44:55";
                   eth_source_address := "66:77:88:99:aa:bb";
                   eth_type := 0x0806;
                   eth_data := [] |} ltac:(run)) as (H & _).
    apply H; [vm_compute; discriminate | vm_compute; discriminate | run].
  - edestruct (empty_final_payload_is_None Sample.btox codec route_on Z udp_no_payload)
      as (_ & _ & _ & H & _); [run|].
    eapply H; run.
Defined.

(** C6 as stated fails: the IPv4 frame that ends with the Ethernet header
    has a zero-length payload after that header, and both entry points
    raise IndexError. *)
Lemma zero_payload_after_ethernet_raises :
  exists d, decode_ethernet Sample.btox ip_frame_no_payload = Ok d
            /\ eth_data d = []
            /\ decode_packet Sample.btox codec route_on ip_frame_no_payload
               = Raise IndexError
            /\ decode_packet_full Sample.btox codec route_on Z ip_frame_no_payload
               = Raise IndexError.
Proof. eexists. repeat split; run. Qed.

(** C2 at the frame whose NPCI stops after the version octet. *)
Lemma decode_npdu_catches_decode_fault_witness :
  decode_npdu codec truncated_record = Ok (truncated_record_read, None)
  /\ decode_file Sample.btox codec route_on Z
       [mkRawRecord Z 47 ts1 (bacnet_ip truncated_npci)]
     = [mkNumberedPacket Z (Packet_of_link truncated_record_read) 1 ts1].
Proof.
  destruct (decode_npdu_catches_decode_fault Sample.btox codec route_on Z
              truncated_record DecodingError ltac:(run) ltac:(run))
    as (Hn & _ & Hfile).
  split; [exact Hn|].
  eapply Hfile.
  - vm_compute. discriminate.
  - run.
  - vm_compute. discriminate.
  - run.
  - run.
Defined.

(** C2 as stated fails: the structural decode of that version-matched
    header raises, [decode_npdu] does not raise, and the record is yielded
    as a link-layer record instead of being skipped. *)
Lemma npdu_decode_fault_does_not_propagate :
  index (pduData (link_pdu truncated_record)) 0 = Ok 0x01
  /\ NPDU_decode codec truncated_record = Raise DecodingError
  /\ decode_npdu codec truncated_record = Ok (truncated_record_read, None)
  /\ decode_file Sample.btox codec route_on Z
       [mkRawRecord Z 47 ts1 (bacnet_ip truncated_npci)]
     = [mkNumberedPacket Z (Packet_of_link truncated_record_read) 1 ts1].
Proof. repeat split; run. Qed.

(** C3 at the forwarded Who-Is with route-aware mode on: the decoded record
    holds the originator's address, the instance made by the class call
    holds none, and the source of the record is still the transport
    source. *)
Lemma forwarded_address_not_lifted_witness :
  exists p' l b,
    decode_lpdu codec route_on forwarded_pdu = Ok (p', (DecodedLPDU l, Some b))
    /\ bvlciFunction l = 0x04
    /\ bvlciAddress l = Some originator
    /\ bvlciAddress b = None
    /\ pduSource (lpdu_pdu l) = transport_source
    /\ pduSource (lpdu_pdu l) <> Some (EndpointAddress originator).
Proof.
  edestruct (forwarded_address_not_lifted codec route_on forwarded_pdu)
    as (Heq & Hkeep); [run | run | run | run | run | run |].
  eexists _, _, _. split; [exact Heq|].
  destruct (Hkeep _ _ _ originator Heq ltac:(run)) as (Ha & Hs).
  split; [run|]. split; [exact Ha|]. split; [run|].
  split; [exact Hs|]. vm_compute. discriminate.
Defined.

(** C5 at a capture of one record. *)
Lemma decode_file_full_assigns_after_return_witness :
  exists y,
    yielded3 !! 0%nat = Some y
    /\ exists k r d,
         [record3] !! k = Some r
         /\ decode_packet_full Sample.btox codec route_on Z (raw_data r) = Ok (Some d)
         /\ number d = None /\ timestamp d = None
         /\ number y = Some (Z.of_nat k + 1) /\ timestamp y = Some (raw_timestamp r)
         /\ pdu y = pdu d /\ lpdu y = lpdu d /\ npdu y = npdu d /\ apdu y = apdu d.
Proof.
  eexists. split; [run|].
  apply (decode_file_full_assigns_after_return Sample.btox codec route_on Z
           [record3] 0%nat).
  vm_compute. reflexivity.
Defined.

(** C5 as stated fails: the item yielded for the record is not the
    [DecodedPacket] that [decode_packet_full] returned; [number] and
    [timestamp] were assigned in between. *)
Lemma decoded_packet_changed_before_yield :
  exists d y,
    decode_packet_full Sample.btox codec route_on Z (raw_data record3) = Ok (Some d)
    /\ decode_file_full Sample.btox codec route_on Z [record3] = [y]
    /\ number d = None /\ number y = Some 1
    /\ timestamp d = None /\ timestamp y = Some ts3
    /\ y <> d.
Proof.
  eexists _, _. split; [run|]. split; [run|].
  repeat split; try run. vm_compute. discriminate.
Qed.

(** C8 at a capture of three records whose second one is cut short. *)
Lemma decode_file_skips_and_numbers_witness :
  exists (a1 a3 : Packet) (d1 d3 : DecodedPacket Z),
    decode_file Sample.btox codec route_on Z [record1; record2; record3]
    = [mkNumberedPacket Z a1 1 ts1; mkNumberedPacket Z a3 3 ts3]
    /\ decode_file_full Sample.btox codec route_on Z [record1; record2; record3]
       = [mkDecodedPacket Z (pdu d1) (lpdu d1) (npdu d1) (apdu d1) (Some 1) (Some ts1);
          mkDecodedPacket Z (pdu d3) (lpdu d3) (npdu d3) (apdu d3) (Some 3) (Some ts3)]
    /\ exists ns,
         map number (decode_file_full Sample.btox codec route_on Z
                       [record1; record2; record3]) = map Some ns
         /\ StronglySorted Z.lt ns.
Proof.
  destruct (decode_file_skips_and_numbers Sample.btox codec route_on Z
              [record1; record2; record3]) as (_ & _ & _ & Hsorted & Hfile & Hfull).
  eexists _, _, _, _. split; [|split].
  - eapply (Hfile record1 record2 record3); [reflexivity | run | | run].
    right. exists StructError. run.
  - eapply (Hfull record1 record2 record3); [reflexivity | run | | run].
    right. exists StructError. run.
  - exact Hsorted.
Defined.


(** C10 at an empty PDU, at a transport PDU that stops inside the BVLL
    header, and at the Read-Broadcast-Distribution-Table frame: a BVLL
    header and no body, of a class that carries no NPDU. *)
Lemma marker_check_bounds_witness :
  decode_lpdu codec route_on (mkPDU [] transport_source transport_destination)
  = Raise IndexError
  /\ decode_npdu codec (SamePDU (mkPDU [] transport_source transport_destination))
     = Raise IndexError
  /\ decode_packet_layers codec route_on short_bvll_pdu = Raise IndexError
  /\ (exists l,
        decode_packet_frame Sample.btox (bacnet_ip read_bdt) = Ok l
        /\ is_empty (loc_data l) = false
        /\ build_PDU l = Ok read_bdt_pdu)
  /\ (exists p' l1 b,
        decode_lpdu codec route_on read_bdt_pdu = Ok (p', (DecodedLPDU l1, Some b))
        /\ pduData (lpdu_pdu l1) = [])
  /\ decode_packet_layers codec route_on read_bdt_pdu = Raise IndexError
  /\ decode_packet_full_layers codec route_on Z read_bdt_pdu = Raise IndexError
  /\ decode_packet Sample.btox codec route_on (bacnet_ip read_bdt) = Raise IndexError
  /\ decode_packet_full Sample.btox codec route_on Z (bacnet_ip read_bdt)
     = Raise IndexError.
Proof.
  destruct (marker_check_bounds codec route_on Z) as (Hl & Hn & _ & Hshort & Hclass).
  split; [apply Hl; run|]. split; [apply Hn; run|].
  split; [apply (Hshort short_bvll_pdu DecodingError); run|].
  split; [eexists; repeat split; run|].
  edestruct (Hclass read_bdt_pdu) as (Heq & Hraise);
    [run | run | run | run | run | discriminate | discriminate | discriminate
     | discriminate |].
  split; [eexists _, _, _; split; [exact Heq | run]|].
  destruct (Hraise ltac:(run)) as (Hp & Hf).
  split; [exact Hp|]. split; [exact Hf|]. split; run.
Defined.

End Runs.

(** ** Bounds and fields of the frame headers *)

Lemma byte_val_range (b : Byte.byte) : 0 <= byte_val b < 256.
Proof.
  unfold byte_val. pose proof (Byte.to_N_bounded b) as H. lia.
Qed.

Lemma length_slice (a b : nat) (s : bytes) :
  length (slice a b s) = Nat.min (b - a) (length s - a).
Proof. unfold slice. rewrite length_take, length_drop. reflexivity. Qed.

Lemma unpack_H_length (l : bytes) :
  (length l = 2%nat -> exists z, unpack_H l = Ok z)
  /\ (length l <> 2%nat -> unpack_H l = Raise StructError).
Proof.
  destruct l as [|x [|y [|z l]]]; simpl; split; intros H;
    try discriminate; try congruence; eauto.
Qed.

(** [struct.unpack("!H", s[a:a+2])]: the two octets at [a], when they are
    there. *)
Lemma unpack_H_slice (s : bytes) (a : nat) :
  unpack_H (slice a (S (S a)) s)
  = match s !! a, s !! S a with
    | Some hi, Some lo => Ok (256 * byte_val hi + byte_val lo)
    | _, _ => Raise StructError
    end.
Proof.
  unfold slice, bytes in *. replace (S (S a) - a)%nat with 2%nat by lia.
  assert (H0 : s !! a = drop a s !! 0%nat)
    by (rewrite lookup_drop; f_equal; lia).
  assert (H1 : s !! S a = drop a s !! 1%nat)
    by (rewrite lookup_drop; f_equal; lia).
  rewrite H0, H1.
  destruct (drop a s) as [|x [|y l]]; reflexivity.
Qed.

Lemma unpack_H_slice_short (s : bytes) (a : nat) :
  (length s < S (S a))%nat -> unpack_H (slice a (S (S a)) s) = Raise StructError.
Proof.
  intros H. apply unpack_H_length. rewrite length_slice. lia.
Qed.

Lemma unpack_H_slice_Ok (s : bytes) (a : nat) :
  (S (S a) <= length s)%nat ->
  exists hi lo, s !! a = Some hi /\ s !! S a = Some lo
                /\ unpack_H (slice a (S (S a)) s) = Ok (256 * byte_val hi + byte_val lo).
Proof.
  intros H. rewrite unpack_H_slice. unfold bytes in *.
  destruct (lookup_lt_is_Some_2 s a) as [hi Hhi]; [lia|].
  destruct (lookup_lt_is_Some_2 s (S a)) as [lo Hlo]; [lia|].
  exists hi, lo. rewrite Hhi, Hlo. auto.
Qed.

Lemma unpack_H_slice_inv (s : bytes) (a : nat) (z : Z) :
  unpack_H (slice a (S (S a)) s) = Ok z ->
  (S (S a) <= length s)%nat
  /\ exists hi lo, s !! a = Some hi /\ s !! S a = Some lo
                   /\ z = 256 * byte_val hi + byte_val lo.
Proof.
  rewrite unpack_H_slice. intros H.
  destruct (s !! a) as [hi|] eqn:Hhi; [|discriminate].
  destruct (s !! S a) as [lo|] eqn:Hlo; [|discriminate].
  injection H as <-. split.
  - apply lookup_lt_Some in Hlo. lia.
  - eauto.
Qed.

Lemma index_Ok (s : bytes) (i : nat) :
  (i < length s)%nat -> exists b, s !! i = Some b /\ index s i = Ok (byte_val b).
Proof.
  intros H. unfold index, bytes in *.
  destruct (lookup_lt_is_Some_2 s i H) as [b Hb].
  exists b. rewrite Hb. auto.
Qed.

Lemma index_inv (s : bytes) (i : nat) (z : Z) :
  index s i = Ok z -> exists b, s !! i = Some b /\ z = byte_val b.
Proof.
  unfold index. destruct (s !! i) as [b|]; [|discriminate].
  intros H. injection H as <-. eauto.
Qed.

Lemma inet_ntoa_length (l : bytes) :
  (exists a, inet_ntoa l = Ok a) <-> length l = 4%nat.
Proof.
  destruct l as [|a [|b [|c [|d [|e l]]]]]; simpl; split;
    try (intros [x Hx]; discriminate); try discriminate; eauto.
Qed.

Lemma land_low_bits (a : Z) (n : Z) :
  0 <= n -> Z.land a (Z.ones n) = a mod 2 ^ n.
Proof. intros H. apply Z.land_ones. exact H. Qed.

(** The three fields of a 16-bit tag word. *)
Lemma tag_word_fields (x : Z) :
  0 <= x < 65536 ->
  0 <= Z.land (Z.shiftr x 13) 0x07 <= 7
  /\ 0 <= Z.land (Z.shiftr x 12) 0x01 <= 1
  /\ 0 <= Z.land x 0x0FFF <= 4095
  /\ 8192 * Z.land (Z.shiftr x 13) 0x07 + 4096 * Z.land (Z.shiftr x 12) 0x01
     + Z.land x 0x0FFF = x.
Proof.
  intros Hx.
  replace (Z.land (Z.shiftr x 13) 0x07) with ((x / 8192) mod 8)
    by (change 8192 with (2 ^ 13); rewrite <- (Z.shiftr_div_pow2 x 13) by lia;
        symmetry; apply (land_low_bits _ 3); lia).
  replace (Z.land (Z.shiftr x 12) 0x01) with ((x / 4096) mod 2)
    by (change 4096 with (2 ^ 12); rewrite <- (Z.shiftr_div_pow2 x 12) by lia;
        symmetry; apply (land_low_bits _ 1); lia).
  replace (Z.land x 0x0FFF) with (x mod 4096)
    by (symmetry; apply (land_low_bits _ 12); lia).
  Z.to_euclidean_division_equations. lia.
Qed.

Section HeaderProperties.

Variable btox : bytes -> string -> string.

(** X1.  [decode_ethernet] needs fourteen octets: on fewer it raises
    struct.error, on fourteen or more it returns the two addresses rendered
    from octets 0-5 and 6-11, the big-endian type of octets 12-13 and
    everything from offset 14 as data. *)
Theorem decode_ethernet_bounds (s : bytes) :
  ((length s < 14)%nat -> decode_ethernet btox s = Raise StructError)
  /\ ((14 <= length s)%nat ->
      exists hi lo,
        s !! 12%nat = Some hi /\ s !! 13%nat = Some lo
        /\ decode_ethernet btox s
           = Ok {| eth_destination_address := btox (take 6 s) ":";
                   eth_source_address := btox (take 6 (drop 6 s)) ":";
                   eth_type := 256 * byte_val hi + byte_val lo;
                   eth_data := drop 14 s |}).
Proof.
  split; intros H; unfold decode_ethernet.
  - rewrite (unpack_H_slice_short s 12 H). reflexivity.
  - destruct (unpack_H_slice_Ok s 12 H) as (hi & lo & Hhi & Hlo & Hu).
    exists hi, lo. rewrite Hu. auto.
Qed.

(** X2.  [decode_vlan] needs four octets (struct.error otherwise).  The
    three fields it cuts from the tag word are within 3, 1 and 12 bits and
    put together give the word back; the type is octets 2-3 and the data
    starts at offset 4. *)
Theorem decode_vlan_fields (s : bytes) :
  ((length s < 4)%nat -> decode_vlan s = Raise StructError)
  /\ ((4 <= length s)%nat -> exists v, decode_vlan s = Ok v)
  /\ (forall v, decode_vlan s = Ok v ->
        exists b0 b1 b2 b3,
          s !! 0%nat = Some b0 /\ s !! 1%nat = Some b1
          /\ s !! 2%nat = Some b2 /\ s !! 3%nat = Some b3
          /\ 0 <= vlan_priority v <= 7
          /\ 0 <= vlan_cfi v <= 1
          /\ 0 <= vlan_vlan v <= 4095
          /\ 8192 * vlan_priority v + 4096 * vlan_cfi v + vlan_vlan v
             = 256 * byte_val b0 + byte_val b1
          /\ vlan_type v = 256 * byte_val b2 + byte_val b3
          /\ vlan_data v = drop 4 s).
Proof.
  split; [|split].
  - intros H. unfold decode_vlan.
    destruct (le_lt_dec 2 (length s)) as [H2|H2].
    + destruct (unpack_H_slice_Ok s 0 H2) as (hi & lo & _ & _ & Hu).
      rewrite Hu. simpl. rewrite (unpack_H_slice_short s 2 H). reflexivity.
    + rewrite (unpack_H_slice_short s 0 H2). reflexivity.
  - intros H. unfold decode_vlan.
    destruct (unpack_H_slice_Ok s 0) as (hi & lo & _ & _ & Hu); [lia|].
    destruct (unpack_H_slice_Ok s 2 H) as (hi' & lo' & _ & _ & Hu').
    rewrite Hu. simpl. rewrite Hu'. simpl. eauto.
  - intros v H. unfold decode_vlan in H. bind_inv H.
    apply unpack_H_slice_inv in E as (_ & b0 & b1 & H0 & H1 & ->).
    apply unpack_H_slice_inv in E0 as (_ & b2 & b3 & H2 & H3 & ->).
    injection H as <-. simpl.
    exists b0, b1, b2, b3.
    pose proof (byte_val_range b0) as R0. pose proof (byte_val_range b1) as R1.
    destruct (tag_word_fields (256 * byte_val b0 + byte_val b1)) as (Hp & Hc & Hv & Hsum);
      [lia|].
    repeat split; auto; lia.
Qed.

End HeaderProperties.

Lemma index_Raise (s : bytes) (i : nat) (e : Fault) :
  index s i = Raise e -> e = IndexError /\ (length s <= i)%nat.
Proof.
  unfold index, bytes in *. destruct (s !! i) as [b|] eqn:E; [discriminate|].
  intros H. injection H as <-. split; [reflexivity|].
  apply lookup_ge_None. exact E.
Qed.

Lemma unpack_H_slice_Raise (s : bytes) (a : nat) (e : Fault) :
  unpack_H (slice a (S (S a)) s) = Raise e ->
  e = StructError /\ (length s < S (S a))%nat.
Proof.
  intros H. destruct (le_lt_dec (S (S a)) (length s)) as [Hle|Hlt].
  - destruct (unpack_H_slice_Ok s a Hle) as (hi & lo & _ & _ & Hu). congruence.
  - rewrite (unpack_H_slice_short s a Hlt) in H. injection H as <-. auto.
Qed.

Lemma inet_ntoa_slice (s : bytes) (a : nat) :
  ((4 + a <= length s)%nat -> exists x, inet_ntoa (slice a (4 + a) s) = Ok x)
  /\ (forall x, inet_ntoa (slice a (4 + a) s) = Ok x -> (4 + a <= length s)%nat)
  /\ (forall e, inet_ntoa (slice a (4 + a) s) = Raise e -> e = OSError).
Proof.
  split; [|split].
  - intros H. apply inet_ntoa_length. rewrite length_slice. lia.
  - intros x H.
    assert (Hl : length (slice a (4 + a) s) = 4%nat)
      by (apply inet_ntoa_length; eauto).
    rewrite length_slice in Hl. lia.
  - intros e. destruct (slice a (4 + a) s) as [|? [|? [|? [|? [|? ?]]]]]; simpl;
      congruence.
Qed.

Lemma inet_ntoa_slice_Raise (s : bytes) (a : nat) (e : Fault) :
  inet_ntoa (slice a (4 + a) s) = Raise e ->
  e = OSError /\ (length s < 4 + a)%nat.
Proof.
  intros H. split; [exact (proj2 (proj2 (inet_ntoa_slice s a)) e H)|].
  destruct (le_lt_dec (4 + a) (length s)) as [Hle|Hlt]; [|exact Hlt].
  destruct (proj1 (inet_ntoa_slice s a) Hle) as [x Hx]. congruence.
Qed.

(** One step of a header decoder: the next read succeeds, or the goal is
    closed from the fault it raises. *)
Ltac header_read s :=
  let m :=
    lazymatch goal with
    | |- ex (fun _ => bind ?m _ = _ /\ _) => m
    | |- ex (fun _ => bind ?m _ = _) => m
    | |- bind ?m _ = _ => m
    end in
  let E := fresh "E" in
  lazymatch m with
  | index s ?i =>
      destruct m as [?|?] eqn:E; cbn [bind];
      [|apply index_Raise in E as [-> E]]
  | unpack_H (slice ?a ?b s) =>
      destruct m as [?|?] eqn:E; cbn [bind];
      [|apply (unpack_H_slice_Raise s a) in E as [-> E]]
  | inet_ntoa (slice ?a ?b s) =>
      destruct m as [?|?] eqn:E; cbn [bind];
      [|apply (inet_ntoa_slice_Raise s a) in E as [-> E]]
  end.

Lemma nibbles (b : Byte.byte) :
  0 <= Z.shiftr (Z.land (byte_val b) 0xF0) 4 <= 15
  /\ 0 <= Z.land (byte_val b) 0x0F <= 15
  /\ 16 * Z.shiftr (Z.land (byte_val b) 0xF0) 4 + Z.land (byte_val b) 0x0F
     = byte_val b.
Proof. destruct b; vm_compute; repeat split; discriminate. Qed.

(** X3.  [decode_ip] needs twenty octets: on twenty or more it returns a
    header, on fewer it raises IndexError, struct.error or OSError,
    whichever read comes first past the end.  The version and the header
    length are the two halves of octet 0; the header length is not checked
    against 5. *)
Theorem decode_ip_bounds (s : bytes) :
  ((20 <= length s)%nat -> exists d, decode_ip s = Ok d)
  /\ ((length s < 20)%nat ->
      exists e, decode_ip s = Raise e
                /\ (e = IndexError \/ e = StructError \/ e = OSError))
  /\ (s = [] -> decode_ip s = Raise IndexError)
  /\ (forall d, decode_ip s = Ok d ->
        exists b0, s !! 0%nat = Some b0
                   /\ 0 <= ip_version d <= 15
                   /\ 0 <= ip_header_len d <= 15
                   /\ 16 * ip_version d + ip_header_len d = byte_val b0).
Proof.
  split; [|split; [|split]].
  - intros H. unfold decode_ip.
    repeat (header_read s; [|lia]). eauto.
  - intros H. unfold decode_ip.
    repeat (header_read s; [|eexists; split; [reflexivity | auto]]).
    match goal with
    | E : inet_ntoa (slice 16 _ s) = Ok _ |- _ =>
        apply (proj1 (proj2 (inet_ntoa_slice s 16))) in E; lia
    end.
  - intros ->. reflexivity.
  - intros d H. unfold decode_ip in H. bind_inv H.
    apply index_inv in E as (b0 & Hb0 & ->).
    injection H as <-. simpl. exists b0. split; [exact Hb0|].
    destruct (nibbles b0) as (Hv & Hh & Hsum). auto.
Qed.

Lemma flag_bits (b : Byte.byte) :
  Z.shiftr (Z.land (byte_val b) 0xE0) 5 = byte_val b / 32.
Proof. destruct b; vm_compute; reflexivity. Qed.

Lemma low_five_bits (hi lo : Z) :
  0 <= hi -> 0 <= lo -> Z.land (256 * hi + lo) 0x1F = lo mod 32.
Proof.
  intros Hhi Hlo.
  replace (Z.land (256 * hi + lo) 0x1F) with ((256 * hi + lo) mod 32)
    by (symmetry; apply (land_low_bits _ 5); lia).
  Z.to_euclidean_division_equations. lia.
Qed.

(** X4.  [decode_ip] cuts the flags and the fragment offset from octets 6
    and 7: the flags are the three high bits of octet 6, the fragment offset
    is octet 7 modulo 32, so it never exceeds 31 and the five low bits of
    octet 6 reach neither field. *)
Theorem decode_ip_flags_fragment (s : bytes) (d : IpHeader) :
  decode_ip s = Ok d ->
  exists b6 b7,
    s !! 6%nat = Some b6 /\ s !! 7%nat = Some b7
    /\ ip_flags d = byte_val b6 / 32
    /\ ip_fragment_offset d = byte_val b7 mod 32
    /\ 0 <= ip_flags d <= 7
    /\ 0 <= ip_fragment_offset d <= 31.
Proof.
  intros H. unfold decode_ip in H. bind_inv H.
  apply index_inv in E3 as (b6 & Hb6 & ->).
  apply unpack_H_slice_inv in E4 as (_ & b6' & b7 & Hb6' & Hb7 & ->).
  injection H as <-. simpl. exists b6, b7.
  pose proof (byte_val_range b6) as R6. pose proof (byte_val_range b6') as R6'.
  pose proof (byte_val_range b7) as R7.
  rewrite flag_bits, low_five_bits by lia.
  repeat split; auto; Z.to_euclidean_division_equations; lia.
Qed.

(** X5.  [decode_ip] starts the data at offset four times the header
    length whatever that length is: the header and the data split the
    input there, no header length is refused, and a header length below 5
    leaves octets of the fixed header in the data (all of them for 0). *)
Theorem decode_ip_data_offset (s : bytes) (d : IpHeader) :
  decode_ip s = Ok d ->
  take (Z.to_nat (4 * ip_header_len d)) s ++ ip_data d = s
  /\ length (ip_data d) = (length s - Z.to_nat (4 * ip_header_len d))%nat
  /\ (ip_header_len d < 5 -> (length s - 20 < length (ip_data d))%nat)
  /\ (ip_header_len d = 0 -> ip_data d = s)
  /\ (ip_header_len d <= 5 -> ip_options d = None).
Proof.
  intros H.
  assert (Hlen : (20 <= length s)%nat).
  { destruct (le_lt_dec 20 (length s)) as [Hle|Hlt]; [exact Hle|].
    unfold decode_ip in H. bind_inv H.
    match goal with
    | E : inet_ntoa (slice 16 _ s) = Ok _ |- _ =>
        apply (proj1 (proj2 (inet_ntoa_slice s 16))) in E; lia
    end. }
  unfold decode_ip in H. bind_inv H. injection H as <-. simpl.
  split; [apply take_drop|]. split; [apply length_drop|]. split; [|split].
  - intros Hh. rewrite length_drop. lia.
  - intros ->. reflexivity.
  - intros Hh. destruct (5 <? Z.land a 15) eqn:E'; [apply Z.ltb_lt in E'; lia | reflexivity].
Qed.

(** X6.  [decode_udp] needs eight octets (struct.error otherwise).  The
    data is cut by the length field of the header, not by what follows it:
    it is what lies between offset 8 and that offset, as far as the input
    goes, and it is empty when the field is 8 or less. *)
Theorem decode_udp_length_trim (s : bytes) :
  ((length s < 8)%nat -> decode_udp s = Raise StructError)
  /\ ((8 <= length s)%nat -> exists u, decode_udp s = Ok u)
  /\ (forall u, decode_udp s = Ok u ->
        0 <= udp_length u < 65536
        /\ udp_data u = take (Z.to_nat (udp_length u) - 8) (drop 8 s)
        /\ length (udp_data u)
           = (Nat.min (Z.to_nat (udp_length u)) (length s) - 8)%nat
        /\ (udp_length u <= 8 -> udp_data u = [])).
Proof.
  split; [|split].
  - intros H. unfold decode_udp.
    repeat (header_read s; [|reflexivity]).
    match goal with
    | E : unpack_H (slice 6 _ s) = Ok _ |- _ =>
        apply (unpack_H_slice_inv s 6) in E as (Hl & _); lia
    end.
  - intros H. unfold decode_udp.
    repeat (header_read s; [|lia]). eauto.
  - intros u H. unfold decode_udp in H. bind_inv H.
    apply unpack_H_slice_inv in E1 as (_ & hi & lo & _ & _ & ->).
    injection H as <-. simpl.
    pose proof (byte_val_range hi) as Rh. pose proof (byte_val_range lo) as Rl.
    set (L := 256 * byte_val hi + byte_val lo) in *.
    replace (8 + L - 8) with L by lia.
    split; [lia|]. split; [reflexivity|]. split.
    + rewrite length_slice. lia.
    + intros HL. apply slice_short. lia.
Qed.

(** ** Further properties of the two entry points *)

Lemma is_udp_protocols (n : Z) : is_udp (_protocols n) = true <-> n = 17.
Proof.
  unfold _protocols, IPPROTO_TCP, IPPROTO_UDP, IPPROTO_ICMP.
  destruct (n =? 6) eqn:E6; [apply Z.eqb_eq in E6; simpl; split; [discriminate | lia]|].
  destruct (n =? 17) eqn:E17; [apply Z.eqb_eq in E17; simpl; tauto|].
  apply Z.eqb_neq in E17.
  destruct (n =? 1); simpl; split; try discriminate; lia.
Qed.

Section EntryPointProperties.

Variable btox : bytes -> string -> string.
Variable codec : Codec.
Variable settings : Settings.
Variable Timestamp : Type.

(** X7.  On an IPv4 frame the protocol is UDP exactly when octet 9 of the
    IP header is 17.  For any other protocol the UDP header is not read:
    the transport PDU carries the whole IP payload and the two dotted
    strings of [decode_ip] as they are, not [Address] objects.  For UDP it
    carries the UDP data and [Address] objects made of the string and the
    port, without a route. *)
Theorem ip_frame_transport (data : bytes) (d : EthernetHeader) (td : Z * bytes)
    (h : IpHeader) :
  decode_ethernet btox data = Ok d ->
  vlan_step d = Ok td ->
  fst td = 0x0800 ->
  decode_ip (snd td) = Ok h ->
  (exists b9, snd td !! 9%nat = Some b9
              /\ (is_udp (ip_protocol h) = true <-> byte_val b9 = 17))
  /\ (is_udp (ip_protocol h) = false ->
      ip_data h <> [] ->
      let transport :=
        mkPDU (ip_data h) (Some (EndpointStr (ip_source_address h)))
              (Some (EndpointStr (ip_destination_address h))) in
      decode_packet btox codec settings data
      = decode_packet_layers codec settings transport
      /\ decode_packet_full btox codec settings Timestamp data
         = decode_packet_full_layers codec settings Timestamp transport)
  /\ (is_udp (ip_protocol h) = true ->
      forall u, decode_udp (ip_data h) = Ok u ->
      udp_data u <> [] ->
      let transport :=
        mkPDU (udp_data u)
              (Some (EndpointAddress
                       (mkAddress (AddressOfTuple (ip_source_address h)
                                                  (udp_source_port u)) None)))
              (Some (EndpointAddress
                       (mkAddress (AddressOfTuple (ip_destination_address h)
                                                  (udp_destination_port u)) None))) in
      decode_packet btox codec settings data
      = decode_packet_layers codec settings transport
      /\ decode_packet_full btox codec settings Timestamp data
         = decode_packet_full_layers codec settings Timestamp transport).
Proof.
  intros Hd Htd Hip Hh. split; [|split].
  - pose proof Hh as Hh'. unfold decode_ip in Hh'. bind_inv Hh'.
    apply index_inv in E6 as (b9 & Hb9 & ->).
    injection Hh' as <-. simpl. exists b9. split; [exact Hb9|].
    apply is_udp_protocols.
  - intros Hudp Hdata transport. apply is_empty_false in Hdata.
    rewrite (decode_packet_after_vlan _ _ _ _ _ _ Hd Htd),
            (decode_packet_full_after_vlan _ _ _ _ _ _ _ Hd Htd), Hip.
    unfold ip_step. simpl. rewrite Hh. simpl. rewrite Hudp. simpl.
    rewrite Hdata. split; reflexivity.
  - intros Hudp u Hu Hdata transport. apply is_empty_false in Hdata.
    rewrite (decode_packet_after_vlan _ _ _ _ _ _ Hd Htd),
            (decode_packet_full_after_vlan _ _ _ _ _ _ _ Hd Htd), Hip.
    unfold ip_step. simpl. rewrite Hh. simpl. rewrite Hudp. simpl.
    rewrite Hu. simpl. rewrite Hdata. split; reflexivity.
Qed.

(** X8.  Input shorter than an Ethernet header: both entry points return
    [None] on empty data and raise struct.error on one to thirteen octets,
    whatever those octets are. *)
Theorem short_input (data : bytes) :
  (data = [] ->
   decode_packet btox codec settings data = Ok None
   /\ decode_packet_full btox codec settings Timestamp data = Ok None)
  /\ ((0 < length data < 14)%nat ->
      decode_packet btox codec settings data = Raise StructError
      /\ decode_packet_full btox codec settings Timestamp data = Raise StructError).
Proof.
  split.
  - intros ->. split; reflexivity.
  - intros [Hpos Hlt].
    assert (He : decode_ethernet btox data = Raise StructError).
    { unfold decode_ethernet. rewrite (unpack_H_slice_short data 12) by lia.
      reflexivity. }
    assert (Hne : is_empty data = false) by (destruct data; [simpl in Hpos; lia | reflexivity]).
    unfold decode_packet, decode_packet_full, decode_packet_frame,
      decode_packet_full_frame.
    rewrite Hne, He. split; reflexivity.
Qed.

(** X9.  One 802.1Q tag is transparent: a frame with the tag 0x8100, two
    tag octets and an inner type other than 0x8100 decodes, in both entry
    points, to what the same frame without the four tag octets decodes to.
    The tag's priority, CFI and VLAN id reach no result. *)
Theorem single_vlan_tag_transparent (mac rest : bytes) (t1 t2 ty1 ty2 : Byte.byte) :
  length mac = 12%nat ->
  256 * byte_val ty1 + byte_val ty2 <> 0x8100 ->
  decode_packet btox codec settings
    (mac ++ [Byte.x81; Byte.x00; t1; t2; ty1; ty2] ++ rest)
  = decode_packet btox codec settings (mac ++ [ty1; ty2] ++ rest)
  /\ decode_packet_full btox codec settings Timestamp
       (mac ++ [Byte.x81; Byte.x00; t1; t2; ty1; ty2] ++ rest)
     = decode_packet_full btox codec settings Timestamp (mac ++ [ty1; ty2] ++ rest).
Proof.
  intros Hmac Hty.
  do 12 (destruct mac as [|? mac]; [discriminate|]).
  destruct mac; [|discriminate]. clear Hmac.
  apply Z.eqb_neq in Hty.
  unfold decode_packet, decode_packet_full, decode_packet_frame,
    decode_packet_full_frame, decode_ethernet, vlan_step, decode_vlan.
  cbn [app is_empty slice firstn skipn Nat.sub unpack_H bind
       eth_type eth_data eth_source_address eth_destination_address
       vlan_type vlan_data fst snd].
  change (256 * byte_val Byte.x81 + byte_val Byte.x00 =? 33024) with true.
  change (take 0 rest) with (@nil Byte.byte).
  change (drop 0 rest) with rest.
  cbn [bind vlan_type vlan_data fst snd eth_type eth_data].
  rewrite Hty. split; reflexivity.
Qed.

End EntryPointProperties.

(** ** Further properties of the layer decoders *)

Section LayerResults.

Variable btox : bytes -> string -> string.
Variable codec : Codec.
Variable settings : Settings.
Variable Timestamp : Type.

(** The returns of [decode_lpdu], one by one. *)
Lemma decode_lpdu_cases (p p' : PDU) (r : LinkRecord) (v : option LPDU) :
  decode_lpdu codec settings p = Ok (p', (r, v)) ->
  (v = None /\ r = SamePDU p'
   /\ ((index (pduData p) 0 <> Ok 0x81 /\ p' = p)
       \/ (index (pduData p) 0 = Ok 0x81
           /\ (exists e, LPDU_decode codec p = Raise e)
           /\ p' = set_pduData p (LPDU_decode_rest codec p))))
  \/ (v = None
      /\ index (pduData p) 0 = Ok 0x81
      /\ p' = set_pduData p (LPDU_decode_rest codec p)
      /\ exists l,
           LPDU_decode codec p = Ok l
           /\ ((r = DecodedLPDU l
                /\ (bvll_pdu_types codec (bvlciFunction l) = None
                    \/ exists atype e,
                         bvll_pdu_types codec (bvlciFunction l) = Some atype
                         /\ AType_call codec atype = Raise e))
               \/ exists atype b0 e,
                    bvll_pdu_types codec (bvlciFunction l) = Some atype
                    /\ AType_call codec atype = Ok b0
                    /\ AType_decode codec atype l = Raise e
                    /\ r = DecodedLPDU
                             (LPDU_set_pduData l (AType_decode_rest codec atype l))))
  \/ (index (pduData p) 0 = Ok 0x81
      /\ p' = set_pduData p (LPDU_decode_rest codec p)
      /\ exists l atype b0 l1 l' b,
           LPDU_decode codec p = Ok l
           /\ bvll_pdu_types codec (bvlciFunction l) = Some atype
           /\ AType_call codec atype = Ok b0
           /\ AType_decode codec atype l = Ok l1
           /\ r = DecodedLPDU l' /\ v = Some b
           /\ pduData (lpdu_pdu l') = pduData (lpdu_pdu l1)
           /\ pduDestination (lpdu_pdu l') = pduDestination (lpdu_pdu l1)
           /\ bvlciFunction l' = bvlciFunction l1
           /\ bvlciAddress l' = bvlciAddress l1
           /\ (atype <> ForwardedNPDU -> l' = l1 /\ b = b0)).
Proof.
  unfold decode_lpdu. intros H. bind_inv H.
  destruct (a =? 129) eqn:Em; simpl in H.
  2:{ injection H as <- <- <-. left. split; [reflexivity|]. split; [reflexivity|].
      left. split; [|reflexivity]. rewrite E. apply Z.eqb_neq in Em. congruence. }
  apply Z.eqb_eq in Em. subst a.
  destruct (LPDU_decode codec p) as [l|e] eqn:El.
  2:{ injection H as <- <- <-. left. split; [reflexivity|]. split; [reflexivity|].
      right. eauto. }
  destruct (bvll_pdu_types codec (bvlciFunction l)) as [atype|] eqn:Et.
  2:{ injection H as <- <- <-. right. left. split; [reflexivity|]. split; [exact E|].
      split; [reflexivity|]. exists l. split; [reflexivity|]. left. auto. }
  destruct (AType_call codec atype) as [b0|e] eqn:Ec.
  2:{ injection H as <- <- <-. right. left. split; [reflexivity|]. split; [exact E|].
      split; [reflexivity|]. exists l. split; [reflexivity|]. left.
      split; [reflexivity|]. right. eauto. }
  destruct (AType_decode codec atype l) as [l1|e] eqn:Ed.
  2:{ injection H as <- <- <-. right. left. split; [reflexivity|]. split; [exact E|].
      split; [reflexivity|]. exists l. split; [reflexivity|]. right.
      exists atype, b0, e. auto. }
  right. right. split; [exact E|].
  destruct (AType_eqb atype ForwardedNPDU) eqn:Ef.
  - assert (atype = ForwardedNPDU) as -> by (destruct atype; simpl in Ef; congruence).
    destruct (route_aware settings), (bvlciAddress b0) as [address|];
      injection H as <- <- <-; (split; [reflexivity|]);
      eexists l, ForwardedNPDU, b0, l1, _, _;
      repeat split; auto; congruence.
  - assert (Hsame : Ok (set_pduData p (LPDU_decode_rest codec p),
                        (DecodedLPDU l1, Some b0)) = Ok (p', (r, v)))
      by (destruct (negb _); exact H).
    injection Hsame as <- <- <-. split; [reflexivity|].
    exists l, atype, b0, l1, l1, b0. repeat split; auto.
Qed.

(** X10.  [decode_lpdu] returns a variant exactly when the marker is 0x81,
    the structural decode succeeds, the function is in the registry and both
    the class call and the class decode succeed; the record then has the
    payload, destination, function and address of the class decode, and for
    every class but [ForwardedNPDU] it is that decode unchanged, whether or
    not the class is one of the three that carry an NPDU.  Without a variant
    the record is the PDU that was passed in, as it was or as [LPDU.decode]
    left it, or the structural record, as it was or as the class decode left
    it.  Whenever [LPDU.decode] was called, the PDU that was passed in is
    left as that call left it. *)
Theorem decode_lpdu_variant (p : PDU) :
  (forall p' r v,
     decode_lpdu codec settings p = Ok (p', (r, v)) ->
     (index (pduData p) 0 <> Ok 0x81 -> p' = p /\ r = SamePDU p /\ v = None)
     /\ (index (pduData p) 0 = Ok 0x81 ->
         p' = set_pduData p (LPDU_decode_rest codec p))
     /\ (v = None ->
         r = SamePDU p'
         \/ exists l,
              LPDU_decode codec p = Ok l
              /\ (r = DecodedLPDU l
                  \/ exists atype e,
                       bvll_pdu_types codec (bvlciFunction l) = Some atype
                       /\ AType_decode codec atype l = Raise e
                       /\ r = DecodedLPDU
                                (LPDU_set_pduData l
                                   (AType_decode_rest codec atype l))))
     /\ (forall b, v = Some b ->
           index (pduData p) 0 = Ok 0x81
           /\ exists l atype b0 l1 l',
                LPDU_decode codec p = Ok l
                /\ bvll_pdu_types codec (bvlciFunction l) = Some atype
                /\ AType_call codec atype = Ok b0
                /\ AType_decode codec atype l = Ok l1
                /\ r = DecodedLPDU l'
                /\ pduData (lpdu_pdu l') = pduData (lpdu_pdu l1)
                /\ pduDestination (lpdu_pdu l') = pduDestination (lpdu_pdu l1)
                /\ bvlciFunction l' = bvlciFunction l1
                /\ bvlciAddress l' = bvlciAddress l1
                /\ (atype <> ForwardedNPDU -> l' = l1 /\ b = b0)))
  /\ (forall e,
        index (pduData p) 0 = Ok 0x81 ->
        LPDU_decode codec p = Raise e ->
        let p' := set_pduData p (LPDU_decode_rest codec p) in
        decode_lpdu codec settings p = Ok (p', (SamePDU p', None)))
  /\ (forall l atype b0 l1,
        index (pduData p) 0 = Ok 0x81 ->
        LPDU_decode codec p = Ok l ->
        bvll_pdu_types codec (bvlciFunction l) = Some atype ->
        AType_call codec atype = Ok b0 ->
        AType_decode codec atype l = Ok l1 ->
        exists l' b,
          decode_lpdu codec settings p
          = Ok (set_pduData p (LPDU_decode_rest codec p), (DecodedLPDU l', Some b))).
Proof.
  split; [|split].
  - intros p' r v H. apply decode_lpdu_cases in H.
    destruct H as [(Hv & Hr & [(Hm & Hp)|(Hm & _ & Hp)])
                  |[(Hv & Hm & Hp & l & Hl & Hr)
                   |(Hm & Hp & l & atype & b0 & l1 & l' & b & Hl & Ht & Hc & Hd
                     & Hr & Hv & Hrest)]].
    + subst. split; [auto|]. split; [contradiction|]. split; [auto|]. congruence.
    + split; [contradiction|]. split; [auto|]. split; [auto|]. congruence.
    + split; [contradiction|]. split; [auto|]. split; [|congruence].
      intros _. right. exists l. split; [exact Hl|].
      destruct Hr as [(Hr & _)|(atype & b0 & e & Ht & _ & Hd & Hr)]; [auto|].
      right. eauto.
    + split; [contradiction|]. split; [auto|]. split; [congruence|].
      intros b' Hb. rewrite Hv in Hb. injection Hb as <-.
      split; [exact Hm|]. exists l, atype, b0, l1, l'. tauto.
  - intros e Hm Hl p'. unfold decode_lpdu. rewrite Hm. simpl. rewrite Hl. reflexivity.
  - intros l atype b0 l1 Hm Hl Ht Hc Hd.
    unfold decode_lpdu. rewrite Hm. simpl. rewrite Hl, Ht, Hc, Hd.
    destruct (AType_eqb atype ForwardedNPDU).
    + destruct (route_aware settings), (bvlciAddress b0); eauto.
    + destruct (negb _); eauto.
Qed.

(** The returns of [decode_npdu] that carry an NPDU. *)
Lemma decode_npdu_cases (r r' : LinkRecord) (n : NPDU) :
  decode_npdu codec r = Ok (r', Some n) ->
  index (pduData (link_pdu r)) 0 = Ok 0x01
  /\ r' = link_set_pduData r (NPDU_decode_rest codec r)
  /\ exists g, NPDU_decode codec r = Ok g
               /\ (n = g
                   \/ (exists m ntype, npduNetMessage g = Some m
                                       /\ npdu_types codec m = Some ntype
                                       /\ NType_decode codec ntype g = Ok n)
                   \/ exists m ntype e,
                        npduNetMessage g = Some m
                        /\ npdu_types codec m = Some ntype
                        /\ NType_decode codec ntype g = Raise e
                        /\ n = NPDU_set_pduData g (NType_decode_rest codec ntype g)).
Proof.
  unfold decode_npdu. intros H. bind_inv H.
  destruct (a =? 1) eqn:Ev; simpl in H; [|discriminate].
  apply Z.eqb_eq in Ev. subst a. split; [exact E|].
  destruct (NPDU_decode codec r) as [g|e]; [|discriminate].
  assert (Hr : r' = link_set_pduData r (NPDU_decode_rest codec r)).
  { destruct (npduNetMessage g) as [m|]; [|congruence].
    destruct (npdu_types codec m) as [ntype|]; [|congruence].
    destruct (NType_decode codec ntype g); congruence. }
  split; [exact Hr|].
  exists g. split; [reflexivity|].
  destruct (npduNetMessage g) as [m|] eqn:Em; [|left; congruence].
  destruct (npdu_types codec m) as [ntype|] eqn:Et; [|left; congruence].
  destruct (NType_decode codec ntype g) as [n'|e] eqn:Ed.
  - right. left. exists m, ntype. injection H as _ <-. auto.
  - right. right. exists m, ntype, e. injection H as _ <-. auto.
Qed.

(** X11.  [decode_npdu] returns an NPDU exactly when the first octet is
    0x01 and the structural decode succeeds, and it leaves its argument as
    [NPDU.decode] left it.  What it returns is the structural NPDU, or its
    specialised decode when the message type is in the registry and that
    decode succeeds; an unknown message type gives the structural NPDU, a
    failed specialised decode gives the structural NPDU as that decode left
    it, and traffic without a message type is never specialised. *)
Theorem decode_npdu_result (r : LinkRecord) :
  ((exists r' n, decode_npdu codec r = Ok (r', Some n))
   <-> index (pduData (link_pdu r)) 0 = Ok 0x01
       /\ exists g, NPDU_decode codec r = Ok g)
  /\ (forall r' n, decode_npdu codec r = Ok (r', Some n) ->
        r' = link_set_pduData r (NPDU_decode_rest codec r)
        /\ exists g,
             NPDU_decode codec r = Ok g
             /\ (n = g
                 \/ (exists m ntype, npduNetMessage g = Some m
                                     /\ npdu_types codec m = Some ntype
                                     /\ NType_decode codec ntype g = Ok n)
                 \/ exists m ntype e,
                      npduNetMessage g = Some m
                      /\ npdu_types codec m = Some ntype
                      /\ NType_decode codec ntype g = Raise e
                      /\ n = NPDU_set_pduData g (NType_decode_rest codec ntype g)))
  /\ (forall g, index (pduData (link_pdu r)) 0 = Ok 0x01 ->
        NPDU_decode codec r = Ok g ->
        let r' := link_set_pduData r (NPDU_decode_rest codec r) in
        (npduNetMessage g = None -> decode_npdu codec r = Ok (r', Some g))
        /\ (forall m, npduNetMessage g = Some m -> npdu_types codec m = None ->
                      decode_npdu codec r = Ok (r', Some g))
        /\ (forall m ntype n, npduNetMessage g = Some m ->
                              npdu_types codec m = Some ntype ->
                              NType_decode codec ntype g = Ok n ->
                              decode_npdu codec r = Ok (r', Some n))
        /\ (forall m ntype e, npduNetMessage g = Some m ->
                              npdu_types codec m = Some ntype ->
                              NType_decode codec ntype g = Raise e ->
                              decode_npdu codec r
                              = Ok (r', Some (NPDU_set_pduData g
                                                (NType_decode_rest codec ntype g))))).
Proof.
  split; [|split].
  - split.
    + intros (r' & n & Hn). apply decode_npdu_cases in Hn as (Hv & _ & g & Hg & _). eauto.
    + intros (Hv & g & Hg). unfold decode_npdu. rewrite Hv. simpl. rewrite Hg.
      destruct (npduNetMessage g) as [m|]; [|eauto].
      destruct (npdu_types codec m) as [ntype|]; [|eauto].
      destruct (NType_decode codec ntype g); eauto.
  - intros r' n Hn. apply decode_npdu_cases in Hn as (_ & H). exact H.
  - intros g Hv Hg r'. unfold decode_npdu. rewrite Hv. simpl. rewrite Hg.
    split; [|split; [|split]].
    + intros ->. reflexivity.
    + intros m -> ->. reflexivity.
    + intros m ntype n -> -> ->. reflexivity.
    + intros m ntype e -> -> ->. reflexivity.
Qed.

End LayerResults.

Section ApplicationResults.

Variable btox : bytes -> string -> string.
Variable codec : Codec.
Variable settings : Settings.
Variable Timestamp : Type.

(** [decode_apdu] in terms of [lift_addresses]. *)
Lemma decode_apdu_lifted (npdu0 : NPDU) :
  decode_apdu codec settings npdu0
  = match npduNetMessage npdu0 with
    | Some _ => Ok (npdu0, None)
    | None =>
        let npdu1 := NPDU_set_pduData npdu0 (APDU_decode_rest codec npdu0) in
        match APDU_decode codec npdu0 with
        | Raise err => Ok (npdu1, None)
        | Ok a =>
            let n' := fst (lift_addresses settings npdu1 a) in
            let lifted := snd (lift_addresses settings npdu1 a) in
            if is_sequence_class (apduClass a) then
              match APCISequence_decode codec lifted with
              | Ok a' => Ok (n', Some a')
              | Raise AttributeError =>
                  Ok (n', Some (APDU_set_pduData lifted
                                  (APCISequence_decode_rest codec lifted)))
              | Raise err => Raise err
              end
            else Ok (n', Some lifted)
        end
    end.
Proof.
  unfold decode_apdu, lift_addresses.
  destruct (npduNetMessage npdu0); [reflexivity|].
  destruct (APDU_decode codec npdu0) as [a|e]; [|reflexivity].
  generalize (APDU_decode_rest codec npdu0). intros rest.
  destruct npdu0 as [np nm [sadr|] [dadr|] nc];
    destruct (route_aware settings); reflexivity.
Qed.

Lemma lift_addresses_fields (npdu0 : NPDU) (a : APDU) :
  let n' := fst (lift_addresses settings npdu0 a) in
  let lifted := snd (lift_addresses settings npdu0 a) in
  apduClass lifted = apduClass a
  /\ apduService lifted = apduService a
  /\ pduData (apdu_pdu lifted) = pduData (apdu_pdu a)
  /\ pduSource (apdu_pdu lifted)
     = match npduSADR npdu0 with
       | Some sadr =>
           Some (EndpointAddress
                   (if route_aware settings
                    then set_addrRoute sadr (pduSource (npdu_pdu npdu0))
                    else sadr))
       | None => pduSource (npdu_pdu npdu0)
       end
  /\ pduDestination (apdu_pdu lifted)
     = match npduDADR npdu0 with
       | Some dadr => Some (EndpointAddress dadr)
       | None => pduDestination (npdu_pdu npdu0)
       end
  /\ npdu_pdu n' = npdu_pdu npdu0
  /\ npduNetMessage n' = npduNetMessage npdu0
  /\ npduDADR n' = npduDADR npdu0
  /\ npduSADR n'
     = match npduSADR npdu0 with
       | Some sadr =>
           Some (if route_aware settings
                 then set_addrRoute sadr (pduSource (npdu_pdu npdu0))
                 else sadr)
       | None => None
       end
  /\ (route_aware settings = false -> n' = npdu0)
  /\ (npduSADR npdu0 = None -> n' = npdu0).
Proof.
  unfold lift_addresses.
  destruct npdu0 as [np nm [sadr|] [dadr|] nc];
    destruct (route_aware settings) eqn:Er;
    simpl; repeat split; congruence.
Qed.

(** X12.  [decode_apdu] raises only what [APCISequence.decode] raises on a
    confirmed-request, unconfirmed-request or complex-ack APDU, and never
    AttributeError: a fault of [APDU.decode] gives [None] and leaves the
    NPDU as that call left it, an NPDU with a message type gives [None]
    untouched, and AttributeError from the sequence decode gives the APDU
    without the sequence, as that decode left it.  A fault that does get out
    ends both entry points with that fault. *)
Theorem decode_apdu_faults (npdu0 : NPDU) :
  (forall e, decode_apdu codec settings npdu0 = Raise e ->
             e <> AttributeError
             /\ npduNetMessage npdu0 = None
             /\ exists a x, APDU_decode codec npdu0 = Ok a
                            /\ is_sequence_class (apduClass a) = true
                            /\ apduClass x = apduClass a
                            /\ pduData (apdu_pdu x) = pduData (apdu_pdu a)
                            /\ APCISequence_decode codec x = Raise e)
  /\ (forall e, APDU_decode codec npdu0 = Raise e ->
                decode_apdu codec settings npdu0
                = Ok (match npduNetMessage npdu0 with
                      | Some _ => npdu0
                      | None => NPDU_set_pduData npdu0 (APDU_decode_rest codec npdu0)
                      end, None))
  /\ (npduNetMessage npdu0 <> None ->
      decode_apdu codec settings npdu0 = Ok (npdu0, None))
  /\ (forall a,
        npduNetMessage npdu0 = None ->
        APDU_decode codec npdu0 = Ok a ->
        is_sequence_class (apduClass a) = true ->
        let npdu1 := NPDU_set_pduData npdu0 (APDU_decode_rest codec npdu0) in
        let lifted := snd (lift_addresses settings npdu1 a) in
        APCISequence_decode codec lifted = Raise AttributeError ->
        decode_apdu codec settings npdu0
        = Ok (fst (lift_addresses settings npdu1 a),
              Some (APDU_set_pduData lifted (APCISequence_decode_rest codec lifted))))
  /\ (forall e p lb r',
        decode_apdu codec settings npdu0 = Raise e ->
        decode_lpdu codec settings p = Ok lb ->
        decode_npdu codec (fst (snd lb)) = Ok (r', Some npdu0) ->
        decode_packet_layers codec settings p = Raise e
        /\ decode_packet_full_layers codec settings Timestamp p = Raise e).
Proof.
  split; [|split; [|split; [|split]]].
  - intros e H. rewrite decode_apdu_lifted in H.
    destruct (npduNetMessage npdu0) as [m|] eqn:Em; [discriminate|].
    destruct (APDU_decode codec npdu0) as [a|e0] eqn:Ea; [|discriminate].
    cbv zeta in H.
    set (npdu1 := NPDU_set_pduData npdu0 (APDU_decode_rest codec npdu0)) in *.
    destruct (lift_addresses_fields npdu1 a) as (Hc & _ & Hd & _).
    destruct (is_sequence_class (apduClass a)) eqn:Ec; [|discriminate].
    destruct (APCISequence_decode codec (snd (lift_addresses settings npdu1 a)))
      as [a'|e1] eqn:Eq; [discriminate|].
    assert (e1 = e /\ e1 <> AttributeError) as [-> Hne]
      by (destruct e1; split; congruence).
    split; [exact Hne|]. split; [reflexivity|].
    exists a, (snd (lift_addresses settings npdu1 a)). auto.
  - intros e H. unfold decode_apdu. rewrite H.
    destruct (npduNetMessage npdu0); reflexivity.
  - intros H. unfold decode_apdu. destruct (npduNetMessage npdu0); [reflexivity | congruence].
  - intros a Hm Ha Hc npdu1 lifted Hq.
    rewrite decode_apdu_lifted, Hm, Ha. cbv zeta. rewrite Hc.
    fold npdu1. fold lifted. rewrite Hq. reflexivity.
  - intros e p lb r' H Hl Hn.
    unfold decode_packet_layers, decode_packet_full_layers.
    rewrite Hl. simpl. rewrite Hn. simpl. rewrite H. split; reflexivity.
Qed.

(** X13.  The APDU [decode_apdu] returns for a class without a service
    sequence has the payload, class and service of [APDU.decode] and lifted
    addresses: its source is the NPDU's SADR when there is one, else the
    NPDU's own source; its destination is the DADR when there is one, else
    the NPDU's own destination.  With route-aware mode on, the lifted source
    carries the NPDU's own source as its route, and so does the SADR of the
    NPDU, which is the same object; with the mode off the SADR is used as it
    is.  The destination never gets a route.  Apart from that route, the
    NPDU is left as [APDU.decode] left it. *)
Theorem decode_apdu_lifts_addresses (npdu0 : NPDU) (a : APDU) :
  npduNetMessage npdu0 = None ->
  APDU_decode codec npdu0 = Ok a ->
  is_sequence_class (apduClass a) = false ->
  let npdu1 := NPDU_set_pduData npdu0 (APDU_decode_rest codec npdu0) in
  exists n' a',
    decode_apdu codec settings npdu0 = Ok (n', Some a')
    /\ pduData (apdu_pdu a') = pduData (apdu_pdu a)
    /\ apduClass a' = apduClass a
    /\ apduService a' = apduService a
    /\ npdu_pdu n' = npdu_pdu npdu1
    /\ npduDADR n' = npduDADR npdu0
    /\ (forall sadr, npduSADR npdu0 = Some sadr ->
          (route_aware settings = true ->
           pduSource (apdu_pdu a')
           = Some (EndpointAddress
                     (mkAddress (addrValue sadr) (pduSource (npdu_pdu npdu0))))
           /\ npduSADR n'
              = Some (mkAddress (addrValue sadr) (pduSource (npdu_pdu npdu0))))
          /\ (route_aware settings = false ->
              pduSource (apdu_pdu a') = Some (EndpointAddress sadr)
              /\ n' = npdu1))
    /\ (npduSADR npdu0 = None ->
        pduSource (apdu_pdu a') = pduSource (npdu_pdu npdu0) /\ n' = npdu1)
    /\ (forall dadr, npduDADR npdu0 = Some dadr ->
          pduDestination (apdu_pdu a') = Some (EndpointAddress dadr))
    /\ (npduDADR npdu0 = None ->
        pduDestination (apdu_pdu a') = pduDestination (npdu_pdu npdu0)).
Proof.
  intros Hm Ha Hc npdu1. rewrite decode_apdu_lifted, Hm, Ha. cbv zeta. rewrite Hc.
  fold npdu1.
  destruct (lift_addresses_fields npdu1 a)
    as (Hcl & Hsv & Hd & Hs & Hdst & Hpdu & _ & Hdadr & Hsadr & Hoff & Hnone).
  change (npduSADR npdu1) with (npduSADR npdu0) in *.
  change (npduDADR npdu1) with (npduDADR npdu0) in *.
  change (pduSource (npdu_pdu npdu1)) with (pduSource (npdu_pdu npdu0)) in *.
  change (pduDestination (npdu_pdu npdu1)) with (pduDestination (npdu_pdu npdu0)) in *.
  eexists _, _. split; [reflexivity|].
  split; [exact Hd|]. split; [exact Hcl|]. split; [exact Hsv|].
  split; [exact Hpdu|]. split; [exact Hdadr|].
  split; [|split; [|split]].
  - intros sadr Hsome. rewrite Hsome in Hs, Hsadr. split.
    + intros Hon. rewrite Hon in Hs, Hsadr. auto.
    + intros Hof. rewrite Hof in Hs. auto.
  - intros Hn. rewrite Hn in Hs. auto.
  - intros dadr Hsome. rewrite Hsome in Hdst. exact Hdst.
  - intros Hn. rewrite Hn in Hdst. exact Hdst.
Qed.

End ApplicationResults.

(** ** Composition of the record loop *)

Lemma record_loop_app {Timestamp A B : Type} (decode : bytes -> Exc (option A))
    (attach : A -> Z -> Timestamp -> B) (i : Z) (p q : list (RawRecord Timestamp)) :
  record_loop decode attach i (p ++ q)
  = record_loop decode attach i p
    ++ record_loop decode attach (i + Z.of_nat (length p)) q.
Proof.
  revert i. induction p as [|r p IH]; intros i.
  - simpl. f_equal. lia.
  - cbn [app record_loop length].
    replace (i + Z.of_nat (S (length p))) with (i + 1 + Z.of_nat (length p)) by lia.
    destruct (decode (raw_data r)) as [[a|]|e]; rewrite IH; reflexivity.
Qed.

Lemma record_loop_shift {Timestamp A B : Type} (decode : bytes -> Exc (option A))
    (attach : A -> Z -> Timestamp -> B) (move : B -> Z -> B)
    (i k : Z) (q : list (RawRecord Timestamp)) :
  (forall a n t k, move (attach a n t) k = attach a (n + k) t) ->
  record_loop decode attach (i + k) q
  = map (fun y => move y k) (record_loop decode attach i q).
Proof.
  intros Hmove. revert i. induction q as [|r q IH]; intros i; [reflexivity|].
  cbn [record_loop].
  replace (i + k + 1) with (i + 1 + k) by lia.
  destruct (decode (raw_data r)) as [[a|]|e]; rewrite IH; [|reflexivity|reflexivity].
  cbn [map]. rewrite Hmove. reflexivity.
Qed.

(** ** Invariants of [DecodedPacket] and of the two generators *)

Section PacketInvariants.

Variable btox : bytes -> string -> string.
Variable codec : Codec.
Variable settings : Settings.
Variable Timestamp : Type.

Lemma decode_lpdu_marker (p p' : PDU) (l : LPDU) (v : option LPDU) :
  decode_lpdu codec settings p = Ok (p', (DecodedLPDU l, v)) ->
  index (pduData p) 0 = Ok 0x81
  /\ p' = set_pduData p (LPDU_decode_rest codec p).
Proof.
  intros H.
  destruct (decode_lpdu_argument _ _ _ _ _ H) as [->|[Hm ->]]; [|auto].
  unfold decode_lpdu in H. bind_inv H.
  destruct (a =? 129) eqn:Em; simpl in H; [|discriminate].
  apply Z.eqb_eq in Em. subst a. split; [exact E|].
  destruct (LPDU_decode codec p) as [l0|e]; [|discriminate].
  destruct (bvll_pdu_types codec (bvlciFunction l0)) as [atype|]; [|congruence].
  destruct (AType_call codec atype) as [bp|e]; [|congruence].
  destruct (AType_decode codec atype l0) as [l'|e]; [|congruence].
  destruct (AType_eqb atype ForwardedNPDU).
  - destruct (route_aware settings), (bvlciAddress bp); congruence.
  - destruct (negb _); congruence.
Qed.

Lemma decode_apdu_Some (n n' : NPDU) (a : APDU) :
  decode_apdu codec settings n = Ok (n', Some a) ->
  npduNetMessage n = None /\ npduNetMessage n' = None.
Proof.
  rewrite decode_apdu_lifted. intros H.
  destruct (npduNetMessage n) as [m|] eqn:Em; [discriminate|].
  destruct (APDU_decode codec n) as [a0|e]; [|discriminate].
  cbv zeta in H.
  set (n1 := NPDU_set_pduData n (APDU_decode_rest codec n)) in *.
  destruct (lift_addresses_fields settings n1 a0) as (_ & _ & _ & _ & _ & _ & Hm & _).
  split; [reflexivity|].
  assert (Hn : n' = fst (lift_addresses settings n1 a0)).
  { destruct (is_sequence_class (apduClass a0)).
    - destruct (APCISequence_decode codec (snd (lift_addresses settings n1 a0)))
        as [a'|[]]; congruence.
    - congruence. }
  rewrite Hn, Hm. exact Em.
Qed.

Lemma build_PDU_fields (l : Locals) (p : PDU) :
  build_PDU l = Ok p ->
  pduData p = loc_data l
  /\ is_Some (pduSource p) /\ is_Some (pduDestination p).
Proof.
  unfold build_PDU. intros H. bind_inv H. injection H as <-. simpl. eauto.
Qed.

(** X14.  Every [DecodedPacket] that [decode_packet_full] returns keeps
    these, where [p] is the transport PDU as the entry point built it, with
    a payload that is not empty: [pdu] has the two addresses of [p], both
    set; [lpdu] is set only when the payload of [p] starts with 0x81, and
    [pdu] is then [p] as [LPDU.decode] left it; without [lpdu], an [npdu] is
    set only when the payload of [p], as [decode_lpdu] left it, starts with
    0x01; [apdu] is set only together with an [npdu] that has no network
    message type; [number] and [timestamp] are not set.  An [apdu] without
    an [lpdu] is possible, an [apdu] without an [npdu] is not. *)
Theorem decoded_packet_layers (data : bytes) (r : DecodedPacket Timestamp) :
  decode_packet_full btox codec settings Timestamp data = Ok (Some r) ->
  is_Some (pduSource (pdu r)) /\ is_Some (pduDestination (pdu r))
  /\ (exists l p,
        decode_packet_full_frame btox data = Ok l
        /\ build_PDU l = Ok p
        /\ pduData p <> []
        /\ pduSource (pdu r) = pduSource p
        /\ pduDestination (pdu r) = pduDestination p
        /\ (forall x, lpdu r = Some x ->
              index (pduData p) 0 = Ok 0x81
              /\ pdu r = set_pduData p (LPDU_decode_rest codec p))
        /\ (forall n, lpdu r = None -> npdu r = Some n ->
              exists p' rv, decode_lpdu codec settings p = Ok (p', rv)
                            /\ index (pduData p') 0 = Ok 0x01
                            /\ pdu r = set_pduData p'
                                         (NPDU_decode_rest codec (SamePDU p'))))
  /\ (forall a, apdu r = Some a ->
        exists n, npdu r = Some n /\ npduNetMessage n = None)
  /\ (npdu r = None -> apdu r = None)
  /\ number r = None /\ timestamp r = None.
Proof.
  unfold decode_packet_full. intros H.
  destruct (is_empty data); [discriminate|]. bind_inv H.
  destruct (is_empty (loc_data a)) eqn:Ee; [discriminate|]. bind_inv H.
  rename a0 into p.
  destruct (build_PDU_fields _ _ E0) as (Hd & Hs & Hdst).
  destruct (decode_packet_full_layers_fields _ _ _ _ _ H) as (Hsrc & Hdest & Hnum & Hts).
  assert (Hpay : pduData p <> []) by (rewrite Hd; apply is_empty_false; exact Ee).
  split; [rewrite Hsrc; exact Hs|]. split; [rewrite Hdest; exact Hdst|].
  unfold decode_packet_full_layers in H. bind_inv H.
  destruct a0 as [p' [lr v]]. destruct a1 as [lr' on]. simpl in *.
  assert (Hfields :
            (forall x, match lr' with DecodedLPDU l => Some l | SamePDU _ => None end
                       = Some x ->
                       index (pduData p) 0 = Ok 0x81
                       /\ match lr' with SamePDU x => x | DecodedLPDU _ => p' end
                          = set_pduData p (LPDU_decode_rest codec p))
            /\ (match lr' with DecodedLPDU l => Some l | SamePDU _ => None end = None ->
                on <> None ->
                exists p1 rv,
                            decode_lpdu codec settings p = Ok (p1, rv)
                            /\ index (pduData p1) 0 = Ok 0x01
                            /\ match lr' with SamePDU x => x | DecodedLPDU _ => p' end
                               = set_pduData p1 (NPDU_decode_rest codec (SamePDU p1)))).
  { split.
    - intros x Hx. destruct lr' as [p1|l1]; [discriminate|].
      destruct lr as [p0|l0].
      + destruct (decode_npdu_argument _ _ _ _ E2) as [Heq|[_ Heq]]; discriminate.
      + exact (decode_lpdu_marker _ _ _ _ E1).
    - intros Hx Hon. destruct on as [n|]; [|contradiction].
      destruct lr' as [p1|l1]; [|discriminate].
      destruct lr as [p0|l0].
      + pose proof E1 as E1'. apply decode_lpdu_SamePDU in E1' as [-> _].
        apply decode_npdu_cases in E2 as (Hv & Hr & _). simpl in Hv, Hr.
        injection Hr as ->. exists p', (SamePDU p', v). auto.
      + destruct (decode_npdu_argument _ _ _ _ E2) as [Heq|[_ Heq]]; discriminate. }
  destruct Hfields as (Hlp & Hnp).
  destruct on as [n|].
  - bind_inv H. destruct a0 as [n' oa]. injection H as <-. simpl in *.
    split.
    + exists a, p. split; [exact E|]. split; [exact E0|]. split; [exact Hpay|].
      split; [exact Hsrc|]. split; [exact Hdest|]. split; [exact Hlp|].
      intros n0 Hl _. apply Hnp; [exact Hl | discriminate].
    + split; [|split; [discriminate | auto]].
      intros a0 ->. exists n'. split; [reflexivity|].
      apply decode_apdu_Some in E3. tauto.
  - injection H as <-. simpl in *.
    split.
    + exists a, p. split; [exact E|]. split; [exact E0|]. split; [exact Hpay|].
      split; [exact Hsrc|]. split; [exact Hdest|]. split; [exact Hlp|].
      intros n0 _ Hn. discriminate.
    + split; [discriminate | auto].
Qed.

(** Where the two entry points agree: everywhere but on a frame that is
    not IPv4 and has a payload. *)
Lemma lockstep_unless_non_ip_payload (data : bytes) :
  (forall d td, decode_ethernet btox data = Ok d -> vlan_step d = Ok td ->
                fst td <> 0x0800 -> snd td = []) ->
  deepest_result (decode_packet_full btox codec settings Timestamp data)
  = decode_packet btox codec settings data.
Proof.
  intros Hcond.
  destruct (decode_ethernet btox data) as [d|e] eqn:Hd.
  2:{ unfold decode_packet_full, decode_packet, decode_packet_full_frame,
        decode_packet_frame. rewrite Hd.
      destruct (is_empty data); reflexivity. }
  destruct (vlan_step d) as [td|e] eqn:Htd.
  2:{ unfold decode_packet_full, decode_packet, decode_packet_full_frame,
        decode_packet_frame. rewrite Hd. simpl. rewrite Htd.
      destruct (is_empty data); reflexivity. }
  destruct (Z.eq_dec (fst td) 0x0800) as [Hip|Hip].
  - eapply lockstep_on_ip; eassumption.
  - rewrite (decode_packet_after_vlan _ _ _ _ _ _ Hd Htd),
            (decode_packet_full_after_vlan _ _ _ _ _ _ _ Hd Htd).
    rewrite !ip_step_other by exact Hip. simpl.
    rewrite (Hcond d td eq_refl Htd Hip). reflexivity.
Qed.

(** X15.  On a capture without a non-IPv4 frame that has a payload, the
    two generators yield the same sequence: item by item, the deepest
    populated field of what [decode_file_full] yields is the packet
    [decode_file] yields, under the same number and timestamp. *)
Theorem generators_agree (p : list (RawRecord Timestamp)) :
  Forall (fun r => forall d td,
            decode_ethernet btox (raw_data r) = Ok d -> vlan_step d = Ok td ->
            fst td <> 0x0800 -> snd td = []) p ->
  map (fun y => (deepest y, number y, timestamp y))
      (decode_file_full btox codec settings Timestamp p)
  = map (fun y => (pkt y, Some (_number y), Some (_timestamp y)))
        (decode_file btox codec settings Timestamp p).
Proof.
  unfold decode_file_full, decode_file. generalize 0.
  induction p as [|r p IH]; intros i Hall; simpl; [reflexivity|].
  apply Forall_cons in Hall as [Hr Hp].
  pose proof (lockstep_unless_non_ip_payload (raw_data r) Hr) as Hlock.
  destruct (decode_packet_full btox codec settings Timestamp (raw_data r))
    as [[d|]|e]; simpl in Hlock; rewrite <- Hlock; simpl;
    rewrite (IH (i + 1) Hp); reflexivity.
Qed.

(** X16.  The generators work record by record: what [decode_file] and
    [decode_file_full] yield for a capture followed by another is what they
    yield for the first, followed by what they yield for the second with
    the numbers moved up by the length of the first. *)
Theorem decode_file_app (p q : list (RawRecord Timestamp)) :
  decode_file btox codec settings Timestamp (p ++ q)
  = decode_file btox codec settings Timestamp p
    ++ map (fun y => mkNumberedPacket Timestamp (pkt y)
                       (_number y + Z.of_nat (length p)) (_timestamp y))
           (decode_file btox codec settings Timestamp q)
  /\ decode_file_full btox codec settings Timestamp (p ++ q)
     = decode_file_full btox codec settings Timestamp p
       ++ map (fun y => mkDecodedPacket Timestamp (pdu y) (lpdu y) (npdu y) (apdu y)
                          (option_map (fun n => n + Z.of_nat (length p)) (number y))
                          (timestamp y))
              (decode_file_full btox codec settings Timestamp q).
Proof.
  unfold decode_file, decode_file_full.
  rewrite !decode_file_loop_shape, !decode_file_full_loop_shape.
  split.
  - rewrite record_loop_app. f_equal.
    apply (record_loop_shift _ _ (fun y k => mkNumberedPacket Timestamp (pkt y)
                                             (_number y + k) (_timestamp y))).
    intros a n t k. reflexivity.
  - rewrite record_loop_app. f_equal.
    apply (record_loop_shift _ _
             (fun y k => mkDecodedPacket Timestamp (pdu y) (lpdu y) (npdu y) (apdu y)
                           (option_map (fun n => n + k) (number y)) (timestamp y))).
    intros a n t k. reflexivity.
Qed.

End PacketInvariants.

(** ** Invariants of the tracer loop *)

Section TracerInvariants.

Context {Handler Attrs Timestamp : Type}.
Variable call : Handler -> Tracer Handler Attrs -> Pkt Timestamp
                -> Exc (Tracer Handler Attrs).
Variable tracers : list (Factory Handler Attrs).

Lemma trace_packet_keeps_live (cur cur' : list (Tracer Handler Attrs))
    (pkt : Pkt Timestamp) :
  (forall f, f ∈ tracers -> current_state (f ()) <> None) ->
  length cur = length tracers ->
  trace_packet call tracers cur pkt = Ok cur' ->
  all_live tracers cur'.
Proof.
  intros Hf Hlen H. unfold trace_packet in H.
  destruct (trace_tracers_slots call tracers _ _ _ _ (NoDup_seq 0 (length cur)) H)
    as (Hlen' & _ & Hin).
  split; [congruence|].
  apply Forall_lookup. intros j t' Hj.
  assert (Hlt : (j < length cur)%nat)
    by (rewrite <- Hlen'; eapply lookup_lt_Some; exact Hj).
  destruct (lookup_lt_is_Some_2 cur j Hlt) as [t Ht].
  destruct (Hin j t) as (t1 & _ & [(_ & f & Hfj & Hnew)|(Hlive & Hkeep)]).
  - apply elem_of_seq. lia.
  - exact Ht.
  - rewrite Hnew in Hj. injection Hj as <-. apply Hf.
    eapply list_elem_of_lookup_2. exact Hfj.
  - rewrite Hkeep in Hj. injection Hj as <-. exact Hlive.
Qed.

Lemma trace_tracers_total (pkt : Pkt Timestamp) (idx : list nat)
    (cur : list (Tracer Handler Attrs)) :
  (forall fn t p, exists t', call fn t p = Ok t') ->
  length cur = length tracers ->
  NoDup idx ->
  (forall j t, j ∈ idx -> cur !! j = Some t -> current_state t <> None) ->
  exists cur', trace_tracers call tracers pkt idx cur = Ok cur'.
Proof.
  intros Hcall. revert cur.
  induction idx as [|i idx IH]; intros cur Hlen Hnd Hlive; simpl; [eauto|].
  apply NoDup_cons in Hnd as [Hi Hnd].
  assert (Hstep : exists mid, trace_tracer call tracers pkt i cur = Ok mid).
  { unfold trace_tracer.
    destruct (cur !! i) as [t|] eqn:Et; [|eauto].
    unfold call_current_state.
    destruct (current_state t) as [fn|] eqn:Es.
    2:{ exfalso. eapply Hlive; [left | exact Et | exact Es]. }
    destruct (Hcall fn t pkt) as [t' Ht']. rewrite Ht'. simpl.
    destruct (current_state t'); [eauto|].
    destruct (tracers !! i) as [f|] eqn:Hf; [eauto|].
    exfalso. apply lookup_ge_None in Hf. apply lookup_lt_Some in Et.
    unfold Factory in *. lia. }
  destruct Hstep as [mid Hmid]. rewrite Hmid. simpl.
  destruct (trace_tracer_slot call tracers _ _ _ _ Hmid) as (Hlen1 & Hne1 & _).
  apply IH; [congruence | exact Hnd |].
  intros j t Hj Ht. apply (Hlive j t); [right; exact Hj|].
  rewrite <- Hne1; [exact Ht|]. intros ->. contradiction.
Qed.

Lemma trace_packets_live (cur final : list (Tracer Handler Attrs))
    (pkts : list (Pkt Timestamp)) :
  (forall f, f ∈ tracers -> current_state (f ()) <> None) ->
  all_live tracers cur ->
  trace_packets call tracers cur pkts = Ok final ->
  all_live tracers final.
Proof.
  intros Hf. revert cur. induction pkts as [|pkt pkts IH]; intros cur Hcur H; simpl in H.
  - injection H as <-. exact Hcur.
  - apply bind_Ok in H as (cur' & Hstep & H).
    apply (IH cur'); [|exact H].
    eapply trace_packet_keeps_live; [exact Hf | apply Hcur | exact Hstep].
Qed.

Lemma trace_packets_total (cur : list (Tracer Handler Attrs))
    (pkts : list (Pkt Timestamp)) :
  (forall f, f ∈ tracers -> current_state (f ()) <> None) ->
  (forall fn t p, exists t', call fn t p = Ok t') ->
  all_live tracers cur ->
  exists final, trace_packets call tracers cur pkts = Ok final.
Proof.
  intros Hf Hcall. revert cur.
  induction pkts as [|pkt pkts IH]; intros cur Hcur; simpl; [eauto|].
  destruct (trace_tracers_total pkt (seq 0 (length cur)) cur Hcall (proj1 Hcur)
              (NoDup_seq 0 (length cur))) as [cur' Hstep].
  { intros j t _ Ht. destruct Hcur as [_ Hall].
    eapply Forall_lookup in Hall; [exact Hall | exact Ht]. }
  unfold trace_packet at 1. rewrite Hstep. simpl.
  apply IH. eapply trace_packet_keeps_live; [exact Hf | apply Hcur | exact Hstep].
Qed.

Lemma initial_tracers_live :
  (forall f, f ∈ tracers -> current_state (f ()) <> None) ->
  all_live tracers (map (fun f : Factory Handler Attrs => f ()) tracers).
Proof.
  intros Hf. split; [apply length_map|].
  apply Forall_map. apply Forall_forall. intros f Hin. apply Hf. exact Hin.
Qed.

Variable btox : bytes -> string -> string.
Variable codec : Codec.
Variable settings : Settings.

(** X17.  When every class makes instances that are not in the terminal
    state, [trace] never leaves a terminal tracer in its list: whenever it
    returns, it holds one tracer per class and none is terminal, so the
    call of [current_state] never meets [None].  If moreover no handler
    raises, [trace] returns for every capture. *)
Theorem trace_keeps_tracers_live (p : list (RawRecord Timestamp)) :
  (forall f, f ∈ tracers -> current_state (f ()) <> None) ->
  (forall final,
     trace btox codec settings call p tracers = Ok final ->
     length final = length tracers
     /\ Forall (fun t => current_state t <> None) final)
  /\ ((forall fn t pkt, exists t', call fn t pkt = Ok t') ->
      exists final, trace btox codec settings call p tracers = Ok final).
Proof.
  intros Hf. unfold trace. split.
  - intros final H.
    exact (trace_packets_live _ _ _ Hf (initial_tracers_live Hf) H).
  - intros Hcall.
    exact (trace_packets_total _ _ Hf Hcall (initial_tracers_live Hf)).
Qed.

End TracerInvariants.

(** ** Concrete runs of the further properties *)

Module MoreRuns.

Import Sample SampleRuns.

Ltac run := vm_compute; reflexivity.
Ltac run_le := vm_compute; lia.

(** X1 at the ARP frame and at the frame cut inside the header. *)
Lemma decode_ethernet_bounds_witness :
  decode_ethernet Sample.btox short_frame = Raise StructError
  /\ exists hi lo,
       arp_frame !! 12%nat = Some hi /\ arp_frame !! 13%nat = Some lo
       /\ decode_ethernet Sample.btox arp_frame
          = Ok {| eth_destination_address := Sample.btox (take 6 arp_frame) ":";
                  eth_source_address := Sample.btox (take 6 (drop 6 arp_frame)) ":";
                  eth_type := 256 * byte_val hi + byte_val lo;
                  eth_data := drop 14 arp_frame |}.
Proof.
  split.
  - apply (decode_ethernet_bounds Sample.btox short_frame). run_le.
  - apply (decode_ethernet_bounds Sample.btox arp_frame). run_le.
Defined.

(** X2 at a tag of priority 1 and VLAN 5. *)
Lemma decode_vlan_fields_witness :
  exists v, decode_vlan vlan_tag = Ok v
            /\ vlan_priority v = 1 /\ vlan_vlan v = 5
            /\ 8192 * vlan_priority v + 4096 * vlan_cfi v + vlan_vlan v = 0x2005.
Proof.
  destruct (decode_vlan_fields vlan_tag) as (_ & Hok & Hfields).
  destruct (Hok ltac:(run_le)) as [v Hv]. exists v. split; [exact Hv|].
  destruct (Hfields v Hv)
    as (b0 & b1 & b2 & b3 & H0 & H1 & _ & _ & _ & _ & _ & Hsum & _).
  vm_compute in H0, H1. injection H0 as <-. injection H1 as <-.
  vm_compute in Hv. injection Hv as <-.
  split; [reflexivity|]. split; [reflexivity|]. exact Hsum.
Defined.

(** X3 at the six-word header. *)
Lemma decode_ip_bounds_witness :
  exists d b0, decode_ip ip_with_options = Ok d
               /\ ip_with_options !! 0%nat = Some b0
               /\ 16 * ip_version d + ip_header_len d = byte_val b0.
Proof.
  destruct (decode_ip_bounds ip_with_options) as (Hok & _ & _ & Hfields).
  destruct (Hok ltac:(run_le)) as [d Hd].
  destruct (Hfields d Hd) as (b0 & H0 & _ & _ & Hsum).
  exists d, b0. auto.
Defined.

(** X4 at the six-word header: octet 6 is 0x40, octet 7 is 0x00. *)
Lemma decode_ip_flags_fragment_witness :
  exists d, decode_ip ip_with_options = Ok d
            /\ ip_flags d = 2 /\ ip_fragment_offset d = 0.
Proof.
  eexists. split; [run|].
  destruct (decode_ip_flags_fragment ip_with_options _ ltac:(run))
    as (b6 & b7 & H6 & H7 & Hf & Ho & _).
  vm_compute in H6, H7. injection H6 as <-. injection H7 as <-.
  split; [exact Hf | exact Ho].
Defined.

(** X5 at the six-word header. *)
Lemma decode_ip_data_offset_witness :
  exists d, decode_ip ip_with_options = Ok d
            /\ take (Z.to_nat (4 * ip_header_len d)) ip_with_options ++ ip_data d
               = ip_with_options
            /\ length (ip_data d)
               = (length ip_with_options - Z.to_nat (4 * ip_header_len d))%nat.
Proof.
  eexists. split; [run|].
  destruct (decode_ip_data_offset ip_with_options _ ltac:(run)) as (Hsplit & Hlen & _).
  split; [exact Hsplit | exact Hlen].
Defined.

(** X6 at a header that declares 12 octets and is followed by 6: the data
    is the first four of them. *)
Lemma decode_udp_length_trim_witness :
  exists u, decode_udp udp_declares_12 = Ok u
            /\ udp_data u = take (Z.to_nat (udp_length u) - 8) (drop 8 udp_declares_12)
            /\ length (udp_data u) = 4%nat.
Proof.
  destruct (decode_udp_length_trim udp_declares_12) as (_ & Hok & Hfields).
  destruct (Hok ltac:(run_le)) as [u Hu]. exists u. split; [exact Hu|].
  destruct (Hfields u Hu) as (_ & Hdata & Hlen & _).
  split; [exact Hdata|]. rewrite Hlen.
  vm_compute in Hu. injection Hu as <-. reflexivity.
Defined.

(** X7 at an ICMP frame. *)
Lemma ip_frame_transport_witness :
  exists h,
    decode_ip (drop 14 icmp_frame) = Ok h
    /\ is_udp (ip_protocol h) = false
    /\ decode_packet_full Sample.btox codec route_on Z icmp_frame
       = decode_packet_full_layers codec route_on Z
           (mkPDU (ip_data h) (Some (EndpointStr (ip_source_address h)))
                  (Some (EndpointStr (ip_destination_address h)))).
Proof.
  eexists. split; [run|]. split; [run|].
  edestruct (ip_frame_transport Sample.btox codec route_on Z icmp_frame)
    as (_ & Hother & _); [run | run | run | run |].
  destruct (Hother ltac:(run) ltac:(vm_compute; discriminate)) as (_ & Hfull).
  exact Hfull.
Defined.

(** X8 at the frame cut inside the header. *)
Lemma short_input_witness :
  decode_packet Sample.btox codec route_on short_frame = Raise StructError
  /\ decode_packet_full Sample.btox codec route_on Z short_frame = Raise StructError.
Proof.
  apply (short_input Sample.btox codec route_on Z short_frame). run_le.
Defined.

(** X9 at the Who-Is frame with a tag of priority 1 and VLAN 5. *)
Lemma single_vlan_tag_transparent_witness :
  decode_packet Sample.btox codec route_on
    (mac_addresses ++ octets [0x81; 0x00; 0x20; 0x05; 0x08; 0x00] ++ who_is_after_mac)
  = decode_packet Sample.btox codec route_on
      (mac_addresses ++ octets [0x08; 0x00] ++ who_is_after_mac).
Proof.
  apply (single_vlan_tag_transparent Sample.btox codec route_on Z
           mac_addresses who_is_after_mac
           (byte_of_Z 0x20) (byte_of_Z 0x05) (byte_of_Z 0x08) (byte_of_Z 0x00)).
  - run.
  - vm_compute. discriminate.
Defined.

(** X10 at the transport PDU of the forwarded Who-Is, which is left
    without its four header octets; at a PDU that stops inside the BVLL
    header, which is handed back empty; and at a PDU with a wrong length
    field, which is handed back without its four header octets. *)
Lemma decode_lpdu_variant_witness :
  (exists l' b,
     decode_lpdu codec route_on forwarded_pdu
     = Ok (set_pduData forwarded_pdu (drop 4 (pduData forwarded_pdu)),
           (DecodedLPDU l', Some b)))
  /\ decode_lpdu codec route_on short_bvll_pdu
     = Ok (set_pduData short_bvll_pdu [],
           (SamePDU (set_pduData short_bvll_pdu []), None))
  /\ decode_lpdu codec route_on wrong_length_pdu
     = Ok (set_pduData wrong_length_pdu (octets [0x01; 0x00; 0x10; 0x08]),
           (SamePDU (set_pduData wrong_length_pdu (octets [0x01; 0x00; 0x10; 0x08])),
            None)).
Proof.
  destruct (decode_lpdu_variant codec route_on forwarded_pdu) as (_ & _ & Hconv).
  destruct (decode_lpdu_variant codec route_on short_bvll_pdu) as (_ & Hshort & _).
  destruct (decode_lpdu_variant codec route_on wrong_length_pdu) as (_ & Hwrong & _).
  split; [|split].
  - eapply Hconv; run.
  - apply (Hshort DecodingError); run.
  - apply (Hwrong DecodingError); run.
Defined.

(** X11 at the link record of the Who-Is frame. *)
Lemma decode_npdu_result_witness :
  decode_npdu codec who_is_record = Ok (who_is_record_read, Some who_is_npdu).
Proof.
  destruct (decode_npdu_result codec who_is_record) as (_ & _ & Hgeneric).
  destruct (Hgeneric who_is_npdu ltac:(run) ltac:(run)) as (Happ & _).
  apply Happ. run.
Defined.

(** X12 at the Who-Is NPDU with a sequence decoder that rejects it. *)
Lemma decode_apdu_faults_witness :
  decode_apdu codec_rejecting_sequences route_on who_is_npdu = Raise DecodingError
  /\ DecodingError <> AttributeError
  /\ decode_packet_layers codec_rejecting_sequences route_on
       (mkPDU (octets who_is) transport_source transport_destination)
     = Raise DecodingError.
Proof.
  destruct (decode_apdu_faults codec_rejecting_sequences route_on Z who_is_npdu)
    as (Hraise & _ & _ & _ & Hout).
  split; [run|].
  destruct (Hraise DecodingError ltac:(run)) as (Hne & _).
  split; [exact Hne|].
  eapply Hout; [run | run | run].
Defined.

(** X13 at the routed simple ack, route-aware mode on. *)
Lemma decode_apdu_lifts_addresses_witness :
  exists n' a',
    decode_apdu codec route_on routed_npdu = Ok (n', Some a')
    /\ pduSource (apdu_pdu a')
       = Some (EndpointAddress
                 (mkAddress (AddressOfOctets (Some 5) (octets [0x0c])) transport_source))
    /\ pduDestination (apdu_pdu a') = transport_destination
    /\ pduData (npdu_pdu n') = octets [0x01; 0x0c].
Proof.
  edestruct (decode_apdu_lifts_addresses codec route_on routed_npdu)
    as (n' & a' & Hres & _ & _ & _ & Hpdu & _ & Hsadr & _ & _ & Hdadr);
    [run | run | run |].
  exists n', a'. split; [exact Hres|]. split; [|split].
  - destruct (Hsadr _ eq_refl) as (Hon & _). destruct (Hon eq_refl) as (Hs & _).
    exact Hs.
  - apply Hdadr. reflexivity.
  - rewrite Hpdu. run.
Defined.

(** X14 at the Who-Is frame, and at a datagram that carries an NPCI and
    nothing else: the transport PDU of the result is empty, [NPDU.decode]
    having read both octets. *)
Lemma decoded_packet_layers_witness :
  (exists r,
     decode_packet_full Sample.btox codec route_on Z (bacnet_ip who_is) = Ok (Some r)
     /\ is_Some (pduSource (pdu r))
     /\ (forall a, apdu r = Some a ->
           exists n, npdu r = Some n /\ npduNetMessage n = None)
     /\ number r = None)
  /\ (exists r n,
        decode_packet_full Sample.btox codec route_on Z npci_only = Ok (Some r)
        /\ lpdu r = None /\ npdu r = Some n /\ apdu r = None
        /\ pduData (pdu r) = []
        /\ exists p' rv,
             decode_lpdu codec route_on
               (mkPDU (octets [0x01; 0x00]) transport_source transport_destination)
             = Ok (p', rv)
             /\ pdu r = set_pduData p' (NPDU_decode_rest codec (SamePDU p'))).
Proof.
  split.
  - eexists. split; [run|].
    destruct (decoded_packet_layers Sample.btox codec route_on Z (bacnet_ip who_is) _
                ltac:(run)) as (Hsrc & _ & _ & Hapdu & _ & Hnum & _).
    split; [exact Hsrc|]. split; [exact Hapdu | exact Hnum].
  - eexists _, _. split; [run|]. split; [run|]. split; [run|]. split; [run|].
    split; [run|].
    destruct (decoded_packet_layers Sample.btox codec route_on Z npci_only _
                ltac:(run)) as (_ & _ & (l & p & Hl & Hp & _ & _ & _ & _ & Hnp) & _).
    vm_compute in Hl. injection Hl as <-. vm_compute in Hp. injection Hp as <-.
    destruct (Hnp _ ltac:(run) ltac:(run)) as (p' & rv & Hd & _ & Hpdu).
    exists p', rv. split; [exact Hd | exact Hpdu].
Defined.

(** X15 at the capture of three records. *)
Lemma generators_agree_witness :
  map (fun y => (deepest y, number y, timestamp y))
      (decode_file_full Sample.btox codec route_on Z [record1; record2; record3])
  = map (fun y => (pkt y, Some (_number y), Some (_timestamp y)))
        (decode_file Sample.btox codec route_on Z [record1; record2; record3]).
Proof.
  apply (generators_agree Sample.btox codec route_on Z).
  repeat apply Forall_cons_2; [| | |apply Forall_nil_2];
    intros d td Hd Htd Hne; vm_compute in Hd;
    try discriminate;
    injection Hd as <-; vm_compute in Htd; injection Htd as <-;
    exfalso; apply Hne; reflexivity.
Defined.

(** X17 at one [PairTracer] over the capture of three records. *)
Lemma trace_keeps_tracers_live_witness :
  exists final,
    trace Sample.btox codec route_on pair_call [record1; record2; record3] [PairTracer]
    = Ok final
    /\ length final = 1%nat
    /\ Forall (fun t => current_state t <> None) final.
Proof.
  destruct (trace_keeps_tracers_live pair_call [PairTracer] Sample.btox codec route_on
              [record1; record2; record3]) as (Hlive & Htotal).
  - intros f Hin. apply list_elem_of_singleton in Hin. subst f. discriminate.
  - destruct Htotal as [final Hfinal].
    + intros fn t p. destruct fn; eexists; reflexivity.
    + exists final. split; [exact Hfinal|]. apply Hlive. exact Hfinal.
Defined.

End MoreRuns.
